(** * RFSN code gate: gate, episode loop, patch validation, bandit, quarantine

    A shallow embedding of the gated proposal/execution loop of the
    repository (agent/loop.py, agent/deepseek_agent.py) and of its learning
    layer (rfsn_controller/learning/strategy_bandit.py, quarantine.py),
    followed by the properties checked against the specification.

    Conventions.
    - Python [str] is [string]: a sequence of 8-bit code points.
    - Python [int] is [Z]; Python [float] is the primitive binary64 [float].
    - A call that can raise returns a [result]; the exception is a value.
    - A call that may not return at all gives an [option] of it.
    - Mutable objects are threaded explicitly (state passing). *)

From Stdlib Require Import ZArith String Ascii List Bool Lia Floats DecimalString.
From Stdlib Require OrderedTypeEx.
From stdpp Require Import gmap strings list fin_maps.

Local Open Scope string_scope.
Local Open Scope list_scope.
#[local] Set Warnings "-register-all,-abstract-large-number,-inexact-float".

(** ** Python string primitives used by the sources *)

Module PyStr.

(** The line separator of [str.split("\n")]. *)
Definition nl : ascii := "010"%char.

(** [s.split("\n")]: never empty, [""] splits into [[""]]. *)
Fixpoint split_nl (s : string) : list string :=
  match s with
  | EmptyString => [EmptyString]
  | String c s' =>
      if Ascii.eqb c nl then EmptyString :: split_nl s'
      else match split_nl s' with
           | h :: t => String c h :: t
           | [] => [String c EmptyString]
           end
  end.

(** [s.startswith(p)]. *)
Definition startswith (s p : string) : bool := String.prefix p s.

(** [needle in hay] on strings. *)
Fixpoint contains (needle hay : string) : bool :=
  String.prefix needle hay
  || match hay with
     | EmptyString => false
     | String _ hay' => contains needle hay'
     end.

(** [str.isspace] on one code point below 256: TAB..CR, FS..US, space,
    NEL and NBSP. *)
Definition is_space (c : ascii) : bool :=
  let n := nat_of_ascii c in
  ((9 <=? n)%nat && (n <=? 13)%nat)
  || ((28 <=? n)%nat && (n <=? 32)%nat)
  || (n =? 133)%nat || (n =? 160)%nat.

Fixpoint lstrip (s : string) : string :=
  match s with
  | EmptyString => EmptyString
  | String c s' => if is_space c then lstrip s' else s
  end.

Fixpoint rstrip (s : string) : string :=
  match s with
  | EmptyString => EmptyString
  | String c s' =>
      match rstrip s' with
      | EmptyString => if is_space c then EmptyString else String c EmptyString
      | r => String c r
      end
  end.

(** [s.strip()]. *)
Definition strip (s : string) : string := rstrip (lstrip s).

(** [str.lower] on one code point below 256: A..Z and the Latin-1 capitals
    (0xC0..0xDE except the multiplication sign 0xD7) move up by 32. *)
Definition lower_char (c : ascii) : ascii :=
  let n := nat_of_ascii c in
  if ((65 <=? n)%nat && (n <=? 90)%nat)
     || ((192 <=? n)%nat && (n <=? 222)%nat && negb (n =? 215)%nat)
  then ascii_of_nat (n + 32) else c.

Fixpoint lower (s : string) : string :=
  match s with
  | EmptyString => EmptyString
  | String c s' => String (lower_char c) (lower s')
  end.

(** [s[1:]]. *)
Definition tail1 (s : string) : string :=
  match s with
  | EmptyString => EmptyString
  | String _ t => t
  end.

(** [sep.join(parts)]. *)
Fixpoint join (sep : string) (parts : list string) : string :=
  match parts with
  | [] => EmptyString
  | [p] => p
  | p :: rest => p +:+ sep +:+ join sep rest
  end.

(** Truthiness of a string: [not s] is [s == ""]. *)
Definition nonempty (s : string) : bool :=
  match s with EmptyString => false | _ => true end.

(** [s[n:]] and [s[:n]] for a non-negative literal [n]. *)
Fixpoint drop_str (n : nat) (s : string) : string :=
  match n, s with
  | O, _ => s
  | S n', String _ s' => drop_str n' s'
  | S _, EmptyString => EmptyString
  end.

Fixpoint take_str (n : nat) (s : string) : string :=
  match n, s with
  | S n', String c s' => String c (take_str n' s')
  | _, _ => EmptyString
  end.

(** [s.replace(old, new, 1)]: the first occurrence only; an empty [old]
    matches at position 0. *)
Fixpoint replace_first (old new s : string) : string :=
  if String.prefix old s then new +:+ drop_str (String.length old) s
  else match s with
       | EmptyString => EmptyString
       | String c s' => String c (replace_first old new s')
       end.

(** [s.find(sub)] for a [sub] that occurs in [s]: the offset of the first
    occurrence (the length of [s] when there is none; the sources call it
    only after an [in] test). *)
Fixpoint find_str (sub s : string) : nat :=
  if String.prefix sub s then O
  else match s with
       | EmptyString => O
       | String _ s' => S (find_str sub s')
       end.

(** [s.split("\t")[0]]. *)
Fixpoint before_tab (s : string) : string :=
  match s with
  | EmptyString => EmptyString
  | String c s' =>
      if Ascii.eqb c "009"%char then EmptyString else String c (before_tab s')
  end.

(** [s.endswith("\n")]. *)
Fixpoint ends_with_nl (s : string) : bool :=
  match s with
  | EmptyString => false
  | String c EmptyString => Ascii.eqb c nl
  | String _ s' => ends_with_nl s'
  end.

(** [" " * n]. *)
Fixpoint spaces (n : nat) : string :=
  match n with
  | O => EmptyString
  | S n' => String " "%char (spaces n')
  end.

End PyStr.

(** ** Patch validation (agent/deepseek_agent.py, [_validate_patch]) *)

Module Patch.
Import PyStr.

(** One iteration of the collecting loop over the diff lines: headers,
    hunk markers and [diff --git] lines are skipped, a [-] line adds its
    tail to the removals, a [+] line adds its tail to the additions. *)
Definition collect_line (acc : list string * list string) (line : string)
  : list string * list string :=
  let '(removals, additions) := acc in
  if startswith line "---" || startswith line "+++" || startswith line "@@"
  then acc
  else if startswith line "diff --git" then acc
  else if startswith line "-" && negb (startswith line "---")
  then (removals ++ [tail1 line], additions)
  else if startswith line "+" && negb (startswith line "+++")
  then (removals, additions ++ [tail1 line])
  else acc.

Definition collect (lines : list string) : list string * list string :=
  fold_left collect_line lines ([], []).

Definition removals_of (diff : string) : list string :=
  fst (collect (split_nl diff)).

Definition additions_of (diff : string) : list string :=
  snd (collect (split_nl diff)).

(** [removals == additions] on lists of strings. *)
Fixpoint list_eqb (xs ys : list string) : bool :=
  match xs, ys with
  | [], [] => true
  | x :: xs', y :: ys' => String.eqb x y && list_eqb xs' ys'
  | _, _ => false
  end.

(** The [for rem, add in zip(removals, additions)] loop with its [break]:
    true as soon as one aligned pair differs after stripping. *)
Fixpoint zip_differs (removals additions : list string) : bool :=
  match removals, additions with
  | r :: rs, a :: ads =>
      if negb (String.eqb (strip r) (strip a)) then true
      else zip_differs rs ads
  | _, _ => false
  end.

Definition is_nil {A} (l : list A) : bool :=
  match l with [] => true | _ => false end.

Definition _validate_patch (diff : string) : bool * string :=
  if negb (nonempty diff) || negb (nonempty (strip diff))
  then (false, "Empty diff")
  else
    let removals := removals_of diff in
    let additions := additions_of diff in
    if is_nil removals && is_nil additions
    then (false, "No changes in diff (no + or - lines)")
    else if list_eqb removals additions
    then (false, "No-op patch: removed lines identical to added lines")
    else
      let has_real_change := zip_differs removals additions in
      let has_real_change :=
        if negb (length removals =? length additions)%nat then true
        else has_real_change in
      if negb has_real_change && negb (is_nil removals)
         && negb (is_nil additions)
      then (false, "No meaningful changes (only whitespace differences)")
      else (true, "").

End Patch.

(** ** Python values, exceptions and the data model *)

Module Py.

Inductive exn : Type :=
| TypeError (msg : string)
| AttributeError (msg : string)
| KeyError (key : string)
| ValueError (msg : string)
| ZeroDivisionError (msg : string)
| FileNotFoundError (msg : string)
| TimeoutExpired (msg : string)
| IndexError (msg : string)
| OtherError (msg : string).

(** [str(e)]. *)
Definition exn_str (e : exn) : string :=
  match e with
  | TypeError m | AttributeError m | ValueError m | ZeroDivisionError m
  | FileNotFoundError m | TimeoutExpired m | IndexError m | OtherError m => m
  | KeyError k => "'" +:+ k +:+ "'"
  end.

Inductive result (A : Type) : Type :=
| Ok (a : A)
| Raise (e : exn).
Arguments Ok {A} a.
Arguments Raise {A} e.

#[global] Instance result_bind : MBind result :=
  fun A B (k : A -> result B) (r : result A) =>
    match r with
    | Ok a => k a
    | Raise e => Raise e
    end.

#[global] Instance result_ret : MRet result := fun A a => Ok a.

(** Code that mutates a state [S] and may raise: the mutations made before
    an exception stay. *)
Definition Eff (S A : Type) : Type := S -> S * result A.

#[global] Instance eff_ret {S} : MRet (Eff S) := fun A a s => (s, Ok a).

#[global] Instance eff_bind {S} : MBind (Eff S) :=
  fun A B (k : A -> Eff S B) (m : Eff S A) s =>
    match m s with
    | (s', Ok a) => k a s'
    | (s', Raise e) => (s', Raise e)
    end.

Definition get {S} : Eff S S := fun s => (s, Ok s).
Definition modify {S} (f : S -> S) : Eff S unit := fun s => (f s, Ok tt).
Definition raise {S A} (e : exn) : Eff S A := fun s => (s, Raise e).
Definition lift {S A} (r : result A) : Eff S A := fun s => (s, r).

(** [try: m except Exception as e: handler e]. *)
Definition try_except {S A} (m : Eff S A) (handler : exn -> Eff S A) : Eff S A :=
  fun s =>
    match m s with
    | (s', Ok a) => (s', Ok a)
    | (s', Raise e) => handler e s'
    end.

(** The values a [Dict[str, Any]] of the sources holds. *)
Inductive value : Type :=
| VNone
| VBool (b : bool)
| VInt (z : Z)
| VStr (s : string)
| VList (l : list value)
| VDict (d : list (string * value)).

(** [str(n)] for an [int]. *)
Definition str_of_Z (z : Z) : string := NilZero.string_of_int (Z.to_int z).

(** Truthiness of a value. *)
Definition truthy (v : value) : bool :=
  match v with
  | VNone => false
  | VBool b => b
  | VInt z => negb (z =? 0)%Z
  | VStr s => PyStr.nonempty s
  | VList l => match l with [] => false | _ => true end
  | VDict d => match d with [] => false | _ => true end
  end.

Definition type_name (v : value) : string :=
  match v with
  | VNone => "NoneType"
  | VBool _ => "bool"
  | VInt _ => "int"
  | VStr _ => "str"
  | VList _ => "list"
  | VDict _ => "dict"
  end.

(** [len(v)]. *)
Definition py_len (v : value) : result Z :=
  match v with
  | VStr s => Ok (Z.of_nat (String.length s))
  | VList l => Ok (Z.of_nat (length l))
  | VDict d => Ok (Z.of_nat (length d))
  | _ => Raise (TypeError ("object of type '" +:+ type_name v +:+ "' has no len()"))
  end.

Fixpoint chars (s : string) : list value :=
  match s with
  | EmptyString => []
  | String c s' => VStr (String c EmptyString) :: chars s'
  end.

(** The items a [for x in v] loop visits. *)
Definition py_iter (v : value) : result (list value) :=
  match v with
  | VStr s => Ok (chars s)
  | VList l => Ok l
  | VDict d => Ok (map (fun kv => VStr (fst kv)) d)
  | _ => Raise (TypeError ("'" +:+ type_name v +:+ "' object is not iterable"))
  end.

(** Access to a [str] method of a value: only a [str] has it. *)
Definition str_method (meth : string) (v : value) : result string :=
  match v with
  | VStr s => Ok s
  | _ => Raise (AttributeError ("'" +:+ type_name v
                  +:+ "' object has no attribute '" +:+ meth +:+ "'"))
  end.

(** [d.get(key, default)] on a dictionary held as a finite map. *)
Definition dict_get (d : gmap string value) (key : string) (default : value) : value :=
  match d !! key with
  | Some v => v
  | None => default
  end.

(** [repr] of a list of plain strings, as an f-string prints it. *)
Definition repr_str_list (l : list string) : string :=
  "[" +:+ PyStr.join ", " (map (fun s => "'" +:+ s +:+ "'") l) +:+ "]".

End Py.

(** The records of agent/types.py, as the loop, the gate and the executor
    use them. *)

Module Types.
Import Py.

Inductive Phase : Type :=
| INGEST | LOCALIZE | PLAN | PATCH_CANDIDATES | TEST_STAGE
| DIAGNOSE | MINIMIZE | FINALIZE | DONE.

#[global] Instance Phase_eq_dec : EqDecision Phase.
Proof. solve_decision. Defined.

Definition all_phases : list Phase :=
  [INGEST; LOCALIZE; PLAN; PATCH_CANDIDATES; TEST_STAGE;
   DIAGNOSE; MINIMIZE; FINALIZE; DONE].

Record Proposal : Type := mkProposal {
  kind : string;
  rationale : string;
  inputs : gmap string value;
  evidence : list value;
}.

Record GateDecision : Type := mkGateDecision {
  accept : bool;
  reason : string;
}.

Record ExecResult : Type := mkExecResult {
  status : string;
  summary : string;
  artifacts : value;
  metrics : gmap string value;
}.

Record BudgetState : Type := mkBudgetState {
  round_idx : Z;
  patch_attempts : Z;
  test_runs : Z;
  model_calls : Z;
}.

Record RepoFingerprint : Type := mkRepoFingerprint {
  repo_id : string;
  commit_sha : string;
  workdir : string;
  language : string;
}.

Record AgentState : Type := mkAgentState {
  task_id : string;
  repo : RepoFingerprint;
  phase : Phase;
  budget : BudgetState;
  notes : gmap string value;
  localization_hits : list value;
  touched_files : list value;
  last_failures : list (string * string);
}.

(** The profile (agent/profiles.py): the limits the gate and the loop read. *)
Record Profile : Type := mkProfile {
  name : string;
  max_rounds : Z;
  max_patch_attempts : Z;
  max_test_runs : Z;
  max_model_calls : Z;
  max_files_touched : Z;
  max_diff_lines : Z;
  forbid_test_modifications : bool;
}.

Record LedgerEvent : Type := mkLedgerEvent {
  ev_task_id : string;
  ev_repo_id : string;
  ev_phase : Phase;
  ev_proposal : Proposal;
  ev_gate_decision : GateDecision;
  ev_exec_result : ExecResult;
  ev_result : gmap string value;
}.

(** Field updates ([state.phase = ...], [state.budget.x += 1], ...). *)
Definition set_phase (p : Phase) (s : AgentState) : AgentState :=
  mkAgentState s.(task_id) s.(repo) p s.(budget) s.(notes)
    s.(localization_hits) s.(touched_files) s.(last_failures).

Definition set_budget (b : BudgetState) (s : AgentState) : AgentState :=
  mkAgentState s.(task_id) s.(repo) s.(phase) b s.(notes)
    s.(localization_hits) s.(touched_files) s.(last_failures).

Definition set_notes (n : gmap string value) (s : AgentState) : AgentState :=
  mkAgentState s.(task_id) s.(repo) s.(phase) s.(budget) n
    s.(localization_hits) s.(touched_files) s.(last_failures).

Definition set_localization_hits (h : list value) (s : AgentState) : AgentState :=
  mkAgentState s.(task_id) s.(repo) s.(phase) s.(budget) s.(notes)
    h s.(touched_files) s.(last_failures).

Definition set_touched_files (t : list value) (s : AgentState) : AgentState :=
  mkAgentState s.(task_id) s.(repo) s.(phase) s.(budget) s.(notes)
    s.(localization_hits) t s.(last_failures).

Definition set_last_failures (f : list (string * string)) (s : AgentState) : AgentState :=
  mkAgentState s.(task_id) s.(repo) s.(phase) s.(budget) s.(notes)
    s.(localization_hits) s.(touched_files) f.

Definition set_note (k : string) (v : value) (s : AgentState) : AgentState :=
  set_notes (<[k := v]> s.(notes)) s.

Definition incr_round_idx (b : BudgetState) : BudgetState :=
  mkBudgetState (b.(round_idx) + 1) b.(patch_attempts) b.(test_runs) b.(model_calls).

Definition incr_patch_attempts (b : BudgetState) : BudgetState :=
  mkBudgetState b.(round_idx) (b.(patch_attempts) + 1) b.(test_runs) b.(model_calls).

Definition incr_test_runs (b : BudgetState) : BudgetState :=
  mkBudgetState b.(round_idx) b.(patch_attempts) (b.(test_runs) + 1) b.(model_calls).

Definition incr_model_calls (b : BudgetState) : BudgetState :=
  mkBudgetState b.(round_idx) b.(patch_attempts) b.(test_runs) (b.(model_calls) + 1).

End Types.

(** ** The gate (agent/deepseek_agent.py, [gate]) *)

Module Gate.
Import PyStr Py Types.

(** [_allowed_kinds_for_phase]: every phase is a key of the table, so the
    [.get] default is never taken. *)
Definition _allowed_kinds_for_phase (phase : Phase) : list string :=
  match phase with
  | INGEST => ["inspect"; "search"]
  | LOCALIZE => ["inspect"; "search"]
  | PLAN => ["inspect"; "search"; "edit"]
  | PATCH_CANDIDATES => ["edit"; "inspect"; "search"]
  | TEST_STAGE => ["run_tests"; "inspect"]
  | DIAGNOSE => ["inspect"; "search"; "edit"]
  | MINIMIZE => ["edit"; "inspect"; "run_tests"]
  | FINALIZE => ["finalize"; "run_tests"]
  | DONE => []
  end.

(** [x in l] for a list of strings. *)
Definition str_in (x : string) (l : list string) : bool :=
  existsb (String.eqb x) l.

Definition forbidden_dirs : list string :=
  ["vendor/"; "node_modules/"; ".venv/"; "dist/"; "build/"; "target/"].

(** The inner loop over [forbidden_dirs] for one entry [f] of [files]:
    the first directory that [f] starts with or contains after a slash. *)
Fixpoint forbidden_dir_of (f : value) (dirs : list string) : result (option string) :=
  match dirs with
  | [] => Ok None
  | d :: ds =>
      s ← str_method "startswith" f;
      if startswith s d || contains ("/" +:+ d) s then Ok (Some d)
      else forbidden_dir_of f ds
  end.

(** The outer loop over [files]. *)
Fixpoint first_forbidden (files : list value) : result (option string) :=
  match files with
  | [] => Ok None
  | f :: fs =>
      r ← forbidden_dir_of f forbidden_dirs;
      match r with
      | Some d => Ok (Some d)
      | None => first_forbidden fs
      end
  end.

(** [len([line for line in diff.split("\n")
          if line.startswith("+") or line.startswith("-")])]. *)
Definition count_diff_lines (diff : string) : Z :=
  Z.of_nat (length (List.filter
    (fun line => startswith line "+" || startswith line "-")
    (split_nl diff))).

(** The loop of the test-modification check: the first entry whose
    lower-cased path contains [test] or that starts with [tests/]. *)
Fixpoint first_test_file (files : list value) : result (option string) :=
  match files with
  | [] => Ok None
  | f :: fs =>
      s ← str_method "lower" f;
      if contains "test" (lower s) || startswith s "tests/" then Ok (Some s)
      else first_test_file fs
  end.

Definition reject (why : string) : GateDecision := mkGateDecision false why.

Section WithPhaseValues.

(** [Phase.value]: the string of each member of the enumeration. *)
Variable phase_value : Phase -> string.

(** Step 3 of the gate, for an edit: [Some d] is an early [return d]. *)
Definition gate_file_constraints (profile : Profile) (proposal : Proposal)
  : result (option GateDecision) :=
  let files := dict_get proposal.(inputs) "files" (VList []) in
  n ← py_len files;
  if (profile.(max_files_touched) <? n)%Z
  then Ok (Some (reject ("Too many files (" +:+ str_of_Z n +:+ " > "
                   +:+ str_of_Z profile.(max_files_touched) +:+ ")")))
  else
    items ← py_iter files;
    fd ← first_forbidden items;
    match fd with
    | Some d => Ok (Some (reject ("Cannot edit forbidden directory: " +:+ d)))
    | None =>
        let diff := dict_get proposal.(inputs) "diff" (VStr "") in
        d ← str_method "split" diff;
        let diff_lines := count_diff_lines d in
        if (profile.(max_diff_lines) <? diff_lines)%Z
        then Ok (Some (reject ("Diff too large (" +:+ str_of_Z diff_lines
                         +:+ " > " +:+ str_of_Z profile.(max_diff_lines)
                         +:+ " lines)")))
        else Ok None
    end.

(** Step 4 of the gate. *)
Definition gate_test_constraint (profile : Profile) (proposal : Proposal)
  : result GateDecision :=
  if profile.(forbid_test_modifications) && String.eqb proposal.(kind) "edit"
  then
    let files := dict_get proposal.(inputs) "files" (VList []) in
    items ← py_iter files;
    tf ← first_test_file items;
    match tf with
    | Some f => Ok (reject ("Test modification forbidden by profile: " +:+ f))
    | None => Ok (mkGateDecision true "All constraints satisfied")
    end
  else Ok (mkGateDecision true "All constraints satisfied").

Definition gate (profile : Profile) (state : AgentState) (proposal : Proposal)
  : result GateDecision :=
  let allowed_kinds := _allowed_kinds_for_phase state.(phase) in
  if negb (str_in proposal.(kind) allowed_kinds)
  then Ok (reject ("Action '" +:+ proposal.(kind) +:+ "' not allowed in phase "
             +:+ phase_value state.(phase) +:+ ". Allowed: "
             +:+ repr_str_list allowed_kinds))
  else if String.eqb proposal.(kind) "run_tests"
          && (profile.(max_test_runs) <=? state.(budget).(test_runs))%Z
  then Ok (reject ("Test budget exhausted ("
             +:+ str_of_Z state.(budget).(test_runs) +:+ "/"
             +:+ str_of_Z profile.(max_test_runs) +:+ ")"))
  else if String.eqb proposal.(kind) "edit"
          && (profile.(max_patch_attempts) <=? state.(budget).(patch_attempts))%Z
  then Ok (reject ("Patch budget exhausted ("
             +:+ str_of_Z state.(budget).(patch_attempts) +:+ "/"
             +:+ str_of_Z profile.(max_patch_attempts) +:+ ")"))
  else
    early ← (if String.eqb proposal.(kind) "edit"
              then gate_file_constraints profile proposal
              else Ok None);
    match early with
    | Some d => Ok d
    | None => gate_test_constraint profile proposal
    end.

End WithPhaseValues.

End Gate.

(** ** The executor (agent/deepseek_agent.py, [execute] and its helpers) *)

Module Exec.
Import PyStr Py Types Patch.

(** The host the executor runs on: the working tree, [git], the search
    tools and the test runner.  [W] is the state of everything outside
    [AgentState]; each operation takes the work directory of the task. *)
Record Host (W : Type) : Type := mkHost {
  (** [(workdir / f).exists()] *)
  path_exists : W -> string -> string -> bool;
  (** [(workdir / f).read_text()] *)
  read_text : W -> string -> string -> result string;
  (** [(workdir / f).write_text(text)] *)
  write_text : string -> string -> string -> Eff W unit;
  (** the temporary patch file and [git apply --check]: return code, stderr *)
  git_apply_check : W -> string -> string -> result (Z * string);
  (** [git apply --3way] on the same patch file: return code, stderr *)
  git_apply_3way : string -> string -> Eff W (Z * string);
  (** the order in which a [set] built from this list is iterated:
      its distinct elements in an order the interpreter chooses *)
  set_order : list string -> list string;
  (** [repr] (and [str] of anything but a [str]) *)
  py_repr : value -> string;
  (** [rg -l --max-count 5 query]: return code, stdout *)
  run_rg : W -> string -> value -> result (Z * string);
  (** [grep -rl --include=*.py query .]: return code, stdout *)
  run_grep : W -> string -> value -> result (Z * string);
  (** the directory walk of the Python fallback search: at most 20 paths *)
  walk_search : W -> string -> value -> result (list string);
  (** the test command: return code, stdout *)
  run_tests_cmd : string -> value -> Eff W (Z * string);
}.
Arguments path_exists {W}.
Arguments read_text {W}.
Arguments write_text {W}.
Arguments git_apply_check {W}.
Arguments git_apply_3way {W}.
Arguments set_order {W}.
Arguments py_repr {W}.
Arguments run_rg {W}.
Arguments run_grep {W}.
Arguments walk_search {W}.
Arguments run_tests_cmd {W}.

Definition nl_str : string := String nl EmptyString.

Definition ok_result (summary : string) (artifacts : value)
  (metrics : gmap string value) : ExecResult :=
  mkExecResult "ok" summary artifacts metrics.

Definition fail_result (summary : string) (metrics : gmap string value) : ExecResult :=
  mkExecResult "fail" summary (VList []) metrics.

(** [_repair_patch]: the loop over the enumerated lines.  [i] is the index
    of the head of [rest]; [lines[:i]] is [take i lines]. *)
Fixpoint repair_lines (lines : list string) (i : nat) (in_header : bool)
  (rest : list string) : list string :=
  match rest with
  | [] => []
  | line :: rest' =>
      let header :=
        if in_header && startswith line "---" && (i =? 0)%nat
        then
          match nth_error lines (i + 1) with
          | Some next =>
              if startswith next "+++"
              then
                let src := before_tab (strip (drop_str 4 line)) in
                let dst := before_tab (strip (drop_str 4 next)) in
                let src := if startswith src "a/" then drop_str 2 src else src in
                let dst := if startswith dst "b/" then drop_str 2 dst else dst in
                if negb (existsb (fun ln => startswith ln "diff --git")
                           (firstn i lines))
                then ["diff --git a/" +:+ src +:+ " b/" +:+ dst]
                else []
              else []
          | None => []
          end
        else [] in
      let in_header := if startswith line "@@" then false else in_header in
      header ++ line :: repair_lines lines (S i) in_header rest'
  end.

Definition _repair_patch (diff : string) : string :=
  let lines := split_nl diff in
  let result := join nl_str (repair_lines lines 0 true lines) in
  if negb (ends_with_nl result) then result +:+ nl_str else result.

Section WithHost.

Context {W : Type}.
Variable host : Host W.

(** What an f-string prints for a value. *)
Definition fmt (v : value) : string :=
  match v with
  | VStr s => s
  | _ => py_repr host v
  end.

(** [_extract_files_from_diff]. *)
Definition diff_header_paths (diff : string) : list string :=
  flat_map (fun line =>
    if startswith line "+++ b/" || startswith line "--- a/"
    then
      let path := strip (drop_str 6 line) in
      if nonempty path && negb (String.eqb path "/dev/null") then [path] else []
    else []) (split_nl diff).

Definition _extract_files_from_diff (diff : string) : list string :=
  set_order host (diff_header_paths diff).

(** The [+]/[-] lines of [_try_direct_edit], headers excluded. *)
Definition direct_collect_line (acc : list string * list string) (line : string)
  : list string * list string :=
  let '(additions, deletions) := acc in
  if startswith line "+" && negb (startswith line "+++")
  then (additions ++ [tail1 line], deletions)
  else if startswith line "-" && negb (startswith line "---")
  then (additions, deletions ++ [tail1 line])
  else acc.

(** Strategy 2 of [_try_direct_edit]: line-by-line replacement. *)
Fixpoint replace_lines (i : nat) (deletions additions : list string)
  (modified : string) : string :=
  match deletions with
  | [] => modified
  | old_line :: rest =>
      let modified :=
        if nonempty old_line && contains old_line modified
        then replace_first old_line (nth i additions EmptyString) modified
        else modified in
      replace_lines (S i) rest additions modified
  end.

(** Strategy 3 of [_try_direct_edit]: insert after a context line. *)
Definition is_context_line (l : string) : bool :=
  nonempty l
  && negb (startswith l "+" || startswith l "-" || startswith l "@"
           || startswith l "diff" || startswith l "---" || startswith l "+++").

Fixpoint insert_after_context (ctxs : list string) (new_block content : string)
  : string :=
  match ctxs with
  | [] => content
  | ctx :: rest =>
      let c := strip ctx in
      if nonempty c && contains c content
      then
        let idx := (find_str c content + String.length c)%nat in
        take_str idx content +:+ nl_str +:+ new_block +:+ drop_str idx content
      else insert_after_context rest new_block content
  end.

Definition direct_modified (diff content : string)
  (additions deletions : list string) : string :=
  let old_block := join nl_str deletions in
  let new_block := join nl_str additions in
  if nonempty old_block && contains old_block content
  then replace_first old_block new_block content
  else if negb (is_nil deletions)
  then replace_lines 0 deletions additions content
  else if negb (is_nil additions) && is_nil deletions
  then insert_after_context
         (firstn 3 (List.filter is_context_line (split_nl diff)))
         new_block content
  else content.

Definition bump_patch_attempts : Eff (AgentState * W) unit :=
  modify (fun '(state, w) =>
    (set_budget (incr_patch_attempts state.(budget)) state, w)).

(** [fpath.write_text(text)] inside the executor state. *)
Definition do_write (workdir fname text : string) : Eff (AgentState * W) unit :=
  fun '(state, w) =>
    let '(w', r) := write_text host workdir fname text w in
    ((state, w'), r).

(** The loop of [_try_direct_edit] over the candidate files: an exception
    while reading or writing moves on to the next file. *)
Fixpoint direct_edit_files (diff : string) (additions deletions : list string)
  (files : list string) : Eff (AgentState * W) (option ExecResult) :=
  match files with
  | [] => mret None
  | fname :: rest =>
      '(state, w) ← get;
      let workdir := state.(repo).(workdir) in
      if negb (path_exists host w workdir fname)
      then direct_edit_files diff additions deletions rest
      else
        r ← try_except
               (content ← lift (read_text host w workdir fname);
                let modified := direct_modified diff content additions deletions in
                if negb (String.eqb modified content)
                then
                  _ ← do_write workdir fname modified;
                  _ ← bump_patch_attempts;
                  mret (Some (ok_result ("Applied direct edit to " +:+ fname)
                                (VList [VStr fname]) ∅))
                else mret None)
               (fun _ => mret None);
        match r with
        | Some res => mret (Some res)
        | None => direct_edit_files diff additions deletions rest
        end
  end.

Definition _try_direct_edit (proposal : Proposal) (diff : string)
  : Eff (AgentState * W) (option ExecResult) :=
  let files := _extract_files_from_diff diff in
  if is_nil files then mret None
  else
    let '(additions, deletions) :=
      fold_left direct_collect_line (split_nl diff) ([], []) in
    if is_nil additions && is_nil deletions then mret None
    else direct_edit_files diff additions deletions files.

(** The parsing loop of [_try_structured_edit]: the last header path seen,
    and the removed and added lines. *)
Definition structured_parse_line
  (acc : option string * list string * list string) (line : string)
  : option string * list string * list string :=
  let '(current_file, removals, additions) := acc in
  if startswith line "--- a/"
  then (Some (before_tab (drop_str 6 line)), removals, additions)
  else if startswith line "+++ b/"
  then (Some (before_tab (drop_str 6 line)), removals, additions)
  else if startswith line "-" && negb (startswith line "---")
  then (current_file, removals ++ [tail1 line], additions)
  else if startswith line "+" && negb (startswith line "+++")
  then (current_file, removals, additions ++ [tail1 line])
  else acc.

(** [removals.index(x)]. *)
Fixpoint index_of (x : string) (l : list string) : nat :=
  match l with
  | [] => O
  | y :: l' => if String.eqb x y then O else S (index_of x l')
  end.

(** The inner loop over the lines of the original file, with its [break]:
    the first line that equals [old_stripped] once stripped is replaced,
    keeping its indentation. *)
Fixpoint fuzzy_replace_line (old_stripped new_line : string)
  (orig_lines : list string) (acc : string * bool) : string * bool :=
  match orig_lines with
  | [] => acc
  | orig_line :: rest =>
      if String.eqb (strip orig_line) old_stripped
      then
        let indent := (String.length orig_line
                       - String.length (lstrip orig_line))%nat in
        let new_with_indent := spaces indent +:+ strip new_line in
        (replace_first orig_line new_with_indent (fst acc), true)
      else fuzzy_replace_line old_stripped new_line rest acc
  end.

(** The outer loop over the removed lines. *)
Fixpoint fuzzy_replace (all_removals additions : list string) (original : string)
  (removals : list string) (acc : string * bool) : string * bool :=
  match removals with
  | [] => acc
  | old_line :: rest =>
      let old_stripped := strip old_line in
      let acc :=
        if nonempty old_stripped && contains old_stripped original
        then
          let idx := index_of old_line all_removals in
          let new_line := nth idx additions EmptyString in
          fuzzy_replace_line old_stripped new_line (split_nl original) acc
        else acc in
      fuzzy_replace all_removals additions original rest acc
  end.

Definition structured_modified (original : string)
  (removals additions : list string) : string * bool :=
  if negb (is_nil removals)
  then
    let old_block := join nl_str removals in
    let new_block := if negb (is_nil additions) then join nl_str additions
                     else EmptyString in
    if contains old_block original
    then (replace_first old_block new_block original, true)
    else fuzzy_replace removals additions original removals (original, false)
  else (original, false).

Definition _try_structured_edit (proposal : Proposal) (diff : string)
  : Eff (AgentState * W) (option ExecResult) :=
  let files := dict_get proposal.(inputs) "files" (VList []) in
  let no_files :=
    if truthy files then false else is_nil (_extract_files_from_diff diff) in
  if no_files then mret None
  else
    let '(current_file, removals, additions) :=
      fold_left structured_parse_line (split_nl diff) (None, [], []) in
    match current_file with
    | None => mret None
    | Some current_file =>
        if negb (nonempty current_file) || (is_nil removals && is_nil additions)
        then mret None
        else
          '(state, w) ← get;
          let workdir := state.(repo).(workdir) in
          if negb (path_exists host w workdir current_file) then mret None
          else
            try_except
              (original ← lift (read_text host w workdir current_file);
               let '(modified, changes_made) :=
                 structured_modified original removals additions in
               if changes_made && negb (String.eqb modified original)
               then
                 _ ← do_write workdir current_file modified;
                 _ ← bump_patch_attempts;
                 mret (Some (ok_result
                               ("Applied structured edit to " +:+ current_file)
                               (VList [VStr current_file]) ∅))
               else mret None)
              (fun _ => mret None)
    end.

(** [git apply --3way] inside the executor state. *)
Definition do_git_apply_3way (workdir diff : string)
  : Eff (AgentState * W) (Z * string) :=
  fun '(state, w) =>
    let '(w', r) := git_apply_3way host workdir diff w in
    ((state, w'), r).

(** [_exec_edit]. *)
Definition _exec_edit (proposal : Proposal) : Eff (AgentState * W) ExecResult :=
  let diff := dict_get proposal.(inputs) "diff" (VStr "") in
  if negb (truthy diff) then mret (fail_result "No diff provided" ∅)
  else
    diff ← lift (str_method "strip" diff);
    let '(is_valid, error) := _validate_patch diff in
    if negb is_valid
    then mret (fail_result ("Invalid patch: " +:+ error)
                 (<["validation_error" := VStr error]>
                    (<["diff_preview" := VStr (take_str 500 diff)]> ∅)))
    else
      let diff := _repair_patch diff in
      try_except
        ('(state, w) ← get;
         let workdir := state.(repo).(workdir) in
         '(returncode, stderr) ← lift (git_apply_check host w workdir diff);
         if negb (returncode =? 0)%Z
         then
           edit_result ← _try_direct_edit proposal diff;
           match edit_result with
           | Some res => mret res
           | None =>
               structured_result ← _try_structured_edit proposal diff;
               match structured_result with
               | Some res => mret res
               | None =>
                   mret (fail_result
                           ("Patch check failed: " +:+ take_str 200 stderr)
                           (<["stderr" := VStr stderr]>
                              (<["diff" := VStr (take_str 1000 diff)]> ∅)))
               end
           end
         else
           '(returncode, stderr) ← do_git_apply_3way workdir diff;
           if (returncode =? 0)%Z
           then
             let files := dict_get proposal.(inputs) "files" (VList []) in
             _ ← bump_patch_attempts;
             n ← lift (py_len files);
             mret (ok_result ("Patch applied successfully (" +:+ str_of_Z n
                              +:+ " files)") files ∅)
           else mret (fail_result
                        ("Patch apply failed: " +:+ take_str 200 stderr) ∅))
        (fun e => mret (fail_result ("Edit failed: " +:+ exn_str e) ∅)).

(** *** The other executors *)

(** [content[:200]] printed in an f-string. *)
Definition preview (n : nat) (content : value) : result string :=
  match content with
  | VStr s => Ok (take_str n s)
  | VList l => Ok (fmt (VList (firstn n l)))
  | _ => Raise (TypeError ("'" +:+ type_name content
                  +:+ "' object is not subscriptable"))
  end.

(** A [dict] with [str] keys in insertion order: [d[k] = v]. *)
Fixpoint dict_set (d : list (string * value)) (k : string) (v : value)
  : list (string * value) :=
  match d with
  | [] => [(k, v)]
  | (k', v') :: d' =>
      if String.eqb k k' then (k, v) :: d' else (k', v') :: dict_set d' k v
  end.

(** [if f not in files_read: files_read.append(f)] for a string [f]:
    the new [files_read], or the exception the statement raises. *)
Definition files_read_add (files_read : value) (f : string) : result value :=
  match files_read with
  | VList l =>
      if existsb (fun v => match v with
                           | VStr s => String.eqb s f
                           | _ => false
                           end) l
      then Ok files_read
      else Ok (VList (l ++ [VStr f]))
  | VStr s =>
      if contains f s then Ok files_read
      else Raise (AttributeError "'str' object has no attribute 'append'")
  | VDict d =>
      if existsb (fun kv => String.eqb (fst kv) f) d then Ok files_read
      else Raise (AttributeError "'dict' object has no attribute 'append'")
  | _ => Raise (TypeError ("argument of type '" +:+ type_name files_read
                  +:+ "' is not iterable"))
  end.

(** The reading loop of [_exec_inspect].  [aliased] tells that
    [files_read] is the list object stored in [notes], so that an append
    shows there at once. *)
Fixpoint inspect_files (aliased : bool) (files : list value)
  (contents : list (string * value)) (files_read : value)
  : Eff (AgentState * W) (list (string * value) * value) :=
  match files with
  | [] => mret (contents, files_read)
  | fv :: rest =>
      f ← lift (match fv with
                | VStr f => Ok f
                | _ => Raise (TypeError ("unsupported operand type(s) for /: "
                                +:+ "'PosixPath' and '" +:+ type_name fv +:+ "'"))
                end);
      '(state, w) ← get;
      let workdir := state.(repo).(workdir) in
      if path_exists host w workdir f
      then
        match read_text host w workdir f with
        | Ok text =>
            let contents := dict_set contents f (VStr (take_str 8000 text)) in
            match files_read_add files_read f with
            | Ok files_read' =>
                _ ← (if aliased
                     then modify (fun '(state, w) =>
                            (set_note "files_read" files_read' state, w))
                     else mret tt);
                inspect_files aliased rest contents files_read'
            | Raise e =>
                inspect_files aliased rest
                  (dict_set contents f (VStr ("Error reading: " +:+ exn_str e)))
                  files_read
            end
        | Raise e =>
            inspect_files aliased rest
              (dict_set contents f (VStr ("Error reading: " +:+ exn_str e)))
              files_read
        end
      else
        inspect_files aliased rest
          (dict_set contents f (VStr "File not found")) files_read
  end.

Definition read_hits (contents : list (string * value)) : list value :=
  flat_map (fun kv =>
    match snd kv with
    | VStr "File not found" => []
    | _ => [VDict [("file", VStr (fst kv)); ("reason", VStr "file read");
                   ("type", VStr "read")]]
    end) contents.

Definition _exec_inspect (proposal : Proposal) : Eff (AgentState * W) ExecResult :=
  let files := dict_get proposal.(inputs) "files" (VList []) in
  let query := dict_get proposal.(inputs) "query" (VStr "") in
  '(state, w) ← get;
  match query with
  | VStr "problem_statement" =>
      let content := dict_get state.(notes) "problem_statement"
                       (VStr "No problem statement available") in
      p ← lift (preview 200 content);
      mret (ok_result ("Problem statement: " +:+ p +:+ "...") (VList [])
              (<["content" := content]> ∅))
  | _ =>
      if truthy files
      then
        let aliased := match state.(notes) !! "files_read" with
                       | Some (VList _) => true
                       | _ => false
                       end in
        let files_read := dict_get state.(notes) "files_read" (VList []) in
        items ← lift (py_iter files);
        '(contents, files_read) ← inspect_files aliased items [] files_read;
        _ ← modify (fun '(state, w) =>
               (set_note "last_file_contents" (VDict contents)
                  (set_note "files_read" files_read state), w));
        _ ← modify (fun '(state, w) =>
               (set_localization_hits
                  (state.(localization_hits) ++ read_hits contents) state, w));
        let keys := VList (map (fun kv => VStr (fst kv)) contents) in
        mret (ok_result ("Read " +:+ str_of_Z (Z.of_nat (length contents))
                         +:+ " files: " +:+ fmt keys)
                keys (<["contents" := VDict contents]> ∅))
      else mret (ok_result "No files to inspect" (VList []) ∅)
  end.

(** The file names a search tool printed: at most 20 stripped lines. *)
Definition parse_matches (out : Z * string) : list string :=
  let '(returncode, stdout) := out in
  if (returncode =? 0)%Z && nonempty (strip stdout)
  then firstn 20 (map strip (List.filter (fun f => nonempty (strip f))
                               (split_nl (strip stdout))))
  else [].

(** A search tool that is not installed ([FileNotFoundError]) finds nothing;
    any other exception leaves the executor. *)
Definition tool_matches (r : result (Z * string)) : result (list string) :=
  match r with
  | Ok out => Ok (parse_matches out)
  | Raise (FileNotFoundError _) => Ok []
  | Raise e => Raise e
  end.

Definition search_hits (query : value) (files : list string) : list value :=
  map (fun f => VDict [("file", VStr f);
                       ("reason", VStr ("match for '" +:+ fmt query +:+ "'"));
                       ("type", VStr "search")]) files.

Definition _exec_search (proposal : Proposal) : Eff (AgentState * W) ExecResult :=
  let query := dict_get proposal.(inputs) "query" (VStr "") in
  if negb (truthy query) then mret (fail_result "No search query provided" ∅)
  else
    '(state, w) ← get;
    let workdir := state.(repo).(workdir) in
    files ← lift (tool_matches (run_rg host w workdir query));
    files ← (if is_nil files
             then lift (tool_matches (run_grep host w workdir query))
             else mret files);
    match (if is_nil files then walk_search host w workdir query else Ok files) with
    | Raise e => mret (fail_result ("Python search failed: " +:+ exn_str e) ∅)
    | Ok files =>
        _ ← modify (fun '(state, w) =>
               (set_localization_hits
                  (state.(localization_hits) ++ search_hits query files) state, w));
        let matches := VList (map VStr files) in
        if negb (is_nil files)
        then mret (ok_result
                     ("Found " +:+ str_of_Z (Z.of_nat (length files))
                      +:+ " files matching '" +:+ fmt query +:+ "': "
                      +:+ fmt (VList (map VStr (firstn 5 files))))
                     matches
                     (<["query" := query]> (<["matches" := matches]> ∅)))
        else mret (ok_result ("No files found matching '" +:+ fmt query +:+ "'")
                     (VList [])
                     (<["query" := query]> (<["matches" := VList []]> ∅)))
    end.

(** [s[-n:]]. *)
Definition last_str (n : nat) (s : string) : string :=
  drop_str (String.length s - n) s.

Definition failed_lines (stdout : string) : list (string * string) :=
  map (fun line => (strip line, strip line))
      (List.filter (contains "FAILED") (split_nl stdout)).

Definition do_run_tests (workdir : string) (command : value)
  : Eff (AgentState * W) (Z * string) :=
  fun '(state, w) =>
    let '(w', r) := run_tests_cmd host workdir command w in
    ((state, w'), r).

Definition _exec_run_tests (proposal : Proposal) : Eff (AgentState * W) ExecResult :=
  let command := dict_get proposal.(inputs) "command" (VStr "pytest") in
  try_except
    ('(state, w) ← get;
     '(returncode, stdout) ← do_run_tests state.(repo).(workdir) command;
     let passed := (returncode =? 0)%Z in
     _ ← modify (fun '(state, w) =>
            (set_last_failures
               (if negb passed then firstn 5 (failed_lines stdout) else [])
               state, w));
     mret (mkExecResult (if passed then "ok" else "fail")
             ("Tests " +:+ (if passed then "passed" else "failed"))
             (VList [])
             (<["test_result" :=
                  VDict [("passed", VBool passed);
                         ("returncode", VInt returncode);
                         ("stdout_tail", VStr (last_str 1000 stdout))]]> ∅)))
    (fun e =>
       match e with
       | TimeoutExpired _ => mret (fail_result "Test run timed out (5 min)" ∅)
       | _ => mret (fail_result ("Test run failed: " +:+ exn_str e) ∅)
       end).

Definition _exec_finalize (proposal : Proposal) : Eff (AgentState * W) ExecResult :=
  let summary := dict_get proposal.(inputs) "summary" (VStr "") in
  let status := dict_get proposal.(inputs) "status" (VStr "complete") in
  let solved := match status with
                | VStr "complete" => true
                | _ => false
                end in
  _ ← modify (fun '(state, w) =>
         (set_note "final_summary" summary
            (set_note "solved" (VBool solved) state), w));
  mret (ok_result ("Task finalized: " +:+ fmt status) (VList [])
          (<["final_summary" := summary]>
             (<["completion_status" := status]> ∅))).

(** [execute]: dispatch on the kind of the proposal. *)
Definition execute (profile : Profile) (proposal : Proposal)
  : Eff (AgentState * W) ExecResult :=
  if String.eqb proposal.(kind) "inspect" then _exec_inspect proposal
  else if String.eqb proposal.(kind) "search" then _exec_search proposal
  else if String.eqb proposal.(kind) "edit" then _exec_edit proposal
  else if String.eqb proposal.(kind) "run_tests" then _exec_run_tests proposal
  else if String.eqb proposal.(kind) "finalize" then _exec_finalize proposal
  else mret (fail_result ("Unknown proposal kind: " +:+ proposal.(kind)) ∅).

End WithHost.

End Exec.

(** ** The episode loop (agent/loop.py) *)

Module Loop.
Import PyStr Py Types.

(** [hash(v)], as [set(...)] asks for it: a list and a dict have none. *)
Definition check_hashable (v : value) : result unit :=
  match v with
  | VList _ | VDict _ =>
      Raise (TypeError ("unhashable type: '" +:+ type_name v +:+ "'"))
  | _ => Ok tt
  end.

(** A [bool] is the [int] 0 or 1. *)
Definition as_int (v : value) : option Z :=
  match v with
  | VBool b => Some (if b then 1 else 0)%Z
  | VInt z => Some z
  | _ => None
  end.

(** [a == b] on hashable values. *)
Definition py_eqb (a b : value) : bool :=
  match a, b with
  | VNone, VNone => true
  | VStr s, VStr t => String.eqb s t
  | _, _ =>
      match as_int a, as_int b with
      | Some m, Some n => (m =? n)%Z
      | _, _ => false
      end
  end.

(** [a < b] on hashable values: defined between two numbers and between
    two strings. *)
Definition py_ltb (a b : value) : result bool :=
  match a, b with
  | VStr s, VStr t => Ok (String.ltb s t)
  | _, _ =>
      match as_int a, as_int b with
      | Some m, Some n => Ok (m <? n)%Z
      | _, _ =>
          Raise (TypeError ("'<' not supported between instances of '"
                   +:+ type_name a +:+ "' and '" +:+ type_name b +:+ "'"))
      end
  end.

(** [set(items)] added to the members [acc]: every entry is hashed, and
    of equal entries the first one stays. *)
Fixpoint set_add_all (items acc : list value) : result (list value) :=
  match items with
  | [] => Ok acc
  | v :: rest =>
      _ ← check_hashable v;
      set_add_all rest (if existsb (py_eqb v) acc then acc else acc ++ [v])
  end.

(** [sorted(s)] on the members of a set, which are pairwise unequal: the
    ascending list when all members are numbers or all are strings, or
    when there is at most one member; [TypeError] when two members do not
    compare.  (Which two members the message names follows the order in
    which CPython visits the set; here it is the first pair the insertion
    meets.) *)
Fixpoint insert_sorted (x : value) (l : list value) : result (list value) :=
  match l with
  | [] => Ok [x]
  | y :: l' =>
      lt ← py_ltb x y;
      if lt : bool then Ok (x :: l)
      else r ← insert_sorted x l'; Ok (y :: r)
  end.

Fixpoint py_sorted (l : list value) : result (list value) :=
  match l with
  | [] => Ok []
  | x :: l' => s ← py_sorted l'; insert_sorted x s
  end.

(** [sorted(set(touched) | set(files))]: the left set is built first,
    then [files] is iterated. *)
Definition sorted_union (touched : list value) (files : value)
  : result (list value) :=
  a ← set_add_all touched [];
  items ← py_iter files;
  u ← set_add_all items a;
  py_sorted u.

(** [d.get(key, default)] on a dictionary value. *)
Fixpoint assoc_get (d : list (string * value)) (key : string) (default : value)
  : value :=
  match d with
  | [] => default
  | (k, v) :: d' => if String.eqb k key then v else assoc_get d' key default
  end.

Section WithPhaseValues.

(** [Phase.value]: the string of each member of the enumeration. *)
Variable phase_value : Phase -> string.

(** [Phase(v)]: the member whose value is [v], else [ValueError]. *)
Definition phase_of_value (v : value) : result Phase :=
  match v with
  | VStr s =>
      match List.find (fun p => String.eqb (phase_value p) s) all_phases with
      | Some p => Ok p
      | None => Raise (ValueError ("'" +:+ s +:+ "' is not a valid Phase"))
      end
  | _ => Raise (ValueError "not a valid Phase")
  end.

(** [test_result.get("passed", False)], as a truth value. *)
Definition tests_passed (exec_result : ExecResult) : result bool :=
  match dict_get exec_result.(metrics) "test_result" (VDict []) with
  | VDict d => Ok (truthy (assoc_get d "passed" (VBool false)))
  | v => Raise (AttributeError ("'" +:+ type_name v
                  +:+ "' object has no attribute 'get'"))
  end.

(** [_advance_phase]. *)
Definition _advance_phase (state : AgentState) (proposal : Proposal)
  (exec_result : ExecResult) (profile : Profile) : result AgentState :=
  match state.(notes) !! "next_phase" with
  | Some forced_phase =>
      let state := set_notes (delete "next_phase" state.(notes)) state in
      p ← phase_of_value forced_phase;
      Ok (set_phase p state)
  | None =>
      match state.(phase) with
      | INGEST => Ok (set_phase LOCALIZE state)
      | LOCALIZE =>
          if negb (Patch.is_nil state.(localization_hits))
          then Ok (set_phase PLAN state)
          else Ok state
      | PLAN => Ok (set_phase PATCH_CANDIDATES state)
      | PATCH_CANDIDATES =>
          if String.eqb proposal.(kind) "edit"
             && String.eqb exec_result.(status) "ok"
          then Ok (set_phase TEST_STAGE state)
          else if String.eqb proposal.(kind) "edit"
                  && String.eqb exec_result.(status) "fail"
          then Ok (set_phase PLAN state)
          else Ok state
      | TEST_STAGE =>
          if String.eqb exec_result.(status) "ok"
          then
            tests_passed exec_result ≫= fun passed : bool =>
              if passed then Ok (set_phase MINIMIZE state)
              else Ok (set_phase DIAGNOSE state)
          else Ok (set_phase DIAGNOSE state)
      | DIAGNOSE => Ok (set_phase PLAN state)
      | MINIMIZE => Ok (set_phase FINALIZE state)
      | FINALIZE =>
          if String.eqb proposal.(kind) "finalize"
          then Ok (set_note "stop_reason" (VStr "finalized")
                     (set_phase DONE state))
          else Ok state
      | DONE => Ok state
      end
  end.

(** [check_budgets]. *)
Definition check_budgets (state : AgentState) (profile : Profile) : bool * string :=
  if (profile.(max_rounds) <=? state.(budget).(round_idx))%Z
  then (false, "max_rounds=" +:+ str_of_Z profile.(max_rounds))
  else if (profile.(max_patch_attempts) <=? state.(budget).(patch_attempts))%Z
  then (false, "max_patch_attempts=" +:+ str_of_Z profile.(max_patch_attempts))
  else if (profile.(max_test_runs) <=? state.(budget).(test_runs))%Z
  then (false, "max_test_runs=" +:+ str_of_Z profile.(max_test_runs))
  else if (profile.(max_model_calls) <=? state.(budget).(model_calls))%Z
  then (false, "max_model_calls=" +:+ str_of_Z profile.(max_model_calls))
  else (true, "ok").

Context {W : Type}.

(** What one episode owns: the agent state, the host and the ledger. *)
Record Config : Type := mkConfig {
  cfg_state : AgentState;
  cfg_world : W;
  cfg_ledger : list LedgerEvent;
}.

(** Modelled from the spec: [append_event] of memory/log.py, which is not
    among the sources.  The ledger is an append-only record of events: the
    event goes to the end of the ledger of the episode. *)
Definition append_event (ledger : list LedgerEvent) (ev : LedgerEvent)
  : list LedgerEvent :=
  ledger ++ [ev].

(** [LedgerEvent.now(...)] without its timestamp. *)
Definition ledger_event (state : AgentState) (proposal : Proposal)
  (decision : GateDecision) (exec_result : ExecResult)
  (result : gmap string value) : LedgerEvent :=
  mkLedgerEvent state.(task_id) state.(repo).(repo_id) state.(phase)
    proposal decision exec_result result.

Variable propose_fn : Profile -> Eff (AgentState * W) Proposal.
Variable gate_fn : Profile -> AgentState -> Proposal -> result GateDecision.
Variable exec_fn : Profile -> Proposal -> Eff (AgentState * W) ExecResult.

(** The branch taken when the gate rejects. *)
Definition on_reject (state : AgentState) (w : W) (ledger : list LedgerEvent)
  (proposal : Proposal) (decision : GateDecision) : Config :=
  let ev := ledger_event state proposal decision
              (mkExecResult "fail" "gate_reject" (VList []) ∅)
              (<["gate_reject" := VBool true]>
                 (<["reason" := VStr decision.(reason)]> ∅)) in
  let ledger := append_event ledger ev in
  let state := set_note "last_gate_reject" (VStr decision.(reason)) state in
  let state := set_note "last_rejected_proposal"
                 (VDict [("kind", VStr proposal.(kind));
                         ("rationale", VStr proposal.(rationale))]) state in
  let state := set_phase (if decide (state.(phase) <> DIAGNOSE) then PLAN
                          else DIAGNOSE) state in
  mkConfig state w ledger.

(** Step 4 of a round: budgets and touched files. *)
Definition update_budgets (state : AgentState) (proposal : Proposal)
  : result AgentState :=
  let state :=
    if String.eqb proposal.(kind) "run_tests"
    then set_budget (incr_test_runs state.(budget)) state else state in
  state ← (if String.eqb proposal.(kind) "edit"
           then
             let state := set_budget (incr_patch_attempts state.(budget)) state in
             let files := dict_get proposal.(inputs) "files" (VList []) in
             touched ← sorted_union state.(touched_files) files;
             Ok (set_touched_files touched state)
           else Ok state);
  if Gate.str_in proposal.(kind) ["inspect"; "search"; "edit"; "run_tests"]
  then Ok (set_budget (incr_model_calls state.(budget)) state)
  else Ok state.

(** The payload of the ledger event of an executed round (the wall-clock
    duration of the round is left out). *)
Definition result_payload (state : AgentState) (exec_result : ExecResult)
  : gmap string value :=
  let payload : gmap string value :=
    <["exec_status" := VStr exec_result.(status)]>
      (<["round" := VInt state.(budget).(round_idx)]> ∅) in
  match exec_result.(metrics) !! "test_result" with
  | Some t => <["test_result" := t]> payload
  | None => payload
  end.

(** One pass through the body of the [while] loop of [run_episode].  An
    exception that the body does not catch ends the episode: [Raise]. *)
Definition round (profile : Profile) (c : Config) : result Config :=
  let state := c.(cfg_state) in
  if (profile.(max_rounds) <=? state.(budget).(round_idx))%Z
  then Ok (mkConfig (set_phase DONE
                       (set_note "stop_reason" (VStr "max_rounds") state))
             c.(cfg_world) c.(cfg_ledger))
  else
    let state := set_budget (incr_round_idx state.(budget)) state in
    match propose_fn profile (state, c.(cfg_world)) with
    | ((state, w), Raise e) =>
        Ok (mkConfig (set_phase DIAGNOSE
                        (set_note "last_error" (VStr (exn_str e)) state))
              w c.(cfg_ledger))
    | ((state, w), Ok proposal) =>
        decision ← gate_fn profile state proposal;
        if negb decision.(accept)
        then Ok (on_reject state w c.(cfg_ledger) proposal decision)
        else
          let '((state, w), r) := exec_fn profile proposal (state, w) in
          let exec_result :=
            match r with
            | Ok res => res
            | Raise e => mkExecResult "fail"
                           ("Execution error: " +:+ exn_str e) (VList []) ∅
            end in
          state ← update_budgets state proposal;
          let ev := ledger_event state proposal decision exec_result
                      (result_payload state exec_result) in
          let ledger := append_event c.(cfg_ledger) ev in
          state ← _advance_phase state proposal exec_result profile;
          Ok (mkConfig state w ledger)
    end.

(** [run_episode]: the loop, for at most [fuel] passes; [None] when the
    fuel runs out before the phase is [DONE]. *)
Fixpoint run_episode (fuel : nat) (profile : Profile) (c : Config)
  : option (result Config) :=
  if decide (c.(cfg_state).(phase) = DONE) then Some (Ok c)
  else match fuel with
       | O => None
       | S fuel' =>
           match round profile c with
           | Ok c' => run_episode fuel' profile c'
           | Raise e => Some (Raise e)
           end
       end.


End WithPhaseValues.

End Loop.

(** ** The quarantine lane (rfsn_controller/learning/quarantine.py) *)

Module Quarantine.
Import Py.

Record QuarantineStats : Type := mkQuarantineStats {
  strategy : string;
  total_tries : Z;
  successes : Z;
  regressions : Z;
  last_regression_timestamp : option float;
}.

Record QuarantineConfig : Type := mkQuarantineConfig {
  min_successes : Z;
  max_regression_rate : float;
  regression_cooldown : float;
  min_tries_for_rate : Z;
}.

(** [QuarantineConfig()]: the defaults of the dataclass. *)
Definition default_config : QuarantineConfig :=
  mkQuarantineConfig 2 0.3%float 3600%float 5.

Definition new_stats (strategy : string) : QuarantineStats :=
  mkQuarantineStats strategy 0 0 0 None.

(** The in-place update of a record by [record_outcome]. *)
Definition bump_stats (stats : QuarantineStats) (success regression : bool)
  (timestamp : float) : QuarantineStats :=
  mkQuarantineStats stats.(strategy)
    (stats.(total_tries) + 1)
    (if success then stats.(successes) + 1 else stats.(successes))
    (if regression then stats.(regressions) + 1 else stats.(regressions))
    (if regression then Some timestamp else stats.(last_regression_timestamp)).

(** The lane without its optional SQLite mirror ([db_path=None]). *)
Record QuarantineLane : Type := mkQuarantineLane {
  config : QuarantineConfig;
  _stats : gmap string (gmap string QuarantineStats);
  _global_quarantine : gset string;
}.

(** [QuarantineLane(config)]. *)
Definition new_lane (config : option QuarantineConfig) : QuarantineLane :=
  mkQuarantineLane (default default_config config) ∅ ∅.

Section WithDivision.

(** [a / b] on two [int]s with [b] not zero: the nearest binary64. *)
Variable int_truediv : Z -> Z -> float.

(** The module-level [is_quarantined(stats, config)]. *)
Definition is_quarantined (stats : gmap string Z)
  (config : option QuarantineConfig) : result bool :=
  let config := default default_config config in
  let tries := default 0%Z (stats !! "tries") in
  let wins := default 0%Z (stats !! "wins") in
  let regressions := default 0%Z (stats !! "regressions") in
  if (tries <? config.(min_successes))%Z then Ok true
  else if (wins =? 0)%Z then Ok true
  else if (config.(min_tries_for_rate) <=? tries)%Z
  then
    if (tries =? 0)%Z then Raise (ZeroDivisionError "division by zero")
    else
      let regression_rate := int_truediv regressions tries in
      if PrimFloat.ltb config.(max_regression_rate) regression_rate
      then Ok true else Ok false
  else Ok false.

(** The dictionary the lane hands to [is_quarantined]. *)
Definition stats_dict (stats : QuarantineStats) : gmap string Z :=
  <["tries" := stats.(total_tries)]>
    (<["wins" := stats.(successes)]>
       (<["regressions" := stats.(regressions)]> ∅)).

(** Truthiness of an optional context key: [None] and [""] are false. *)
Definition context_given (context : option string) : option string :=
  match context with
  | Some c => if PyStr.nonempty c then Some c else None
  | None => None
  end.

(** [QuarantineLane.is_quarantined(strategy, context)]. *)
Definition lane_is_quarantined (lane : QuarantineLane) (strategy : string)
  (context : option string) : result bool :=
  if decide (strategy ∈ lane.(_global_quarantine)) then Ok true
  else
    match context_given context with
    | Some c =>
        match lane.(_stats) !! c with
        | Some per_context =>
            match per_context !! strategy with
            | Some stats => is_quarantined (stats_dict stats) (Some lane.(config))
            | None => Ok false
            end
        | None => Ok false
        end
    | None => Ok false
    end.

(** [_get_stats]: get or create the record of a context/strategy pair. *)
Definition _get_stats (context strategy : string) (lane : QuarantineLane)
  : QuarantineLane * QuarantineStats :=
  let per_context := default ∅ (lane.(_stats) !! context) in
  match per_context !! strategy with
  | Some stats =>
      (mkQuarantineLane lane.(config)
         (<[context := per_context]> lane.(_stats))
         lane.(_global_quarantine), stats)
  | None =>
      let stats := new_stats strategy in
      (mkQuarantineLane lane.(config)
         (<[context := <[strategy := stats]> per_context]> lane.(_stats))
         lane.(_global_quarantine), stats)
  end.

Definition put_stats (context strategy : string) (stats : QuarantineStats)
  (lane : QuarantineLane) : QuarantineLane :=
  mkQuarantineLane lane.(config)
    (<[context := <[strategy := stats]> (default ∅ (lane.(_stats) !! context))]>
       lane.(_stats))
    lane.(_global_quarantine).

(** [timestamp or time.time()]: [None] and zero give the clock. *)
Definition timestamp_or (timestamp : option float) (now : float) : float :=
  match timestamp with
  | Some t => if PrimFloat.eqb t 0%float then now else t
  | None => now
  end.

(** [record_outcome]; [now] is the reading of the clock. *)
Definition record_outcome (now : float) (strategy context : string)
  (success regression : bool) (timestamp : option float)
  : Eff QuarantineLane bool :=
  fun lane =>
    let timestamp := timestamp_or timestamp now in
    let '(lane, stats) := _get_stats context strategy lane in
    match lane_is_quarantined lane strategy (Some context) with
    | Raise e => (lane, Raise e)
    | Ok was_quarantined =>
        let stats := bump_stats stats success regression timestamp in
        let lane := put_stats context strategy stats lane in
        match lane_is_quarantined lane strategy (Some context) with
        | Raise e => (lane, Raise e)
        | Ok now_quarantined =>
            (lane, Ok (now_quarantined && negb was_quarantined))
        end
    end.

(** The loop of [get_quarantined_strategies] over the records of a
    context. *)
Fixpoint add_quarantined (config : QuarantineConfig)
  (items : list (string * QuarantineStats)) (result : gset string)
  : Py.result (gset string) :=
  match items with
  | [] => Ok result
  | (strategy, stats) :: rest =>
      match is_quarantined (stats_dict stats) (Some config) with
      | Raise e => Raise e
      | Ok true => add_quarantined config rest ({[strategy]} ∪ result)
      | Ok false => add_quarantined config rest result
      end
  end.

(** [QuarantineLane.get_quarantined_strategies(context)]. *)
Definition get_quarantined_strategies (lane : QuarantineLane)
  (context : option string) : Py.result (gset string) :=
  let result := lane.(_global_quarantine) in
  match context_given context with
  | Some c =>
      match lane.(_stats) !! c with
      | Some per_context =>
          add_quarantined lane.(config) (map_to_list per_context) result
      | None => Ok result
      end
  | None => Ok result
  end.

End WithDivision.

Definition force_quarantine (strategy : string) (lane : QuarantineLane)
  : QuarantineLane :=
  mkQuarantineLane lane.(config) lane.(_stats)
    ({[strategy]} ∪ lane.(_global_quarantine)).

Definition release_from_quarantine (strategy : string) (lane : QuarantineLane)
  : QuarantineLane :=
  mkQuarantineLane lane.(config) lane.(_stats)
    (lane.(_global_quarantine) ∖ {[strategy]}).

End Quarantine.

(** ** The strategy bandit (rfsn_controller/learning/strategy_bandit.py) *)

Module Bandit.
Import Py.

Record StrategyStats : Type := mkStrategyStats {
  wins : Z;
  tries : Z;
  regressions : Z;
  total_reward : float;
  alpha : float;
  beta : float;
}.

(** [StrategyStats()]. *)
Definition new_stats : StrategyStats :=
  mkStrategyStats 0 0 0 0%float 1%float 1%float.

(** [mean_reward]: the mean of the Beta posterior; a float division by
    zero raises. *)
Definition mean_reward (st : StrategyStats) : result float :=
  if PrimFloat.eqb (st.(alpha) + st.(beta))%float 0%float
  then Raise (ZeroDivisionError "float division by zero")
  else Ok (st.(alpha) / (st.(alpha) + st.(beta)))%float.

(** The bandit without its optional SQLite mirror ([db_path=None]). *)
Record StrategyBandit : Type := mkStrategyBandit {
  strategies : gset string;
  exploration_bonus : float;
  _arms : gmap string (gmap string StrategyStats);
  _global_stats : gmap string StrategyStats;
}.

(** [DEFAULT_STRATEGIES]: the names of [ALL_STRATEGIES] of
    learning/strategies.py, which the import at the top of the module
    finds. *)
Definition DEFAULT_STRATEGIES : list string :=
  ["guard_none"; "none_coalesce";
   "boundary_check"; "fix_off_by_one"; "empty_case";
   "type_check"; "fix_type_coercion"; "fix_typing";
   "fix_key_error"; "use_get_default";
   "fix_division_by_zero"; "fix_overflow"; "fix_precision";
   "fix_encoding"; "fix_format_string"; "fix_regex";
   "fix_import"; "fix_circular_import";
   "fix_await_missing"; "fix_deadlock"; "fix_race_condition";
   "fix_file_handle"; "fix_connection_leak"; "fix_memory";
   "normalize_input"; "fallback_default"; "return_shape_fix";
   "fix_logic_error";
   "fix_iteration"; "fix_generator"].

(** [StrategyBandit(strategies, exploration_bonus)]: [None] and the
    empty list give the default strategies. *)
Definition new_bandit (strategies : option (list string)) (bonus : float)
  : StrategyBandit :=
  let names :=
    match strategies with
    | Some (s :: rest) => s :: rest
    | _ => DEFAULT_STRATEGIES
    end in
  let strategies : gset string := list_to_set names in
  mkStrategyBandit strategies bonus ∅ (gset_to_gmap new_stats strategies).

(** [_get_context_arms]: get or create the arms of a context. *)
Definition _get_context_arms (context_key : string) (b : StrategyBandit)
  : StrategyBandit * gmap string StrategyStats :=
  match b.(_arms) !! context_key with
  | Some arms => (b, arms)
  | None =>
      let arms := gset_to_gmap new_stats b.(strategies) in
      (mkStrategyBandit b.(strategies) b.(exploration_bonus)
         (<[context_key := arms]> b.(_arms)) b.(_global_stats), arms)
  end.

(** [arms[s]]. *)
Definition arm (arms : gmap string StrategyStats) (s : string)
  : result StrategyStats :=
  match arms !! s with
  | Some st => Ok st
  | None => Raise (KeyError s)
  end.

(** The random draws one call of [select] may consume. *)
Record Draws : Type := mkDraws {
  (** behind [random.choice(seq)]: the item at [draw_index mod len(seq)] *)
  draw_index : nat;
  (** [random.betavariate(alpha, beta)] for the arm [s]: it returns a
      number, raises ([ValueError] for a parameter that is not positive)
      or does not return at all ([None]: a parameter that is not a
      number keeps its rejection loop running) *)
  draw_beta : string -> float -> float -> option (result float);
  (** [random.random()] *)
  draw_uniform : float;
}.

(** [random.choice(seq)]. *)
Definition choice (draws : Draws) (seq : list string) : result string :=
  match seq with
  | [] => Raise (IndexError "Cannot choose from an empty sequence")
  | x :: _ => Ok (nth (draws.(draw_index) mod length seq) seq x)
  end.

(** [[s for s in candidates if arms[s].tries == 0]]. *)
Fixpoint unexplored_of (arms : gmap string StrategyStats)
  (candidates : list string) : result (list string) :=
  match candidates with
  | [] => Ok []
  | s :: rest =>
      st ← arm arms s;
      more ← unexplored_of arms rest;
      Ok (if (st.(tries) =? 0)%Z then s :: more else more)
  end.

(** [StrategyStats.sample()]. *)
Definition sample (draws : Draws) (s : string) (st : StrategyStats)
  : option (result float) :=
  draws.(draw_beta) s st.(alpha) st.(beta).

(** The loop of Thompson sampling: keep the first candidate whose draw
    is strictly above the best so far; [None] when a draw does not
    return. *)
Fixpoint best_sample (draws : Draws) (arms : gmap string StrategyStats)
  (candidates : list string) (best_score : float) (best_strategy : string)
  : option (result string) :=
  match candidates with
  | [] => Some (Ok best_strategy)
  | s :: rest =>
      match arm arms s with
      | Raise e => Some (Raise e)
      | Ok st =>
          match sample draws s st with
          | None => None
          | Some (Raise e) => Some (Raise e)
          | Some (Ok score) =>
              if PrimFloat.ltb best_score score
              then best_sample draws arms rest score s
              else best_sample draws arms rest best_score best_strategy
          end
      end
  end.

(** The other scoring loops: keep the first candidate whose score is
    strictly above the best so far. *)
Fixpoint best_by (score : string -> result float) (candidates : list string)
  (best_score : float) (best_strategy : string) : result string :=
  match candidates with
  | [] => Ok best_strategy
  | s :: rest =>
      sc ← score s;
      if PrimFloat.ltb best_score sc then best_by score rest sc s
      else best_by score rest best_score best_strategy
  end.

(** [sum(arms[s].tries for s in self.strategies)]. *)
Fixpoint total_tries (arms : gmap string StrategyStats) (names : list string)
  : result Z :=
  match names with
  | [] => Ok 0%Z
  | s :: rest =>
      st ← arm arms s;
      n ← total_tries arms rest;
      Ok (st.(tries) + n)%Z
  end.

(** [max(candidates, key=...)] on a non-empty list: the first maximum. *)
Fixpoint max_by (key : string -> result float) (candidates : list string)
  (best_key : float) (best : string) : result string :=
  match candidates with
  | [] => Ok best
  | s :: rest =>
      k ← key s;
      if PrimFloat.ltb best_key k then max_by key rest k s
      else max_by key rest best_key best
  end.

Section WithMath.

(** [math.log(n)] of an [int], [math.sqrt(x)], and [float(n)]. *)
Variable math_log : Z -> result float.
Variable math_sqrt : float -> result float.
Variable float_of_int : Z -> float.

(** [StrategyStats.ucb(total_pulls, c=2.0)]. *)
Definition ucb (st : StrategyStats) (total_pulls : Z) : result float :=
  if (st.(tries) =? 0)%Z then Ok infinity
  else
    exploitation ← mean_reward st;
    l ← math_log (total_pulls + 1)%Z;
    r ← math_sqrt (l / float_of_int st.(tries))%float;
    Ok (exploitation + 2 * r)%float.

(** [candidates[0]]. *)
Definition first_of (candidates : list string) : result string :=
  match candidates with
  | [] => Raise (IndexError "list index out of range")
  | c :: _ => Ok c
  end.

(** The branches of [select] that score without drawing from a Beta
    distribution. *)
Definition select_scored (draws : Draws) (method : string)
  (b : StrategyBandit) (arms : gmap string StrategyStats)
  (candidates : list string) : result string :=
  if String.eqb method "ucb"
  then
    total_pulls ← total_tries arms (elements b.(strategies));
    first ← first_of candidates;
    best_by (fun s => st ← arm arms s; ucb st total_pulls)
      candidates (-1)%float first
  else
    if PrimFloat.ltb draws.(draw_uniform) b.(exploration_bonus)
    then choice draws candidates
    else
      match candidates with
      | [] => Raise (ValueError "max() arg is an empty sequence")
      | first :: rest =>
          k ← (st ← arm arms first; mean_reward st);
          max_by (fun s => st ← arm arms s; mean_reward st) rest k first
      end.

(** [select(context_key, exclude, method)]: the bandit with the arms of
    the context in place, and what the call does: [Some] of a return or
    of an exception, [None] when it does not return (a draw of the
    Thompson loop that does not). *)
Definition select (draws : Draws) (context_key : string)
  (exclude : option (gset string)) (method : string) (b : StrategyBandit)
  : StrategyBandit * option (result string) :=
  let '(b, arms) := _get_context_arms context_key b in
  let exclude : gset string := default ∅ exclude in
  let candidates :=
    List.filter (fun s => bool_decide (s ∉ exclude)) (elements b.(strategies)) in
  let candidates :=
    if Patch.is_nil candidates then elements b.(strategies) else candidates in
  (b,
   match unexplored_of arms candidates with
   | Raise e => Some (Raise e)
   | Ok unexplored =>
       if negb (Patch.is_nil unexplored) then Some (choice draws unexplored)
       else if String.eqb method "thompson"
       then
         match first_of candidates with
         | Raise e => Some (Raise e)
         | Ok first => best_sample draws arms candidates (-1)%float first
         end
       else Some (select_scored draws method b arms candidates)
   end).

End WithMath.

(** The in-place update of one record by [update]. *)
Definition apply_outcome (success regression : bool)
  (partial_reward : option float) (st : StrategyStats) : StrategyStats :=
  let st := mkStrategyStats st.(wins) (st.(tries) + 1) st.(regressions)
              st.(total_reward) st.(alpha) st.(beta) in
  let st := if success
            then mkStrategyStats (st.(wins) + 1) st.(tries) st.(regressions)
                   st.(total_reward) st.(alpha) st.(beta)
            else if regression
            then mkStrategyStats st.(wins) st.(tries) (st.(regressions) + 1)
                   st.(total_reward) st.(alpha) st.(beta)
            else st in
  let reward := if success then 1%float
                else if regression then (-0.5)%float
                else default 0%float partial_reward in
  let st := if PrimFloat.ltb 0%float reward
            then mkStrategyStats st.(wins) st.(tries) st.(regressions)
                   st.(total_reward) (st.(alpha) + reward)%float st.(beta)
            else mkStrategyStats st.(wins) st.(tries) st.(regressions)
                   st.(total_reward) st.(alpha)
                   (st.(beta) + PrimFloat.abs reward)%float in
  mkStrategyStats st.(wins) st.(tries) st.(regressions)
    (st.(total_reward) + reward)%float st.(alpha) st.(beta).

(** [update(context_key, strategy, success, regression, partial_reward)].
    Both records are updated in place; the debug log line that follows
    evaluates [stats.mean_reward]. *)
Definition update (context_key strategy : string) (success regression : bool)
  (partial_reward : option float) : Eff StrategyBandit unit :=
  fun b =>
    if decide (strategy ∉ b.(strategies)) then (b, Ok tt)
    else
      let '(b, arms) := _get_context_arms context_key b in
      match arm arms strategy with
      | Raise e => (b, Raise e)
      | Ok stats =>
          match arm b.(_global_stats) strategy with
          | Raise e => (b, Raise e)
          | Ok global_stats =>
              let stats := apply_outcome success regression partial_reward stats in
              let global_stats :=
                apply_outcome success regression partial_reward global_stats in
              (mkStrategyBandit b.(strategies) b.(exploration_bonus)
                 (<[context_key := <[strategy := stats]> arms]> b.(_arms))
                 (<[strategy := global_stats]> b.(_global_stats)),
               _ ← mean_reward stats; Ok tt)
          end
      end.

(** [get_best_strategy(context_key)]: [max] over the set of strategies,
    keyed by the mean reward of the context's arm. *)
Definition get_best_strategy (context_key : string)
  : Eff StrategyBandit string :=
  fun b =>
    let '(b, arms) := _get_context_arms context_key b in
    (b,
     match elements b.(strategies) with
     | [] => Raise (ValueError "max() arg is an empty sequence")
     | first :: rest =>
         k ← (st ← arm arms first; mean_reward st);
         max_by (fun s => st ← arm arms s; mean_reward st) rest k first
     end).

(** [register_strategy]. *)
Definition register_strategy (strategy : string) (b : StrategyBandit)
  : StrategyBandit :=
  if decide (strategy ∉ b.(strategies))
  then mkStrategyBandit ({[strategy]} ∪ b.(strategies)) b.(exploration_bonus)
         b.(_arms) (<[strategy := new_stats]> b.(_global_stats))
  else b.

End Bandit.

(** ** Sample inputs and auxiliary predicates *)

Module Samples.
Import PyStr Py Types Exec.

(** [a / b] for two [int]s below 2^53 in absolute value, [b] not zero:
    both convert exactly and the binary64 quotient is the nearest one. *)
Definition small_truediv (a b : Z) : float :=
  let q := (PrimFloat.of_uint63 (Uint63.of_Z (Z.abs a))
            / PrimFloat.of_uint63 (Uint63.of_Z (Z.abs b)))%float in
  if xorb (a <? 0)%Z (b <? 0)%Z then (- q)%float else q.

(** A string made of white space only. *)
Fixpoint blank (s : string) : bool :=
  match s with
  | EmptyString => true
  | String c s' => is_space c && blank s'
  end.

(** Lines joined by a line feed, each followed by one. *)
Fixpoint unlines (ls : list string) : string :=
  match ls with
  | [] => EmptyString
  | l :: ls' => l +:+ String nl (unlines ls')
  end.

(** A diff that removes [x] and adds [x] back. *)
Definition noop_diff : string :=
  unlines ["--- a/f"; "+++ b/f"; "@@ -1,1 +1,1 @@"; "-x"; "+x"].

(** A diff with nothing but its two file headers. *)
Definition header_only_diff : string :=
  unlines ["--- a/f"; "+++ b/f"].

(** A diff that replaces one line by two. *)
Definition grow_diff : string :=
  unlines ["--- a/f"; "+++ b/f"; "@@ -1,1 +1,2 @@"; "-x"; "+x"; "+y"].

(** A table of [Phase.value]. *)
Definition phase_name (p : Phase) : string :=
  match p with
  | INGEST => "ingest"
  | LOCALIZE => "localize"
  | PLAN => "plan"
  | PATCH_CANDIDATES => "patch_candidates"
  | TEST_STAGE => "test_stage"
  | DIAGNOSE => "diagnose"
  | MINIMIZE => "minimize"
  | FINALIZE => "finalize"
  | DONE => "done"
  end.

Definition fresh_budget : BudgetState := mkBudgetState 0 0 0 0.

Definition sample_repo : RepoFingerprint :=
  mkRepoFingerprint "org/repo@abc123" "abc123" "/work/task-1" "python".

(** A state with empty notes in a given phase with given counters. *)
Definition state_in (p : Phase) (b : BudgetState) : AgentState :=
  mkAgentState "task-1" sample_repo p b ∅ [] [] [].

(** A profile: 10 rounds, 3 patches, 5 test runs, 3 model calls, 3 files,
    and a given bound on the diff lines. *)
Definition profile_with (diff_lines : Z) : Profile :=
  mkProfile "lite" 10 3 5 3 3 diff_lines true.

Definition edit_proposal (diff : string) (files : list string) : Proposal :=
  mkProposal "edit" "apply the fix"
    (<["diff" := VStr diff]> (<["files" := VList (map VStr files)]> ∅)) [].

(** An edit proposal with no inputs at all. *)
Definition bare_edit : Proposal := mkProposal "edit" "apply the fix" ∅ [].

(** An edit proposal whose [files] entry is a number. *)
Definition odd_edit : Proposal :=
  mkProposal "edit" "apply the fix" (<["files" := VInt 5]> ∅) [].

(** An inspect proposal that carries the same [files] entry. *)
Definition odd_inspect : Proposal :=
  mkProposal "inspect" "read the problem" (<["files" := VInt 5]> ∅) [].

Definition inspect_proposal : Proposal :=
  mkProposal "inspect" "read the problem"
    (<["query" := VStr "problem_statement"]> ∅) [].

(** The declared shape of the inputs of an edit: [files], when present,
    is a list of strings, and [diff], when present, is a string. *)
Definition files_well_shaped (p : Proposal) : Prop :=
  p.(inputs) !! "files" = None
  \/ exists names, p.(inputs) !! "files" = Some (VList (map VStr names)).

Definition diff_well_shaped (p : Proposal) : Prop :=
  p.(inputs) !! "diff" = None
  \/ exists d, p.(inputs) !! "diff" = Some (VStr d).

(** A path under one of the forbidden directories of the gate. *)
Definition under_forbidden_dir (s : string) : bool :=
  existsb (fun d => startswith s d || contains ("/" +:+ d) s)
    Gate.forbidden_dirs.

(** Among the entries of [files], one that is not a string comes before
    any path under a forbidden directory. *)
Fixpoint meets_non_string (items : list value) : bool :=
  match items with
  | [] => false
  | VStr s :: rest => negb (under_forbidden_dir s) && meets_non_string rest
  | _ :: _ => true
  end.

(** All entries of [files] are strings, none under a forbidden
    directory. *)
Fixpoint all_plain_paths (items : list value) : bool :=
  match items with
  | [] => true
  | VStr s :: rest => negb (under_forbidden_dir s) && all_plain_paths rest
  | _ :: _ => false
  end.

Definition is_str (v : value) : bool :=
  match v with
  | VStr _ => true
  | _ => false
  end.

(** The inputs on which the gate raises: an edit that the phase allows,
    with patch budget left, whose [files] entry has no [len()], or has at
    most [max_files_touched] entries and either an entry that is not a
    string before any path under a forbidden directory, or plain paths
    only together with a [diff] entry that is not a string. *)
Definition gate_raises (profile : Profile) (state : AgentState)
  (proposal : Proposal) : bool :=
  let files := dict_get proposal.(inputs) "files" (VList []) in
  let diff := dict_get proposal.(inputs) "diff" (VStr "") in
  String.eqb proposal.(kind) "edit"
  && Gate.str_in "edit" (Gate._allowed_kinds_for_phase state.(phase))
  && (state.(budget).(patch_attempts) <? profile.(max_patch_attempts))%Z
  && match py_len files, py_iter files with
     | Ok n, Ok items =>
         (n <=? profile.(max_files_touched))%Z
         && (meets_non_string items
             || (all_plain_paths items && negb (is_str diff)))
     | _, _ => true
     end.



(** A computation that leaves the counters, the touched files and the
    phase as they are (it may write notes and other fields). *)
Definition keeps_frame {W A : Type} (m : Eff (AgentState * W) A) : Prop :=
  forall s s' r, m s = (s', r) ->
    (fst s').(budget) = (fst s).(budget)
    /\ (fst s').(touched_files) = (fst s).(touched_files)
    /\ (fst s').(phase) = (fst s).(phase).

(** A host with an empty working tree on which [git apply] succeeds, no
    search tool is installed and the tests pass. *)
Definition clean_host : Host unit :=
  mkHost unit
    (fun _ _ _ => false)
    (fun _ _ f => Raise (FileNotFoundError f))
    (fun _ _ _ w => (w, Ok tt))
    (fun _ _ _ => Ok (0%Z, EmptyString))
    (fun _ _ w => (w, Ok (0%Z, EmptyString)))
    (fun l => l)
    (fun _ => "<value>")
    (fun _ _ _ => Raise (FileNotFoundError "rg"))
    (fun _ _ _ => Raise (FileNotFoundError "grep"))
    (fun _ _ _ => Ok [])
    (fun _ _ w => (w, Ok (0%Z, EmptyString))).

(** A proposer that always offers the same proposal. *)
Definition always (p : Proposal) : Profile -> Eff (AgentState * unit) Proposal :=
  fun _ => mret p.

(** The start of an episode in a given phase. *)
Definition start_in (p : Phase) : Loop.Config (W:=unit) :=
  Loop.mkConfig (state_in p fresh_budget) tt [].

(** The arms [select] and [update] see for a context: those stored, or
    the fresh ones [_get_context_arms] creates. *)
Definition context_arms (b : Bandit.StrategyBandit) (context_key : string)
  : gmap string Bandit.StrategyStats :=
  snd (Bandit._get_context_arms context_key b).

(** Every registered strategy has its global record and, in every context
    created so far, its arm. *)
Definition wf_bandit (b : Bandit.StrategyBandit) : Prop :=
  (forall s, s ∈ b.(Bandit.strategies) -> is_Some (b.(Bandit._global_stats) !! s))
  /\ (forall ctx arms, b.(Bandit._arms) !! ctx = Some arms ->
        forall s, s ∈ b.(Bandit.strategies) -> is_Some (arms !! s)).

(** A bandit over two strategies, and draws for one selection. *)
Definition two_arm_bandit : Bandit.StrategyBandit :=
  Bandit.new_bandit (Some ["guard_none"; "fix_import"]) 0.1%float.

Definition some_draws : Bandit.Draws :=
  Bandit.mkDraws 7 (fun _ _ _ => Some (Ok 0.5%float)) 0.5%float.

(** The test of the unexplored filter of [select] on one strategy. *)
Definition untried (arms : gmap string Bandit.StrategyStats) (s : string) : bool :=
  match arms !! s with
  | Some st => (st.(Bandit.tries) =? 0)%Z
  | None => false
  end.

(** A diff whose added line differs from the removed one by white space
    only, and a diff of context lines under its headers. *)
Definition reindent_diff : string :=
  unlines ["--- a/f"; "+++ b/f"; "@@ -1,1 +1,1 @@"; "-x = 1"; "+    x = 1"].

Definition context_only_diff : string :=
  unlines ["--- a/f"; "+++ b/f"; "@@ -1,2 +1,2 @@"; " x = 1"; " y = 2"].

(** A line that is no change line: if it starts with a sign, it is a
    [---] or [+++] header. *)
Definition no_change_line (l : string) : Prop :=
  (startswith l "-" = true -> startswith l "---" = true)
  /\ (startswith l "+" = true -> startswith l "+++" = true).

(** The state after the executor's own count of one applied patch. *)
Definition bumped (state : AgentState) : AgentState :=
  set_budget (incr_patch_attempts state.(budget)) state.

(** What a fallback strategy of the edit executor may do from [state]:
    report success with the counter bumped once, or report nothing and
    leave the agent state as it was. *)
Definition attempt_outcome {W : Type} (state : AgentState)
  (out : (AgentState * W) * result (option ExecResult)) : Prop :=
  (exists res, snd out = Ok (Some res) /\ res.(status) = "ok"
               /\ fst (fst out) = bumped state)
  \/ (snd out = Ok None /\ fst (fst out) = state).

(** What the edit executor may do from [state]: report success with the
    counter bumped once, or report failure with the agent state as it
    was. *)
Definition edit_outcome {W : Type} (state : AgentState)
  (out : (AgentState * W) * result ExecResult) : Prop :=
  exists res, snd out = Ok res
    /\ ((res.(status) = "ok" /\ fst (fst out) = bumped state)
        \/ (res.(status) = "fail" /\ fst (fst out) = state)).

(** What the executors leave alone: the task, the repository, the phase,
    the touched files and three of the counters; [patch_attempts] may
    only grow.  (Notes, localization hits and last failures are theirs to
    write.) *)
Definition exec_frame (a b : AgentState) : Prop :=
  b.(task_id) = a.(task_id)
  /\ b.(repo) = a.(repo)
  /\ b.(phase) = a.(phase)
  /\ b.(touched_files) = a.(touched_files)
  /\ b.(budget).(round_idx) = a.(budget).(round_idx)
  /\ b.(budget).(test_runs) = a.(budget).(test_runs)
  /\ b.(budget).(model_calls) = a.(budget).(model_calls)
  /\ (a.(budget).(patch_attempts) <= b.(budget).(patch_attempts))%Z.

Definition within_frame {W A : Type} (m : Eff (AgentState * W) A) : Prop :=
  forall s s' r, m s = (s', r) -> exec_frame (fst s) (fst s').

(** A proposer and an executor that raise. *)
Definition failing_propose : Profile -> Eff (AgentState * unit) Proposal :=
  fun _ => raise (OtherError "model unavailable").

Definition failing_exec : Profile -> Proposal -> Eff (AgentState * unit) ExecResult :=
  fun _ _ => raise (OtherError "disk full").

(** A list of strings in strictly ascending order of code points. *)
Fixpoint strictly_sorted (l : list string) : Prop :=
  match l with
  | [] => True
  | x :: l' => Forall (fun y => String.ltb x y = true) l' /\ strictly_sorted l'
  end.

(** A text with a final line feed added when it has none. *)
Definition with_newline (s : string) : string :=
  if ends_with_nl s then s else s +:+ nl_str.

(** A path of a diff header without its [a/] or [b/] prefix. *)
Definition header_path (prefix line : string) : string :=
  let p := before_tab (strip (drop_str 4 line)) in
  if startswith p prefix then drop_str 2 p else p.

(** A lane that has recorded two successes of one strategy. *)
Definition lane_after_two_wins : Quarantine.QuarantineLane :=
  fst (Quarantine.record_outcome small_truediv 100%float "guard_none" "ctx"
         true false None
         (fst (Quarantine.record_outcome small_truediv 100%float "guard_none"
                 "ctx" true false None (Quarantine.new_lane None)))).

(** A lane that has recorded one regression of one strategy. *)
Definition lane_after_one_loss : Quarantine.QuarantineLane :=
  fst (Quarantine.record_outcome small_truediv 100%float "guard_none" "ctx"
         false true None (Quarantine.new_lane None)).

(** One call of [update], and a bandit after a series of calls. *)
Definition UpdateCall : Type := string * string * bool * bool * option float.

Definition updated (b : Bandit.StrategyBandit) (call : UpdateCall)
  : Bandit.StrategyBandit :=
  let '(context_key, strategy, success, regression, partial_reward) := call in
  fst (Bandit.update context_key strategy success regression partial_reward b).

Definition updates (calls : list UpdateCall) (b : Bandit.StrategyBandit)
  : Bandit.StrategyBandit :=
  fold_left updated calls b.

(** The counters of a record add up: wins and regressions are counted
    among the tries. *)
Definition counts_consistent (st : Bandit.StrategyStats) : Prop :=
  (0 <= st.(Bandit.wins))%Z /\ (0 <= st.(Bandit.regressions))%Z
  /\ (st.(Bandit.wins) + st.(Bandit.regressions) <= st.(Bandit.tries))%Z.

(** A bandit that has seen one context. *)
Definition used_bandit : Bandit.StrategyBandit :=
  updates [("ctx", "guard_none", true, false, None)] two_arm_bandit.



End Samples.

(** * Properties *)

(** ** Patch validation *)

Section PatchFacts.
Import PyStr Patch Samples.

Lemma rstrip_empty_blank s : rstrip s = EmptyString -> blank s = true.
Proof.
  induction s as [|c s IH]; simpl; [reflexivity|].
  destruct (rstrip s) eqn:E; [|discriminate].
  destruct (is_space c); [|discriminate].
  intros _. simpl. now apply IH.
Qed.

Lemma lstrip_blank s : blank (lstrip s) = true -> blank s = true.
Proof.
  induction s as [|c s IH]; simpl; [reflexivity|].
  destruct (is_space c) eqn:E; simpl.
  - exact IH.
  - rewrite E. simpl. discriminate.
Qed.

Lemma strip_empty_blank s : strip s = EmptyString -> blank s = true.
Proof.
  unfold strip. intros H. apply lstrip_blank. now apply rstrip_empty_blank.
Qed.

Lemma blank_split_nl s :
  blank s = true -> Forall (fun l => blank l = true) (split_nl s).
Proof.
  induction s as [|c s IH]; simpl; intros H.
  - constructor; [reflexivity|constructor].
  - apply andb_prop in H as [Hc Hs]. specialize (IH Hs).
    destruct (Ascii.eqb c nl).
    + constructor; [reflexivity|exact IH].
    + destruct (split_nl s) as [|h t].
      * constructor; [simpl; now rewrite Hc|constructor].
      * inversion IH; subst. constructor; [simpl; now rewrite Hc|assumption].
Qed.

(** A blank line starts with neither [-] nor [+]. *)
Lemma blank_no_sign l :
  blank l = true -> startswith l "-" = false /\ startswith l "+" = false.
Proof.
  destruct l as [|c l]; simpl; [intros _; split; reflexivity|].
  intros H. apply andb_prop in H as [Hc _].
  unfold startswith.
  destruct c as [[] [] [] [] [] [] [] []]; vm_compute in Hc;
    try discriminate Hc; split; reflexivity.
Qed.

Lemma collect_line_unsigned acc l :
  startswith l "-" = false -> startswith l "+" = false ->
  collect_line acc l = acc.
Proof.
  intros Hm Hp. unfold collect_line. destruct acc as [r a].
  rewrite Hm, Hp. simpl.
  repeat match goal with |- context [if ?b then _ else _] => destruct b end;
    reflexivity.
Qed.

Lemma collect_blank_lines lines acc :
  Forall (fun l => blank l = true) lines ->
  fold_left collect_line lines acc = acc.
Proof.
  intros H. revert acc. induction H as [|l lines Hl _ IH]; intros acc; simpl.
  - reflexivity.
  - apply blank_no_sign in Hl as [Hm Hp].
    rewrite (collect_line_unsigned acc l Hm Hp). apply IH.
Qed.

(** A diff that strips to nothing has no change line. *)
Lemma blank_diff_no_changes d :
  strip d = EmptyString -> removals_of d = [] /\ additions_of d = [].
Proof.
  intros H. unfold removals_of, additions_of, collect.
  rewrite collect_blank_lines; [split; reflexivity|].
  apply blank_split_nl. now apply strip_empty_blank.
Qed.

Lemma nonempty_false s : nonempty s = false <-> s = EmptyString.
Proof. destruct s; simpl; split; congruence. Qed.

(** With a change line, the diff passes the emptiness test. *)
Lemma changes_not_empty d :
  removals_of d <> [] \/ additions_of d <> [] ->
  negb (nonempty d) || negb (nonempty (strip d)) = false.
Proof.
  intros H.
  assert (Hs : strip d <> EmptyString).
  { intros E. apply blank_diff_no_changes in E as [E1 E2]. tauto. }
  assert (Hd : d <> EmptyString) by (intros ->; apply Hs; reflexivity).
  destruct d; [congruence|]. simpl.
  destruct (strip _); [congruence|reflexivity].
Qed.

Lemma list_eqb_refl l : list_eqb l l = true.
Proof.
  induction l as [|x l IH]; simpl; [reflexivity|].
  now rewrite String.eqb_refl, IH.
Qed.

Lemma list_eqb_length xs ys :
  list_eqb xs ys = true -> length xs = length ys.
Proof.
  revert ys. induction xs as [|x xs IH]; intros [|y ys]; simpl;
    try discriminate; [reflexivity|].
  intros H. apply andb_prop in H as [_ H]. f_equal. now apply IH.
Qed.

Lemma is_nil_false {A} (l : list A) : l <> [] -> is_nil l = false.
Proof. destruct l; simpl; congruence. Qed.

End PatchFacts.

Section PatchClaims.
Import PyStr Patch Samples.

(** C6, as the code has it: [_validate_patch] returns
    [(False, "Empty diff")] on the empty diff and on every diff of white
    space only; on every diff whose removal lines equal its addition
    lines, both lists non-empty, it returns invalid with the reason
    [No-op patch: removed lines identical to added lines].  That reason
    starts with [No-op], with a capital: it holds [no-op] only once it is
    lower-cased.  The diff [--- a/f], [+++ b/f], [@@ -1,1 +1,1 @@], [-x],
    [+x] is such a diff. *)
Theorem validate_patch_empty_and_noop :
  _validate_patch "" = (false, "Empty diff")
  /\ (forall d, strip d = "" -> _validate_patch d = (false, "Empty diff"))
  /\ (forall d,
        removals_of d = additions_of d -> removals_of d <> [] ->
        _validate_patch d
        = (false, "No-op patch: removed lines identical to added lines"))
  /\ startswith "No-op patch: removed lines identical to added lines"
       "No-op patch" = true
  /\ contains "no-op"
       (lower "No-op patch: removed lines identical to added lines") = true
  /\ _validate_patch noop_diff
     = (false, "No-op patch: removed lines identical to added lines").
Proof.
  split; [reflexivity|].
  split.
  { intros d H. unfold _validate_patch. rewrite H. simpl.
    now rewrite orb_true_r. }
  split.
  { intros d Heq Hne. unfold _validate_patch.
    rewrite changes_not_empty by (left; exact Hne).
    rewrite (is_nil_false _ Hne). simpl.
    rewrite Heq. now rewrite list_eqb_refl. }
  repeat split; reflexivity.
Qed.

Lemma validate_patch_empty_and_noop_witness :
  _validate_patch "   " = (false, "Empty diff")
  /\ _validate_patch (unlines ["-a"; "-b"; "+a"; "+b"])
     = (false, "No-op patch: removed lines identical to added lines").
Proof.
  destruct validate_patch_empty_and_noop as (_ & Hblank & Hnoop & _).
  split.
  - apply Hblank. reflexivity.
  - apply Hnoop; [reflexivity | discriminate].
Defined.

(** C6 as stated fails: the reason returned for the no-op diff of the
    claim does not contain [no-op]. *)
Lemma validate_patch_noop_reason_capitalised :
  fst (_validate_patch noop_diff) = false
  /\ contains "no-op" (snd (_validate_patch noop_diff)) = false.
Proof. split; vm_compute; reflexivity. Qed.

(** C7: when the removal lines and the addition lines of a diff differ in
    number, [_validate_patch] returns valid, whatever the aligned pairs
    hold. *)
Theorem validate_patch_length_mismatch_valid d :
  length (removals_of d) <> length (additions_of d) ->
  _validate_patch d = (true, "").
Proof.
  intros Hlen. unfold _validate_patch.
  assert (Hne : removals_of d <> [] \/ additions_of d <> []).
  { destruct (removals_of d), (additions_of d); simpl in Hlen;
      [congruence | right | left | left]; discriminate. }
  rewrite (changes_not_empty d Hne).
  assert (Hnil : is_nil (removals_of d) && is_nil (additions_of d) = false).
  { destruct Hne as [H|H]; rewrite (is_nil_false _ H); simpl;
      [reflexivity | apply andb_false_r]. }
  rewrite Hnil.
  destruct (list_eqb (removals_of d) (additions_of d)) eqn:E.
  { apply list_eqb_length in E. contradiction. }
  apply Nat.eqb_neq in Hlen. rewrite Hlen. reflexivity.
Qed.

Lemma validate_patch_length_mismatch_valid_witness :
  length (removals_of grow_diff) <> length (additions_of grow_diff)
  /\ _validate_patch grow_diff = (true, "").
Proof.
  assert (H : length (removals_of grow_diff) <> length (additions_of grow_diff))
    by (vm_compute; discriminate).
  split; [exact H | exact (validate_patch_length_mismatch_valid grow_diff H)].
Defined.

End PatchClaims.

(** ** The gate *)

Section GateClaims.
Import PyStr Py Types Gate Samples.

(** C1: the count the gate compares with [max_diff_lines] takes in the
    [---] and [+++] header lines.  A diff holding only its two headers
    counts 2 lines, not 0, and with [max_diff_lines = 1] the gate rejects
    an edit carrying it as too large. *)
Theorem gate_counts_header_lines :
  count_diff_lines header_only_diff = 2%Z
  /\ gate phase_name (profile_with 1) (state_in PLAN fresh_budget)
       (edit_proposal header_only_diff ["f"])
     = Ok (reject "Diff too large (2 > 1 lines)").
Proof. split; vm_compute; reflexivity. Qed.

(** An entry that is a string never makes the loops of the gate raise. *)
Lemma forbidden_dir_of_str s dirs :
  exists r, forbidden_dir_of (VStr s) dirs = Ok r.
Proof.
  induction dirs as [|d ds IH]; simpl; [eauto|].
  destruct (startswith s d || contains ("/" +:+ d) s); eauto.
Qed.

Lemma first_forbidden_strs names :
  exists r, first_forbidden (map VStr names) = Ok r.
Proof.
  induction names as [|n ns IH]; [simpl; eauto|].
  cbn -[forbidden_dir_of forbidden_dirs].
  destruct (forbidden_dir_of_str n forbidden_dirs) as [r Hr].
  rewrite Hr. simpl. destruct r; eauto.
Qed.

Lemma first_test_file_strs names :
  exists r, first_test_file (map VStr names) = Ok r.
Proof.
  induction names as [|n ns IH]; simpl; [eauto|].
  destruct (contains "test" (lower n) || startswith n "tests/"); eauto.
Qed.

Lemma gate_file_constraints_total profile proposal :
  files_well_shaped proposal -> diff_well_shaped proposal ->
  exists r, gate_file_constraints profile proposal = Ok r.
Proof.
  intros Hf Hd. unfold gate_file_constraints, dict_get.
  assert (Hfiles : exists names,
             match proposal.(inputs) !! "files" with
             | Some v => v
             | None => VList []
             end = VList (map VStr names)).
  { destruct Hf as [->|[names ->]]; [exists []|exists names]; reflexivity. }
  destruct Hfiles as [names ->]. simpl.
  destruct (_ <? _)%Z; [eauto|].
  destruct (first_forbidden_strs names) as [r ->]. simpl.
  destruct r; [eauto|].
  assert (Hdiff : exists d,
             match proposal.(inputs) !! "diff" with
             | Some v => v
             | None => VStr ""
             end = VStr d).
  { destruct Hd as [->|[d ->]]; eauto. }
  destruct Hdiff as [d ->]. simpl.
  destruct (_ <? _)%Z; eauto.
Qed.

Lemma gate_test_constraint_total profile proposal :
  files_well_shaped proposal ->
  exists r, gate_test_constraint profile proposal = Ok r.
Proof.
  intros Hf. unfold gate_test_constraint, dict_get.
  destruct (_ && _); [|eauto].
  destruct Hf as [->|[names ->]]; simpl; [eauto|].
  destruct (first_test_file_strs names) as [r ->]. simpl.
  destruct r; eauto.
Qed.

(** On the declared shapes the gate returns a decision. *)
Lemma gate_total_shapes phase_value profile state proposal :
  files_well_shaped proposal -> diff_well_shaped proposal ->
  exists d, gate phase_value profile state proposal = Ok d.
Proof.
  intros Hf Hd. unfold gate.
  destruct (negb _); [eauto|].
  destruct (_ && _); [eauto|].
  destruct (_ && _); [eauto|].
  destruct (String.eqb _ "edit").
  - destruct (gate_file_constraints_total profile proposal Hf Hd) as [r ->].
    simpl. destruct r; [eauto|]. now apply gate_test_constraint_total.
  - simpl. now apply gate_test_constraint_total.
Qed.

Lemma forbidden_dir_of_str_spec s dirs :
  exists r, forbidden_dir_of (VStr s) dirs = Ok r
            /\ (r = None
                <-> existsb (fun d => startswith s d || contains ("/" +:+ d) s)
                      dirs = false).
Proof.
  induction dirs as [|d ds IH]; simpl.
  - exists None. split; [reflexivity|]. tauto.
  - destruct (startswith s d || contains ("/" +:+ d) s); simpl.
    + exists (Some d). split; [reflexivity|]. split; discriminate.
    + exact IH.
Qed.

Lemma first_forbidden_cases items :
  match first_forbidden items with
  | Raise _ => meets_non_string items = true /\ all_plain_paths items = false
  | Ok None => meets_non_string items = false /\ all_plain_paths items = true
  | Ok (Some _) =>
      meets_non_string items = false /\ all_plain_paths items = false
  end.
Proof.
  induction items as [|v rest IH]; [simpl; auto|].
  destruct v as [| | |s| |];
    try (cbn -[forbidden_dirs]; split; reflexivity).
  cbn -[forbidden_dir_of forbidden_dirs].
  destruct (forbidden_dir_of_str_spec s forbidden_dirs) as (r & -> & Hr).
  fold (under_forbidden_dir s) in Hr.
  cbn -[forbidden_dir_of forbidden_dirs].
  destruct r as [d|].
  - destruct (under_forbidden_dir s) eqn:E;
      [simpl; auto|].
    exfalso. assert (H : Some d = None) by (now apply Hr). discriminate H.
  - rewrite (proj1 Hr eq_refl). simpl. exact IH.
Qed.

Lemma first_test_file_plain items :
  all_plain_paths items = true -> exists r, first_test_file items = Ok r.
Proof.
  induction items as [|v rest IH]; simpl; [eauto|].
  destruct v as [| | |s| |]; try discriminate.
  intros H. apply andb_true_iff in H as [_ H]. simpl.
  destruct (contains "test" (lower s) || startswith s "tests/"); eauto.
Qed.

(** The gate raises on the inputs that [gate_raises] describes, and on
    no others. *)
Lemma gate_raises_iff phase_value profile state proposal :
  (exists e, gate phase_value profile state proposal = Raise e)
  <-> gate_raises profile state proposal = true.
Proof.
  unfold gate, gate_raises.
  destruct (String.eqb_spec (kind proposal) "edit") as [Hk|Hk].
  2:{ simpl. split; [|discriminate]. intros [e H].
      destruct (negb _); [discriminate H|].
      destruct (_ && _); [discriminate H|].
      simpl in H. unfold gate_test_constraint in H.
      destruct (String.eqb_spec (kind proposal) "edit"); [contradiction|].
      rewrite andb_false_r in H. discriminate H. }
  rewrite Hk. simpl String.eqb. cbn [andb].
  destruct (str_in "edit" _); cbn [negb andb];
    [|split; [intros [e H]; discriminate H|discriminate]].
  rewrite (Z.leb_antisym (patch_attempts (budget state))).
  destruct (_ <? max_patch_attempts _)%Z; cbn [negb andb];
    [|split; [intros [e H]; discriminate H|discriminate]].
  unfold gate_file_constraints, gate_test_constraint.
  rewrite Hk. simpl String.eqb. rewrite andb_true_r.
  set (files := dict_get (inputs proposal) "files" (VList [])).
  set (diff := dict_get (inputs proposal) "diff" (VStr "")).
  destruct (py_len files) as [n|e] eqn:En; simpl.
  2:{ split; [reflexivity|]. eauto. }
  assert (Hiter : exists items, py_iter files = Ok items).
  { destruct files; try discriminate En; simpl; eauto. }
  destruct Hiter as [items Hitems]. rewrite Hitems.
  rewrite (Z.ltb_antisym n).
  destruct (n <=? max_files_touched profile)%Z; cbn [negb andb].
  2:{ split; [intros [e H]; discriminate H|discriminate]. }
  simpl.
  pose proof (first_forbidden_cases items) as Hc.
  destruct (first_forbidden items) as [[d|]|e]; simpl;
    destruct Hc as [Hm Hp]; rewrite Hm, Hp; simpl.
  - split; [intros [e H]; discriminate H|discriminate].
  - destruct diff as [| | |ds| |]; simpl;
      try (split; [reflexivity|eauto]).
    split; [|discriminate]. intros [e H].
    destruct (_ <? _)%Z; simpl in H; [discriminate H|].
    destruct (forbid_test_modifications profile); simpl in H;
      [|discriminate H].
    destruct (first_test_file_plain items Hp) as [r Hr].
    rewrite Hr in H. simpl in H. destruct r; discriminate H.
  - split; [reflexivity|eauto].
Qed.

(** C5, as the code has it.  The gate returns a decision, without
    raising, for every proposal that is not an edit, whatever its inputs
    hold; for every edit that the phase does not allow or that finds the
    patch budget exhausted, which it rejects before it reads the inputs;
    and for every edit whose [files] entry is absent or a list of strings
    and whose [diff] entry is absent or a string.  An edit proposal with
    neither entry is treated as an edit of no file with an empty diff: it
    is accepted exactly when the phase allows an edit, the patch budget
    is not exhausted and the two size limits are not negative.  And the
    gate raises exactly on an edit that passes the phase and the budget
    checks and whose [files] entry has no [len()], or has at most
    [max_files_touched] entries with either one that is not a string
    before any path under a forbidden directory, or plain paths only and
    a [diff] entry that is not a string. *)
Theorem gate_total_on_declared_shapes :
  (forall phase_value profile state proposal,
      proposal.(kind) <> "edit" ->
      exists d, gate phase_value profile state proposal = Ok d)
  /\ (forall phase_value profile state proposal,
        proposal.(kind) = "edit" ->
        str_in "edit" (_allowed_kinds_for_phase state.(phase)) = false
        \/ (profile.(max_patch_attempts) <= state.(budget).(patch_attempts))%Z ->
        exists d, gate phase_value profile state proposal = Ok d
                  /\ d.(accept) = false)
  /\ (forall phase_value profile state proposal,
        files_well_shaped proposal -> diff_well_shaped proposal ->
        exists d, gate phase_value profile state proposal = Ok d)
  /\ (forall phase_value profile state proposal,
        proposal.(kind) = "edit" ->
        proposal.(inputs) !! "diff" = None ->
        proposal.(inputs) !! "files" = None ->
        exists d,
          gate phase_value profile state proposal = Ok d
          /\ d.(accept)
             = str_in "edit" (_allowed_kinds_for_phase state.(phase))
               && (state.(budget).(patch_attempts) <? profile.(max_patch_attempts))%Z
               && (0 <=? profile.(max_files_touched))%Z
               && (0 <=? profile.(max_diff_lines))%Z)
  /\ (forall phase_value profile state proposal,
        (exists e, gate phase_value profile state proposal = Raise e)
        <-> gate_raises profile state proposal = true).
Proof.
  split; [|split; [|split; [|split]]].
  - intros pv profile state proposal Hk.
    destruct (gate pv profile state proposal) as [d|e] eqn:E; [eauto|].
    assert (H : gate_raises profile state proposal = true)
      by (apply (gate_raises_iff pv); eauto).
    unfold gate_raises in H.
    destruct (String.eqb_spec (kind proposal) "edit"); [contradiction|].
    discriminate H.
  - intros pv profile state proposal Hk Hearly. unfold gate.
    rewrite Hk. simpl String.eqb. simpl andb.
    destruct (str_in "edit" _) eqn:Ea; simpl;
      [|eexists; split; reflexivity].
    destruct Hearly as [Hearly|Hearly]; [discriminate Hearly|].
    apply Z.leb_le in Hearly. rewrite Hearly.
    eexists; split; reflexivity.
  - intros pv profile state proposal Hf Hd. now apply gate_total_shapes.
  - intros pv profile state proposal Hk Hd Hf. unfold gate.
    rewrite Hk. simpl String.eqb. simpl andb.
    destruct (str_in "edit" _); simpl; [|eauto].
    rewrite (Z.leb_antisym (patch_attempts (budget state))).
    destruct (_ <? max_patch_attempts _)%Z; simpl; [|eauto].
    unfold gate_file_constraints, gate_test_constraint, dict_get.
    rewrite Hf, Hd, Hk. simpl.
    rewrite (Z.ltb_antisym 0).
    destruct (0 <=? max_files_touched _)%Z; simpl; [|eauto].
    change (count_diff_lines "") with 0%Z.
    rewrite (Z.ltb_antisym 0).
    destruct (0 <=? max_diff_lines _)%Z; simpl; [|eauto].
    destruct (forbid_test_modifications profile); simpl; eauto.
  - intros pv profile state proposal. apply gate_raises_iff.
Qed.

Lemma gate_total_on_declared_shapes_witness :
  (exists d,
     gate phase_name (profile_with 10) (state_in PLAN fresh_budget)
       odd_inspect = Ok d)
  /\ (exists d,
        gate phase_name (profile_with 10) (state_in INGEST fresh_budget)
          odd_edit = Ok d
        /\ d.(accept) = false)
  /\ (exists d,
        gate phase_name (profile_with 10) (state_in PLAN fresh_budget)
          (edit_proposal noop_diff ["src/f.py"]) = Ok d).
Proof.
  destruct gate_total_on_declared_shapes as (Hother & Hearly & Hshape & _ & _).
  split; [|split].
  - apply Hother. discriminate.
  - apply Hearly; [reflexivity|]. left. reflexivity.
  - apply Hshape.
    + right. exists ["src/f.py"]. reflexivity.
    + right. exists noop_diff. reflexivity.
Defined.

(** C5 as stated fails twice: an edit proposal with no [diff] and no
    [files] is accepted, and a [files] entry that is a number makes the
    gate raise. *)
Lemma gate_accepts_bare_edit_and_raises :
  gate phase_name (profile_with 10) (state_in PLAN fresh_budget) bare_edit
  = Ok (mkGateDecision true "All constraints satisfied")
  /\ gate phase_name (profile_with 10) (state_in PLAN fresh_budget) odd_edit
     = Raise (TypeError "object of type 'int' has no len()").
Proof. split; vm_compute; reflexivity. Qed.

End GateClaims.

(** ** Counters never go down *)

Section BudgetGrowth.
Import PyStr Py Types Samples Exec.



Context {W : Type}.







Variable host : Host W.





End BudgetGrowth.


Section ExecutorGrowth.
Import PyStr Py Types Samples Exec.

Context {W : Type}.
Variable host : Host W.











End ExecutorGrowth.

(** ** The episode loop *)

Section LoopFacts.
Import PyStr Py Types Samples Loop.

Variable phase_value : Phase -> string.
Context {W : Type}.
Variable propose_fn : Profile -> Eff (AgentState * W) Proposal.
Variable gate_fn : Profile -> AgentState -> Proposal -> result GateDecision.
Variable exec_fn : Profile -> Proposal -> Eff (AgentState * W) ExecResult.

(** What [update_budgets] does to the counters, kind by kind. *)
Lemma update_budgets_counters state proposal state' :
  update_budgets state proposal = Ok state' ->
  state'.(budget).(round_idx) = state.(budget).(round_idx)
  /\ state'.(budget).(patch_attempts)
     = (state.(budget).(patch_attempts)
        + if String.eqb proposal.(kind) "edit" then 1 else 0)%Z
  /\ state'.(budget).(test_runs)
     = (state.(budget).(test_runs)
        + if String.eqb proposal.(kind) "run_tests" then 1 else 0)%Z
  /\ state'.(budget).(model_calls)
     = (state.(budget).(model_calls)
        + if Gate.str_in proposal.(kind) ["inspect"; "search"; "edit"; "run_tests"]
          then 1 else 0)%Z.
Proof.
  unfold update_budgets. intros H.
  destruct (String.eqb (kind proposal) "run_tests") eqn:Et;
  destruct (String.eqb (kind proposal) "edit") eqn:Ee;
  destruct (Gate.str_in (kind proposal) _) eqn:Em;
  simpl in H;
  repeat match type of H with
  | context [sorted_union ?a ?v] =>
      destruct (sorted_union a v); simpl in H; [|discriminate]
  end;
  injection H as <-; simpl; lia.
Qed.


(** [_advance_phase] touches the phase and the notes only. *)
Lemma advance_phase_frame state proposal exec_result profile state' :
  _advance_phase phase_value state proposal exec_result profile = Ok state' ->
  state'.(budget) = state.(budget)
  /\ state'.(touched_files) = state.(touched_files).
Proof.
  unfold _advance_phase. intros H.
  destruct (notes state !! "next_phase").
  - destruct (phase_of_value phase_value v); simpl in H; [|discriminate].
    injection H as <-. split; reflexivity.
  - destruct (phase state);
      repeat match type of H with
      | context [if ?b then _ else _] => destruct b
      | context [tests_passed ?r] => destruct (tests_passed r); simpl in H
      end;
      try discriminate; injection H as <-; split; reflexivity.
Qed.



End LoopFacts.

(** ** Budgets along an episode, and at the gate *)

Section BudgetClaims.
Import PyStr Py Types Samples Gate Exec Loop.





End BudgetClaims.

(** ** A round in which the gate rejects *)

Section RejectClaims.
Import PyStr Py Types Samples Gate Exec Loop.

(** C9: in a round where the gate rejects the proposal, the result of the
    round is the same whatever the execution function is (it is never
    called); [patch_attempts], [test_runs], [model_calls] and
    [touched_files] are those the round started with; one event carrying
    [gate_reject = True], the proposal and the decision is appended to the
    ledger; the reason is stored in the notes; and the phase becomes [PLAN]
    unless it was [DIAGNOSE], which stays.  The proposer is one that, like
    the proposers of the repository, writes notes only. *)
Theorem round_gate_reject
  (phase_value : Phase -> string) (W : Type)
  (propose_fn : Profile -> Eff (AgentState * W) Proposal)
  (gate_fn : Profile -> AgentState -> Proposal -> result GateDecision)
  (profile : Profile) (c : Config (W:=W))
  (state1 : AgentState) (w1 : W) (proposal : Proposal) (decision : GateDecision) :
  (c.(cfg_state).(budget).(round_idx) < profile.(max_rounds))%Z ->
  keeps_frame (propose_fn profile) ->
  propose_fn profile
    (set_budget (incr_round_idx c.(cfg_state).(budget)) c.(cfg_state),
     c.(cfg_world))
  = ((state1, w1), Ok proposal) ->
  gate_fn profile state1 proposal = Ok decision ->
  decision.(accept) = false ->
  exists c' ev,
    (forall exec_fn,
        round phase_value propose_fn gate_fn exec_fn profile c = Ok c')
    /\ c'.(cfg_state).(budget).(patch_attempts)
       = c.(cfg_state).(budget).(patch_attempts)
    /\ c'.(cfg_state).(budget).(test_runs) = c.(cfg_state).(budget).(test_runs)
    /\ c'.(cfg_state).(budget).(model_calls)
       = c.(cfg_state).(budget).(model_calls)
    /\ c'.(cfg_state).(touched_files) = c.(cfg_state).(touched_files)
    /\ c'.(cfg_ledger) = c.(cfg_ledger) ++ [ev]
    /\ ev.(ev_result) !! "gate_reject" = Some (VBool true)
    /\ ev.(ev_proposal) = proposal
    /\ ev.(ev_gate_decision) = decision
    /\ c'.(cfg_state).(notes) !! "last_gate_reject"
       = Some (VStr decision.(reason))
    /\ c'.(cfg_state).(phase)
       = (if decide (c.(cfg_state).(phase) = DIAGNOSE) then DIAGNOSE else PLAN).
Proof.
  intros Hround Hframe Hprop Hgate Hacc.
  pose proof (Hframe _ _ _ Hprop) as (Hb & Ht & Hp). simpl in Hb, Ht, Hp.
  exists (on_reject state1 w1 c.(cfg_ledger) proposal decision).
  eexists. split.
  { intros exec_fn. unfold round.
    apply Z.ltb_lt in Hround. rewrite Z.leb_antisym, Hround. simpl.
    rewrite Hprop, Hgate. simpl. rewrite Hacc. reflexivity. }
  unfold on_reject, append_event. simpl.
  rewrite Hb, Ht, Hp. simpl.
  repeat split.
  - rewrite lookup_insert_ne by discriminate. apply lookup_insert_eq.
  - destruct (decide (phase (cfg_state c) = DIAGNOSE)) as [->|Hne].
    + reflexivity.
    + destruct (decide (phase (cfg_state c) <> DIAGNOSE)); [reflexivity|].
      contradiction.
Qed.

Lemma keeps_frame_always p profile : keeps_frame (always p profile).
Proof. intros s s' r H. injection H as <- _. repeat split. Qed.

Lemma round_gate_reject_witness :
  exists c',
    (forall exec_fn,
        round phase_name (always bare_edit) (gate phase_name) exec_fn
          (profile_with 10) (start_in INGEST) = Ok c')
    /\ c'.(cfg_state).(budget).(model_calls) = 0%Z
    /\ c'.(cfg_state).(phase) = PLAN
    /\ c'.(cfg_state).(notes) !! "last_gate_reject"
       = Some (VStr "Action 'edit' not allowed in phase ingest. Allowed: ['inspect', 'search']").
Proof.
  destruct (round_gate_reject phase_name unit (always bare_edit)
              (gate phase_name) (profile_with 10) (start_in INGEST)
              (set_budget (incr_round_idx fresh_budget)
                 (state_in INGEST fresh_budget))
              tt bare_edit
              (reject "Action 'edit' not allowed in phase ingest. Allowed: ['inspect', 'search']"))
    as (c' & ev & Hround & _ & _ & Hm & _ & _ & _ & _ & _ & Hnote & Hphase).
  - vm_compute. reflexivity.
  - apply keeps_frame_always.
  - reflexivity.
  - vm_compute. reflexivity.
  - reflexivity.
  - exists c'. repeat split; assumption.
Defined.

End RejectClaims.

(** ** A round in which an edit is applied *)

Section AppliedEditClaims.
Import PyStr Py Types Patch Samples Gate Exec Loop.

(** The [git apply] path of [_exec_edit]: when the diff is valid and both
    [git apply --check] and [git apply --3way] return 0, the executor adds
    one to [patch_attempts] and reports success. *)
Lemma exec_edit_git_success {W : Type} (host : Host W) proposal state w
  diff stderr1 stderr2 w' n :
  proposal.(inputs) !! "diff" = Some (VStr diff) ->
  _validate_patch diff = (true, "") ->
  git_apply_check host w state.(repo).(workdir) (_repair_patch diff)
  = Ok (0%Z, stderr1) ->
  git_apply_3way host state.(repo).(workdir) (_repair_patch diff) w
  = (w', Ok (0%Z, stderr2)) ->
  py_len (dict_get proposal.(inputs) "files" (VList [])) = Ok n ->
  _exec_edit host proposal (state, w)
  = ((set_budget (incr_patch_attempts state.(budget)) state, w'),
     Ok (ok_result ("Patch applied successfully (" +:+ str_of_Z n +:+ " files)")
           (dict_get proposal.(inputs) "files" (VList [])) ∅)).
Proof.
  intros Hdiff Hvalid Hcheck Hthree Hlen.
  assert (Hne : nonempty diff = true).
  { destruct diff; [discriminate Hvalid|reflexivity]. }
  unfold _exec_edit, dict_get. rewrite Hdiff.
  unfold dict_get in Hlen.
  cbn [truthy]. rewrite Hne. cbn [negb str_method].
  unfold try_except, mbind, eff_bind, get, lift, do_git_apply_3way,
    bump_patch_attempts, modify, mret, eff_ret.
  cbn beta iota. rewrite Hvalid. cbn [negb]. cbn beta iota.
  rewrite Hcheck. cbn beta iota.
  change (0 =? 0)%Z with true. cbn [negb]. cbn beta iota.
  rewrite Hthree. cbn beta iota.
  rewrite Hlen. reflexivity.
Qed.

(** C3: an accepted edit whose patch [git apply] applies is counted twice,
    once by [_exec_edit] and once by the loop.  From a fresh budget in
    phase [PLAN], the round ends with [patch_attempts = 2], its ledger
    event records a successful execution, and the executor alone had
    already brought the counter to 1. *)
Theorem applied_edit_counts_twice :
  exists c1 ev,
    round phase_name (always (edit_proposal grow_diff ["src/f.py"]))
      (gate phase_name) (execute clean_host) (profile_with 10) (start_in PLAN)
    = Ok c1
    /\ c1.(cfg_state).(budget).(patch_attempts) = 2%Z
    /\ c1.(cfg_ledger) = [ev]
    /\ ev.(ev_gate_decision).(accept) = true
    /\ ev.(ev_exec_result).(status) = "ok"
    /\ ev.(ev_exec_result).(summary) = "Patch applied successfully (1 files)"
    /\ (fst (fst (_exec_edit clean_host (edit_proposal grow_diff ["src/f.py"])
                    (state_in PLAN fresh_budget, tt)))).(budget).(patch_attempts)
       = 1%Z.
Proof.
  eexists. eexists.
  split; [vm_compute; reflexivity|].
  repeat split; vm_compute; reflexivity.
Qed.

End AppliedEditClaims.

(** ** The quarantine lane *)

Section QuarantineClaims.
Import Py Samples Quarantine.

Variable int_truediv : Z -> Z -> float.

Lemma stats_dict_tries st : stats_dict st !! "tries" = Some st.(total_tries).
Proof. unfold stats_dict. apply lookup_insert_eq. Qed.

Lemma stats_dict_wins st : stats_dict st !! "wins" = Some st.(successes).
Proof.
  unfold stats_dict. rewrite lookup_insert_ne by discriminate.
  apply lookup_insert_eq.
Qed.

(** Below the evidence threshold, or with no try and no win, the
    module-level rule quarantines. *)
Lemma is_quarantined_cold st cfg :
  (st.(total_tries) < cfg.(min_successes))%Z
  \/ (st.(total_tries) = 0%Z /\ st.(successes) = 0%Z) ->
  is_quarantined int_truediv (stats_dict st) (Some cfg) = Ok true.
Proof.
  intros H. unfold is_quarantined.
  rewrite stats_dict_tries, stats_dict_wins. simpl.
  destruct (_ <? _)%Z eqn:E; [reflexivity|].
  apply Z.ltb_ge in E.
  destruct H as [H|[_ H]]; [lia|]. rewrite H. reflexivity.
Qed.

(** C4, as the code has it: for a strategy that has a record in the
    queried context (a non-empty key) with [total_tries] below
    [min_successes] (zero tries with the default threshold 2, or zero
    tries and zero successes whatever the threshold), the lane answers
    [True]; a globally quarantined strategy gets [True], whatever its
    record and the context; and with no context given, a context without
    recorded outcomes, or no record for the strategy in the context, the
    lane answers whether the strategy is globally quarantined, so [False]
    for one that is not. *)
Theorem lane_quarantine_cold_start :
  (forall lane strategy context per_context st,
      context <> "" ->
      lane.(_stats) !! context = Some per_context ->
      per_context !! strategy = Some st ->
      (st.(total_tries) < lane.(config).(min_successes))%Z
      \/ (st.(total_tries) = 0%Z /\ st.(successes) = 0%Z) ->
      lane_is_quarantined int_truediv lane strategy (Some context) = Ok true)
  /\ (forall lane strategy,
        lane_is_quarantined int_truediv lane strategy None
        = Ok (bool_decide (strategy ∈ lane.(_global_quarantine))))
  /\ (forall lane strategy context,
        lane.(_stats) !! context = None
        \/ (exists per_context,
              lane.(_stats) !! context = Some per_context
              /\ per_context !! strategy = None) ->
        lane_is_quarantined int_truediv lane strategy (Some context)
        = Ok (bool_decide (strategy ∈ lane.(_global_quarantine))))
  /\ (forall lane strategy context,
        strategy ∈ lane.(_global_quarantine) ->
        lane_is_quarantined int_truediv lane strategy context = Ok true).
Proof.
  split; [|split; [|split]].
  - intros lane strategy context per_context st Hc Hctx Hst Hcold.
    unfold lane_is_quarantined.
    destruct (decide _); [reflexivity|].
    destruct context; [congruence|]. simpl.
    rewrite Hctx, Hst. now apply is_quarantined_cold.
  - intros lane strategy. unfold lane_is_quarantined.
    destruct (decide _) as [H|H].
    + now rewrite bool_decide_eq_true_2.
    + now rewrite bool_decide_eq_false_2.
  - intros lane strategy context H. unfold lane_is_quarantined.
    destruct (decide _) as [Hg|Hg].
    + now rewrite bool_decide_eq_true_2.
    + rewrite bool_decide_eq_false_2 by exact Hg.
      unfold context_given.
      destruct (PyStr.nonempty context); [|reflexivity].
      destruct H as [H|(pc & H & H')].
      * now rewrite H.
      * now rewrite H, H'.
  - intros lane strategy context Hg. unfold lane_is_quarantined.
    destruct (decide _); [reflexivity|contradiction].
Qed.

End QuarantineClaims.

Section QuarantineExamples.
Import Py Samples Quarantine.

Lemma lane_quarantine_cold_start_witness :
  lane_is_quarantined small_truediv
    (fst (_get_stats "ctx" "guard_none" (new_lane None)))
    "guard_none" (Some "ctx") = Ok true.
Proof.
  destruct (lane_quarantine_cold_start small_truediv) as [Hcold _].
  eapply Hcold.
  - discriminate.
  - vm_compute. reflexivity.
  - vm_compute. reflexivity.
  - left. vm_compute. reflexivity.
Defined.

(** C4 as stated fails: a strategy that was never tried is not
    quarantined by a fresh lane, with a context or without one. *)
Lemma lane_untried_not_quarantined :
  lane_is_quarantined small_truediv (new_lane None) "guard_none" (Some "ctx")
  = Ok false
  /\ lane_is_quarantined small_truediv (new_lane None) "guard_none" None
     = Ok false.
Proof. split; vm_compute; reflexivity. Qed.

End QuarantineExamples.

(** ** The strategy bandit *)

Section BanditFacts.
Import Py Samples Bandit.

Lemma new_bandit_wf strategies bonus :
  wf_bandit (new_bandit strategies bonus).
Proof.
  split; simpl.
  - intros s Hs. rewrite lookup_gset_to_gmap.
    rewrite option_guard_True by exact Hs. eauto.
  - intros ctx arms H. rewrite lookup_empty in H. discriminate.
Qed.

Lemma get_context_arms_strategies ctx b :
  (fst (_get_context_arms ctx b)).(strategies) = b.(strategies).
Proof. unfold _get_context_arms. destruct (_ !! ctx); reflexivity. Qed.

Lemma get_context_arms_stored ctx b :
  (fst (_get_context_arms ctx b)).(_arms) !! ctx = Some (context_arms b ctx).
Proof.
  unfold context_arms, _get_context_arms.
  destruct (_arms b !! ctx) eqn:E; simpl; [exact E|apply lookup_insert_eq].
Qed.

Lemma context_arms_complete b ctx s :
  wf_bandit b -> s ∈ b.(strategies) -> is_Some (context_arms b ctx !! s).
Proof.
  intros [_ Harms] Hs. unfold context_arms, _get_context_arms.
  destruct (_arms b !! ctx) as [arms|] eqn:E; simpl.
  - eapply Harms; eassumption.
  - rewrite lookup_gset_to_gmap, option_guard_True by exact Hs. eauto.
Qed.

Lemma get_context_arms_wf ctx b :
  wf_bandit b -> wf_bandit (fst (_get_context_arms ctx b)).
Proof.
  intros Hwf. pose proof Hwf as [Hg Ha]. unfold _get_context_arms.
  destruct (_arms b !! ctx) as [arms|] eqn:E; simpl; [exact Hwf|].
  split; simpl; [exact Hg|].
  intros ctx' arms' H s Hs.
  destruct (decide (ctx = ctx')) as [<-|Hne].
  - rewrite lookup_insert_eq in H. injection H as <-.
    rewrite lookup_gset_to_gmap, option_guard_True by exact Hs. eauto.
  - rewrite lookup_insert_ne in H by exact Hne. eapply Ha; eassumption.
Qed.

Lemma unexplored_of_filter arms candidates :
  (forall s, In s candidates -> is_Some (arms !! s)) ->
  unexplored_of arms candidates = Ok (List.filter (untried arms) candidates).
Proof.
  induction candidates as [|s rest IH]; intros H; simpl; [reflexivity|].
  destruct (H s (or_introl eq_refl)) as [st Hst].
  unfold arm at 1, untried at 1. rewrite Hst. simpl.
  rewrite IH by (intros s' Hs'; apply H; now right). simpl.
  destruct (tries st =? 0)%Z; reflexivity.
Qed.

Lemma choice_in draws seq :
  seq <> [] -> exists x, choice draws seq = Ok x /\ In x seq.
Proof.
  destruct seq as [|x rest]; [congruence|]. intros _.
  unfold choice. eexists. split; [reflexivity|].
  apply nth_In. apply Nat.mod_upper_bound. simpl. lia.
Qed.


(** The two cases of [_get_context_arms]: the stored arms, or fresh ones
    for every registered strategy, put in the table. *)
Lemma get_context_arms_cases ctx b :
  (exists arms, b.(_arms) !! ctx = Some arms
                /\ _get_context_arms ctx b = (b, arms))
  \/ (b.(_arms) !! ctx = None
      /\ _get_context_arms ctx b
         = (mkStrategyBandit b.(strategies) b.(exploration_bonus)
              (<[ctx := gset_to_gmap new_stats b.(strategies)]> b.(_arms))
              b.(_global_stats),
            gset_to_gmap new_stats b.(strategies))).
Proof.
  unfold _get_context_arms.
  destruct (_arms b !! ctx) as [arms|]; [left; eauto|right; auto].
Qed.

End BanditFacts.

Section BanditClaims.
Import Py Samples Bandit.

Variable math_log : Z -> result float.
Variable math_sqrt : float -> result float.
Variable float_of_int : Z -> float.


End BanditClaims.

Section BanditUpdate.
Import Py Samples Bandit.



(** [update] keeps the bandit well formed. *)
Lemma update_wf context_key strategy success regression partial_reward b :
  wf_bandit b ->
  wf_bandit (fst (update context_key strategy success regression partial_reward b)).
Proof.
  intros Hwf. unfold update.
  destruct (decide _); [exact Hwf|].
  pose proof (get_context_arms_wf context_key b Hwf) as Hwf1.
  pose proof (get_context_arms_strategies context_key b) as Hstr.
  pose proof (get_context_arms_stored context_key b) as Hstored.
  unfold context_arms in Hstored.
  destruct (_get_context_arms context_key b) as [b1 arms]. simpl in *.
  destruct (arm arms strategy); [|exact Hwf1].
  destruct (arm (_global_stats b1) strategy); [|exact Hwf1].
  simpl. destruct Hwf1 as [Hg Ha]. split; simpl.
  - intros s Hs. destruct (decide (strategy = s)) as [<-|Hne].
    + rewrite lookup_insert_eq. eauto.
    + rewrite lookup_insert_ne by exact Hne. now apply Hg.
  - intros ctx arms' H s Hs.
    destruct (decide (context_key = ctx)) as [<-|Hne].
    + rewrite lookup_insert_eq in H. injection H as <-.
      destruct (decide (strategy = s)) as [<-|Hne'].
      * rewrite lookup_insert_eq. eauto.
      * rewrite lookup_insert_ne by exact Hne'. eapply Ha; eassumption.
    + rewrite lookup_insert_ne in H by exact Hne. eapply Ha; eassumption.
Qed.

Lemma used_bandit_wf : wf_bandit used_bandit.
Proof. unfold used_bandit, updates. simpl. apply update_wf, new_bandit_wf. Qed.

End BanditUpdate.

Section BanditExamples.
Import Py Samples Bandit.





End BanditExamples.

(** * Further properties of the sources *)

(** ** The gate: what it never accepts *)

Section GateSafety.
Import PyStr Py Types Samples Gate.

Lemma str_in_In x l : str_in x l = true <-> In x l.
Proof.
  unfold str_in. rewrite existsb_exists. split.
  - intros (y & Hy & E). apply String.eqb_eq in E. now subst.
  - intros H. exists x. split; [exact H|apply String.eqb_refl].
Qed.

(** X1: a proposal the gate accepts has a kind of the table of the
    current phase; in phase [DONE] the gate accepts nothing. *)
Theorem gate_accept_kind_allowed phase_value profile state proposal d :
  gate phase_value profile state proposal = Ok d ->
  d.(accept) = true ->
  In proposal.(kind) (_allowed_kinds_for_phase state.(phase))
  /\ state.(phase) <> DONE.
Proof.
  unfold gate. intros H Hacc.
  destruct (str_in (kind proposal) _) eqn:E; simpl in H.
  - apply str_in_In in E. split; [exact E|].
    intros Hd. rewrite Hd in E. destruct E.
  - injection H as <-. discriminate Hacc.
Qed.

Lemma gate_accept_kind_allowed_witness :
  In "inspect" (_allowed_kinds_for_phase INGEST) /\ INGEST <> DONE.
Proof.
  apply (gate_accept_kind_allowed phase_name (profile_with 10)
           (state_in INGEST fresh_budget) inspect_proposal
           (mkGateDecision true "All constraints satisfied")).
  - vm_compute. reflexivity.
  - reflexivity.
Defined.

(** A path is under a forbidden directory when it starts with one of the
    six directories or holds one after a slash. *)
Lemma forbidden_dir_of_hit f dirs d0 :
  In d0 dirs ->
  startswith f d0 = true \/ contains ("/" +:+ d0) f = true ->
  exists d, forbidden_dir_of (VStr f) dirs = Ok (Some d) /\ In d dirs.
Proof.
  induction dirs as [|d ds IH]; intros Hin Hhit; [destruct Hin|].
  simpl.
  destruct (startswith f d || contains ("/" +:+ d) f) eqn:E.
  - exists d. split; [reflexivity|now left].
  - destruct Hin as [->|Hin].
    + apply orb_false_elim in E as [E1 E2].
      destruct Hhit as [H|H]; congruence.
    + destruct (IH Hin Hhit) as (d' & Hd' & Hin').
      exists d'. split; [exact Hd'|now right].
Qed.

Lemma forbidden_dir_of_in n dirs d :
  forbidden_dir_of (VStr n) dirs = Ok (Some d) -> In d dirs.
Proof.
  induction dirs as [|x l IHl]; simpl; [discriminate|].
  destruct (startswith n x || contains ("/" +:+ x) n).
  - intros E. left. congruence.
  - intros E. right. now apply IHl.
Qed.

Lemma first_forbidden_hit names f d0 :
  In f names -> In d0 forbidden_dirs ->
  startswith f d0 = true \/ contains ("/" +:+ d0) f = true ->
  exists d, first_forbidden (map VStr names) = Ok (Some d)
            /\ In d forbidden_dirs.
Proof.
  intros Hf Hd Hhit.
  induction names as [|n ns IH]; [destruct Hf|].
  cbn -[forbidden_dir_of forbidden_dirs].
  destruct (forbidden_dir_of_str n forbidden_dirs) as [r Hr].
  destruct r as [d|].
  - rewrite Hr. exists d. split; [reflexivity|].
    eapply forbidden_dir_of_in; exact Hr.
  - destruct Hf as [->|Hf].
    + destruct (forbidden_dir_of_hit f forbidden_dirs d0 Hd Hhit) as (d & E & _).
      rewrite E in Hr. discriminate Hr.
    + rewrite Hr. simpl. now apply IH.
Qed.

(** X2: an edit whose [files] list names a path under [vendor/],
    [node_modules/], [.venv/], [dist/], [build/] or [target/] is rejected
    by the gate, whatever the phase, the budget, the diff and the other
    files. *)
Theorem gate_rejects_forbidden_path
  phase_value profile state proposal names f d0 :
  proposal.(kind) = "edit" ->
  proposal.(inputs) !! "files" = Some (VList (map VStr names)) ->
  In f names ->
  In d0 forbidden_dirs ->
  startswith f d0 = true \/ contains ("/" +:+ d0) f = true ->
  exists d, gate phase_value profile state proposal = Ok d
            /\ d.(accept) = false.
Proof.
  intros Hk Hfiles Hf Hd Hhit. unfold gate.
  destruct (negb _); [eexists; split; reflexivity|].
  destruct (_ && _); [eexists; split; reflexivity|].
  destruct (_ && _); [eexists; split; reflexivity|].
  rewrite Hk. simpl String.eqb. cbv iota.
  unfold gate_file_constraints, dict_get. rewrite Hfiles. simpl.
  destruct (_ <? _)%Z; [simpl; eexists; split; reflexivity|].
  destruct (first_forbidden_hit names f d0 Hf Hd Hhit) as (d & E & _).
  rewrite E. simpl. eexists; split; reflexivity.
Qed.

Lemma gate_rejects_forbidden_path_witness :
  exists d,
    gate phase_name (profile_with 10) (state_in PLAN fresh_budget)
      (edit_proposal grow_diff ["src/ok.py"; "vendor/lib.py"]) = Ok d
    /\ d.(accept) = false.
Proof.
  apply (gate_rejects_forbidden_path phase_name (profile_with 10)
           (state_in PLAN fresh_budget)
           (edit_proposal grow_diff ["src/ok.py"; "vendor/lib.py"])
           ["src/ok.py"; "vendor/lib.py"] "vendor/lib.py" "vendor/").
  - reflexivity.
  - reflexivity.
  - right. left. reflexivity.
  - left. reflexivity.
  - left. reflexivity.
Defined.

Lemma first_test_file_never_misses items f :
  In (VStr f) items ->
  contains "test" (lower f) = true \/ startswith f "tests/" = true ->
  first_test_file items <> Ok None.
Proof.
  intros Hf Hhit. induction items as [|v rest IH]; [destruct Hf|].
  simpl. destruct (str_method "lower" v) as [s|e] eqn:Es; simpl;
    [|discriminate].
  destruct (contains "test" (lower s) || startswith s "tests/") eqn:E;
    [discriminate|].
  destruct Hf as [->|Hf]; [|now apply IH].
  simpl in Es. injection Es as <-.
  apply orb_false_elim in E as [E1 E2]. destruct Hhit; congruence.
Qed.

Lemma gate_file_constraints_rejects profile proposal d :
  gate_file_constraints profile proposal = Ok (Some d) -> d.(accept) = false.
Proof.
  unfold gate_file_constraints. intros H.
  destruct (py_len _) as [n|e]; simpl in H; [|discriminate H].
  destruct (_ <? _)%Z; [injection H as <-; reflexivity|].
  destruct (py_iter _) as [items|e]; simpl in H; [|discriminate H].
  destruct (first_forbidden items) as [[fd|]|e]; simpl in H;
    [injection H as <-; reflexivity| |discriminate H].
  destruct (str_method "split" _) as [diff|e]; simpl in H; [|discriminate H].
  destruct (_ <? _)%Z; [injection H as <-; reflexivity|discriminate H].
Qed.

(** X3: under [forbid_test_modifications], an edit whose [files] list
    holds a path that contains [test] in any letter case, or starts with
    [tests/], is never accepted by the gate, whatever else the proposal
    holds: a decision the gate returns is a rejection.  The gate does
    return one when all entries of [files] are strings and the [diff]
    entry is absent or a string (with other entries or another [diff] it
    may raise instead). *)
Theorem gate_rejects_test_files phase_value profile state proposal items f :
  profile.(forbid_test_modifications) = true ->
  proposal.(kind) = "edit" ->
  proposal.(inputs) !! "files" = Some (VList items) ->
  In (VStr f) items ->
  contains "test" (lower f) = true \/ startswith f "tests/" = true ->
  (forall d, gate phase_value profile state proposal = Ok d ->
             d.(accept) = false)
  /\ ((exists names, items = map VStr names) ->
      diff_well_shaped proposal ->
      exists d, gate phase_value profile state proposal = Ok d
                /\ d.(accept) = false).
Proof.
  intros Hforbid Hk Hfiles Hf Hhit.
  assert (Hnever : forall d, gate phase_value profile state proposal = Ok d ->
                             d.(accept) = false).
  { intros d. unfold gate.
    destruct (negb _); [intros H; injection H as <-; reflexivity|].
    destruct (_ && _); [intros H; injection H as <-; reflexivity|].
    destruct (_ && _); [intros H; injection H as <-; reflexivity|].
    rewrite Hk. simpl String.eqb. cbv iota.
    destruct (gate_file_constraints profile proposal) as [[d'|]|e] eqn:Ec;
      simpl; [| |discriminate].
    - intros H. injection H as <-.
      now apply (gate_file_constraints_rejects profile proposal).
    - unfold gate_test_constraint, dict_get.
      rewrite Hforbid, Hk, Hfiles. simpl.
      pose proof (first_test_file_never_misses items f Hf Hhit) as Hmiss.
      destruct (first_test_file items) as [[t|]|e]; simpl;
        [|congruence|discriminate].
      intros H. injection H as <-. reflexivity. }
  split; [exact Hnever|].
  intros [names ->] Hdiff.
  assert (Hshape : files_well_shaped proposal) by (right; eauto).
  destruct (gate_total_shapes phase_value profile state proposal Hshape Hdiff)
    as [d Hd].
  exists d. split; [exact Hd|]. now apply Hnever.
Qed.

Lemma gate_rejects_test_files_witness :
  (forall d,
     gate phase_name (profile_with 10) (state_in PLAN fresh_budget)
       (edit_proposal grow_diff ["pkg/Test_Util.py"]) = Ok d ->
     d.(accept) = false)
  /\ ((exists names, map VStr ["pkg/Test_Util.py"] = map VStr names) ->
      diff_well_shaped (edit_proposal grow_diff ["pkg/Test_Util.py"]) ->
      exists d,
        gate phase_name (profile_with 10) (state_in PLAN fresh_budget)
          (edit_proposal grow_diff ["pkg/Test_Util.py"]) = Ok d
        /\ d.(accept) = false).
Proof.
  apply (gate_rejects_test_files phase_name (profile_with 10)
           (state_in PLAN fresh_budget)
           (edit_proposal grow_diff ["pkg/Test_Util.py"])
           (map VStr ["pkg/Test_Util.py"]) "pkg/Test_Util.py").
  - reflexivity.
  - reflexivity.
  - reflexivity.
  - left. reflexivity.
  - left. vm_compute. reflexivity.
Defined.

(** X4: an edit the gate accepts touches at most [max_files_touched]
    files and its diff has at most [max_diff_lines] lines that start with
    [+] or [-]. *)
Theorem gate_accept_edit_within_limits phase_value profile state proposal d :
  gate phase_value profile state proposal = Ok d ->
  d.(accept) = true ->
  proposal.(kind) = "edit" ->
  exists n diff,
    py_len (dict_get proposal.(inputs) "files" (VList [])) = Ok n
    /\ (n <= profile.(max_files_touched))%Z
    /\ dict_get proposal.(inputs) "diff" (VStr "") = VStr diff
    /\ (count_diff_lines diff <= profile.(max_diff_lines))%Z.
Proof.
  unfold gate. intros H Hacc Hk.
  destruct (negb _); [injection H as <-; discriminate Hacc|].
  destruct (_ && _); [injection H as <-; discriminate Hacc|].
  destruct (_ && _); [injection H as <-; discriminate Hacc|].
  rewrite Hk in H. simpl String.eqb in H. cbv iota in H.
  unfold gate_file_constraints in H.
  destruct (py_len _) as [n|e] eqn:En; simpl in H; [|discriminate H].
  destruct (_ <? _)%Z eqn:El; simpl in H.
  { injection H as <-. discriminate Hacc. }
  apply Z.ltb_ge in El.
  destruct (py_iter _) as [items|e]; simpl in H; [|discriminate H].
  destruct (first_forbidden items) as [[fd|]|e]; simpl in H;
    [injection H as <-; discriminate Hacc| |discriminate H].
  destruct (dict_get (inputs proposal) "diff" (VStr "")) as [| | |diff| |];
    simpl in H; try discriminate H.
  destruct (_ <? _)%Z eqn:Ed; simpl in H.
  { injection H as <-. discriminate Hacc. }
  apply Z.ltb_ge in Ed.
  exists n, diff. repeat split; assumption.
Qed.

Lemma gate_accept_edit_within_limits_witness :
  exists n diff,
    py_len (dict_get (edit_proposal grow_diff ["src/f.py"]).(inputs) "files"
              (VList [])) = Ok n
    /\ (n <= (profile_with 10).(max_files_touched))%Z
    /\ dict_get (edit_proposal grow_diff ["src/f.py"]).(inputs) "diff" (VStr "")
       = VStr diff
    /\ (count_diff_lines diff <= (profile_with 10).(max_diff_lines))%Z.
Proof.
  apply (gate_accept_edit_within_limits phase_name (profile_with 10)
           (state_in PLAN fresh_budget) (edit_proposal grow_diff ["src/f.py"])
           (mkGateDecision true "All constraints satisfied")).
  - vm_compute. reflexivity.
  - reflexivity.
  - reflexivity.
Defined.

End GateSafety.

(** ** Patch validation: the verdicts *)

Section PatchVerdicts.
Import PyStr Patch Samples.

Lemma zip_differs_spec rs ads :
  zip_differs rs ads = true <->
  exists i r a, nth_error rs i = Some r /\ nth_error ads i = Some a
                /\ strip r <> strip a.
Proof.
  revert ads. induction rs as [|r rs IH]; intros [|a ads]; simpl.
  - split; [discriminate|]. intros ([|i] & r & a & H & _); discriminate H.
  - split; [discriminate|]. intros ([|i] & r & a' & H & _); discriminate H.
  - split; [discriminate|]. intros ([|i] & r' & a & _ & H & _); discriminate H.
  - destruct (String.eqb_spec (strip r) (strip a)) as [E|E]; simpl.
    + rewrite IH. split.
      * intros (i & r' & a' & H1 & H2 & H3). exists (S i), r', a'. auto.
      * intros ([|i] & r' & a' & H1 & H2 & H3); simpl in H1, H2.
        -- congruence.
        -- exists i, r', a'. auto.
    + split; [|reflexivity]. intros _. exists 0, r, a. auto.
Qed.

Lemma lengths_differ_valid d :
  length (removals_of d) <> length (additions_of d) ->
  fst (_validate_patch d) = true.
Proof.
  intros Hlen. unfold _validate_patch.
  assert (Hne : removals_of d <> [] \/ additions_of d <> []).
  { destruct (removals_of d), (additions_of d); simpl in Hlen;
      [congruence | right | left | left]; discriminate. }
  rewrite (changes_not_empty d Hne).
  destruct (is_nil (removals_of d) && is_nil (additions_of d)) eqn:En.
  { destruct (removals_of d), (additions_of d); simpl in *;
      congruence. }
  destruct (list_eqb (removals_of d) (additions_of d)) eqn:E.
  { apply list_eqb_length in E. contradiction. }
  apply Nat.eqb_neq in Hlen. rewrite Hlen. reflexivity.
Qed.

(** X5: [_validate_patch] calls a diff valid exactly when its removal
    lines and addition lines differ in number, or some aligned pair
    differs after stripping. *)
Theorem validate_patch_valid_iff d :
  fst (_validate_patch d) = true <->
  (length (removals_of d) <> length (additions_of d)
   \/ exists i r a,
        nth_error (removals_of d) i = Some r
        /\ nth_error (additions_of d) i = Some a
        /\ strip r <> strip a).
Proof.
  rewrite <- zip_differs_spec. split.
  - unfold _validate_patch.
    destruct (negb (nonempty d) || _); [discriminate|].
    destruct (is_nil (removals_of d) && _) eqn:En; [discriminate|].
    destruct (list_eqb _ _); [discriminate|].
    destruct (Nat.eqb_spec (length (removals_of d)) (length (additions_of d)))
      as [El|El]; [|now left].
    simpl. destruct (zip_differs _ _); [now right|].
    simpl. destruct (removals_of d), (additions_of d); simpl in *;
      discriminate.
  - intros H.
    destruct (Nat.eq_dec (length (removals_of d)) (length (additions_of d)))
      as [El|El].
    2:{ now apply lengths_differ_valid. }
    destruct H as [H|H]; [contradiction|].
    assert (Hne : removals_of d <> []).
    { intros E. rewrite E in H. discriminate H. }
    unfold _validate_patch.
    rewrite changes_not_empty by (left; exact Hne).
    rewrite (is_nil_false _ Hne). simpl.
    destruct (list_eqb _ _) eqn:Eq.
    + exfalso. clear -H Eq. revert H Eq.
      generalize (removals_of d) (additions_of d).
      induction l as [|r rs IH]; intros [|a ads]; simpl; try discriminate.
      intros Hz He. apply andb_prop in He as [He1 He2].
      apply String.eqb_eq in He1. subst a.
      rewrite String.eqb_refl in Hz. simpl in Hz. eauto.
    + rewrite El, Nat.eqb_refl, H. reflexivity.
Qed.

Lemma forall2_strip_no_diff rs ads :
  Forall2 (fun r a => strip r = strip a) rs ads ->
  zip_differs rs ads = false /\ length rs = length ads.
Proof.
  induction 1 as [|r a rs ads E _ [IH1 IH2]]; simpl; [split; reflexivity|].
  rewrite E, String.eqb_refl. simpl. split; [exact IH1|now f_equal].
Qed.

Lemma list_eqb_eq xs ys : list_eqb xs ys = true -> xs = ys.
Proof.
  revert ys. induction xs as [|x xs IH]; intros [|y ys]; simpl;
    try discriminate; [reflexivity|].
  intros H. apply andb_prop in H as [H1 H2].
  apply String.eqb_eq in H1. f_equal; [exact H1|now apply IH].
Qed.

(** X6: a diff whose removal lines and addition lines pair off equal
    after stripping, without being equal as written, is rejected as a
    change of white space only. *)
Theorem validate_patch_whitespace_only d :
  removals_of d <> additions_of d ->
  Forall2 (fun r a => strip r = strip a) (removals_of d) (additions_of d) ->
  _validate_patch d
  = (false, "No meaningful changes (only whitespace differences)").
Proof.
  intros Hne Hpairs.
  destruct (forall2_strip_no_diff _ _ Hpairs) as [Hz Hl].
  assert (Hr : removals_of d <> []).
  { intros E. rewrite E in *. destruct (additions_of d); [congruence|].
    discriminate Hl. }
  assert (Ha : additions_of d <> []).
  { intros E. rewrite E in *. destruct (removals_of d); [congruence|].
    discriminate Hl. }
  unfold _validate_patch.
  rewrite changes_not_empty by (left; exact Hr).
  rewrite (is_nil_false _ Hr), (is_nil_false _ Ha). simpl.
  destruct (list_eqb _ _) eqn:E.
  { apply list_eqb_eq in E. contradiction. }
  rewrite Hl, Nat.eqb_refl, Hz. reflexivity.
Qed.

Lemma validate_patch_whitespace_only_witness :
  _validate_patch reindent_diff
  = (false, "No meaningful changes (only whitespace differences)").
Proof.
  apply validate_patch_whitespace_only.
  - vm_compute. discriminate.
  - vm_compute. repeat constructor.
Defined.

Lemma collect_line_no_change acc l :
  no_change_line l -> collect_line acc l = acc.
Proof.
  intros [Hm Hp]. unfold collect_line. destruct acc as [r a].
  destruct (startswith l "---") eqn:E1; [reflexivity|].
  destruct (startswith l "+++") eqn:E2; [reflexivity|]. simpl.
  destruct (startswith l "@@"); [reflexivity|].
  destruct (startswith l "diff --git"); [reflexivity|].
  destruct (startswith l "-") eqn:E3.
  { specialize (Hm eq_refl). congruence. }
  destruct (startswith l "+") eqn:E4.
  { specialize (Hp eq_refl). congruence. }
  reflexivity.
Qed.

(** X7: a diff that is not blank and in which every line starting with a
    sign is a [---] or [+++] header (context and headers only) is
    rejected for holding no change. *)
Theorem validate_patch_no_change_lines d :
  strip d <> "" ->
  Forall no_change_line (split_nl d) ->
  _validate_patch d = (false, "No changes in diff (no + or - lines)").
Proof.
  intros Hs Hlines.
  assert (Hc : collect (split_nl d) = ([], [])).
  { unfold collect. generalize (@nil string, @nil string).
    induction Hlines as [|l ls Hl _ IH]; intros acc; simpl; [reflexivity|].
    rewrite (collect_line_no_change acc l Hl). apply IH. }
  unfold _validate_patch, removals_of, additions_of. rewrite Hc. simpl.
  destruct d; [now contradiction Hs|]. simpl.
  destruct (strip _); [now contradiction Hs|]. reflexivity.
Qed.

Lemma validate_patch_no_change_lines_witness :
  _validate_patch context_only_diff
  = (false, "No changes in diff (no + or - lines)").
Proof.
  apply validate_patch_no_change_lines.
  - vm_compute. discriminate.
  - vm_compute. repeat constructor; discriminate.
Defined.

End PatchVerdicts.

(** ** The gate's line count against the validator's change lines *)

Section CountVersusChanges.
Import PyStr Py Types Patch Gate Samples.

Lemma collect_bound lines acc :
  (length (fst (fold_left collect_line lines acc))
   + length (snd (fold_left collect_line lines acc))
   <= length (fst acc) + length (snd acc)
      + length (List.filter
                  (fun line => startswith line "+" || startswith line "-")
                  lines))%nat.
Proof.
  revert acc. induction lines as [|l ls IH]; intros acc; simpl; [lia|].
  specialize (IH (collect_line acc l)).
  assert (Hstep :
    (length (fst (collect_line acc l)) + length (snd (collect_line acc l))
     <= length (fst acc) + length (snd acc)
        + if startswith l "+" || startswith l "-" then 1 else 0)%nat).
  { unfold collect_line. destruct acc as [r a].
    destruct (startswith l "---" || startswith l "+++" || startswith l "@@");
      [simpl; lia|].
    destruct (startswith l "diff --git"); [simpl; lia|].
    destruct (startswith l "-") eqn:Em; simpl.
    - destruct (negb (startswith l "---")); simpl.
      + rewrite length_app, orb_true_r. simpl. lia.
      + destruct (startswith l "+" && negb (startswith l "+++")); simpl;
          rewrite ?length_app, ?orb_true_r; simpl; lia.
    - destruct (startswith l "+") eqn:Ep; simpl; [|lia].
      destruct (negb (startswith l "+++")); simpl;
        rewrite ?length_app; simpl; lia.
  }
  destruct (startswith l "+" || startswith l "-"); simpl in *; lia.
Qed.

(** X8: every change line the validator collects is a line the gate
    counts: the count compared with [max_diff_lines] is at least the
    number of removal lines plus the number of addition lines. *)
Theorem gate_count_covers_changes d :
  (Z.of_nat (length (removals_of d) + length (additions_of d))
   <= count_diff_lines d)%Z.
Proof.
  unfold count_diff_lines, removals_of, additions_of, collect.
  pose proof (collect_bound (split_nl d) ([], [])) as H. simpl in H.
  lia.
Qed.

End CountVersusChanges.

(** ** The edit executor: what it does to the state *)

Section EditExecutor.
Import PyStr Py Types Patch Exec Samples.

Context {W : Type}.
Variable host : Host W.

(** X9: with no diff, an empty diff or a diff [_validate_patch] refuses,
    [_exec_edit] reports a failure and touches neither the agent state
    nor the host: nothing is written and [git] is not run. *)
Theorem exec_edit_refuses_without_side_effect proposal state w :
  truthy (dict_get proposal.(inputs) "diff" (VStr "")) = false
  \/ (exists diff, dict_get proposal.(inputs) "diff" (VStr "") = VStr diff
                  /\ fst (_validate_patch diff) = false) ->
  exists res,
    _exec_edit host proposal (state, w) = ((state, w), Ok res)
    /\ res.(status) = "fail".
Proof.
  intros [H|(diff & Hd & Hv)]; unfold _exec_edit.
  - rewrite H. simpl. eexists. split; reflexivity.
  - rewrite Hd.
    destruct (truthy (VStr diff)); simpl; [|eexists; split; reflexivity].
    unfold mbind, eff_bind, lift. cbn beta iota.
    destruct (_validate_patch diff) as [valid error]. simpl in Hv.
    rewrite Hv. simpl. eexists. split; reflexivity.
Qed.

End EditExecutor.

Section EditExecutorExamples.
Import PyStr Py Types Patch Exec Samples.

Lemma exec_edit_refuses_without_side_effect_witness :
  exists res,
    _exec_edit clean_host (edit_proposal noop_diff ["src/f.py"])
      (state_in PLAN fresh_budget, tt)
    = ((state_in PLAN fresh_budget, tt), Ok res)
    /\ res.(status) = "fail".
Proof.
  apply exec_edit_refuses_without_side_effect.
  right. exists noop_diff. split; vm_compute; reflexivity.
Defined.

End EditExecutorExamples.

Section EditOutcome.
Import PyStr Py Types Patch Exec Samples.

Context {W : Type}.
Variable host : Host W.

Ltac run_eff :=
  unfold mbind, eff_bind, get, lift, try_except, do_write,
    do_git_apply_3way, bump_patch_attempts, modify, mret, eff_ret;
  cbn beta iota.

Lemma direct_edit_files_outcome diff additions deletions files state w :
  attempt_outcome state
    (direct_edit_files host diff additions deletions files (state, w)).
Proof.
  revert w.
  induction files as [|fname rest IH]; intros w; cbn [direct_edit_files].
  - right. split; reflexivity.
  - run_eff.
    destruct (path_exists host w _ fname); cbn [negb]; [|apply IH].
    destruct (read_text host w _ fname) as [content|e]; cbn beta iota;
      [|apply IH].
    destruct (String.eqb _ content); cbn [negb]; cbn beta iota; [apply IH|].
    destruct (write_text host _ fname _ w) as [w1 [[]|e]]; cbn beta iota.
    + left. eexists. repeat split.
    + apply IH.
Qed.

Lemma try_direct_edit_outcome proposal diff state w :
  attempt_outcome state (_try_direct_edit host proposal diff (state, w)).
Proof.
  unfold _try_direct_edit.
  destruct (is_nil _); [right; split; reflexivity|].
  destruct (fold_left _ _ _) as [additions deletions].
  destruct (_ && _); [right; split; reflexivity|].
  apply direct_edit_files_outcome.
Qed.

Lemma try_structured_edit_outcome proposal diff state w :
  attempt_outcome state (_try_structured_edit host proposal diff (state, w)).
Proof.
  unfold _try_structured_edit.
  destruct (if truthy _ then false else _); [right; split; reflexivity|].
  destruct (fold_left _ _ _) as [[current_file removals] additions].
  destruct current_file as [current_file|]; [|right; split; reflexivity].
  destruct (_ || _); [right; split; reflexivity|].
  run_eff.
  destruct (path_exists host w _ current_file); cbn [negb] ;
    [|right; split; reflexivity].
  destruct (read_text host w _ current_file) as [original|e]; cbn beta iota;
    [|right; split; reflexivity].
  destruct (structured_modified original removals additions)
    as [modified changes_made].
  destruct (_ && _); cbn beta iota; [|right; split; reflexivity].
  destruct (write_text host _ current_file _ w) as [w1 [[]|e]]; cbn beta iota.
  - left. eexists. repeat split.
  - right. split; reflexivity.
Qed.

(** X10: for a diff that is a string and a [files] entry that has a
    length, [_exec_edit] never raises, and its own count of the patch
    goes with its verdict: it reports [ok] with [patch_attempts] raised by
    one and the rest of the agent state untouched, or it reports [fail]
    with the agent state exactly as it was. *)
Theorem exec_edit_counts_iff_ok proposal state w diff n :
  dict_get proposal.(inputs) "diff" (VStr "") = VStr diff ->
  py_len (dict_get proposal.(inputs) "files" (VList [])) = Ok n ->
  edit_outcome state (_exec_edit host proposal (state, w)).
Proof.
  intros Hd Hn. unfold _exec_edit. rewrite Hd.
  destruct (truthy (VStr diff)); cbn [negb].
  2:{ eexists. split; [reflexivity|]. right. split; reflexivity. }
  cbn [str_method]. run_eff.
  destruct (_validate_patch diff) as [valid error].
  destruct valid; cbn [negb]; cbn beta iota.
  2:{ eexists. split; [reflexivity|]. right. split; reflexivity. }
  destruct (git_apply_check host w _ _) as [[returncode stderr]|e];
    cbn beta iota.
  2:{ eexists. split; [reflexivity|]. right. split; reflexivity. }
  destruct (returncode =? 0)%Z; cbn [negb]; cbn beta iota.
  - destruct (git_apply_3way host _ _ w) as [w1 [[rc err]|e]]; cbn beta iota.
    2:{ eexists. split; [reflexivity|]. right. split; reflexivity. }
    destruct (rc =? 0)%Z; cbn beta iota.
    + rewrite Hn. cbn beta iota.
      eexists. split; [reflexivity|]. left. split; reflexivity.
    + eexists. split; [reflexivity|]. right. split; reflexivity.
  - pose proof (try_direct_edit_outcome proposal (_repair_patch diff)
                  state w) as Hdirect.
    destruct (_try_direct_edit host proposal (_repair_patch diff) (state, w))
      as [[s1 w1] r1].
    destruct Hdirect as [(res & Hr & Hok & Hs)|[Hr Hs]]; simpl in Hr, Hs;
      subst r1 s1; cbn beta iota.
    { eexists. split; [reflexivity|]. left. split; [exact Hok|reflexivity]. }
    pose proof (try_structured_edit_outcome proposal (_repair_patch diff)
                  state w1) as Hstruct.
    destruct (_try_structured_edit host proposal (_repair_patch diff)
                (state, w1)) as [[s2 w2] r2].
    destruct Hstruct as [(res & Hr & Hok & Hs)|[Hr Hs]]; simpl in Hr, Hs;
      subst r2 s2; cbn beta iota.
    { eexists. split; [reflexivity|]. left. split; [exact Hok|reflexivity]. }
    eexists. split; [reflexivity|]. right. split; reflexivity.
Qed.

End EditOutcome.

Section EditOutcomeExamples.
Import PyStr Py Types Patch Exec Samples.

Lemma exec_edit_counts_iff_ok_witness :
  edit_outcome (state_in PLAN fresh_budget)
    (_exec_edit clean_host (edit_proposal grow_diff ["src/f.py"])
       (state_in PLAN fresh_budget, tt)).
Proof.
  apply (exec_edit_counts_iff_ok clean_host
           (edit_proposal grow_diff ["src/f.py"])
           (state_in PLAN fresh_budget) tt grow_diff 1%Z).
  - reflexivity.
  - reflexivity.
Defined.

End EditOutcomeExamples.

(** ** What the executor leaves alone *)

Section FrameCombinators.
Import PyStr Py Types Samples Exec.

Lemma exec_frame_refl a : exec_frame a a.
Proof. unfold exec_frame. repeat split; lia. Qed.

Lemma exec_frame_trans a b c :
  exec_frame a b -> exec_frame b c -> exec_frame a c.
Proof.
  unfold exec_frame.
  intros (A1 & A2 & A3 & A4 & A5 & A6 & A7 & A8)
         (B1 & B2 & B3 & B4 & B5 & B6 & B7 & B8).
  repeat split; try congruence; lia.
Qed.

Context {W : Type}.

Lemma frame_ret {A} (a : A) : within_frame (W:=W) (mret a).
Proof. intros s s' r H. injection H as <- _. apply exec_frame_refl. Qed.

Lemma frame_get : within_frame (W:=W) get.
Proof. intros s s' r H. injection H as <- _. apply exec_frame_refl. Qed.

Lemma frame_lift {A} (x : result A) : within_frame (W:=W) (lift x).
Proof. intros s s' r H. injection H as <- _. apply exec_frame_refl. Qed.

Lemma frame_bind {A B} (m : Eff (AgentState * W) A)
  (k : A -> Eff (AgentState * W) B) :
  within_frame m -> (forall a, within_frame (k a)) -> within_frame (m ≫= k).
Proof.
  intros Hm Hk s s' r H. unfold mbind, eff_bind in H.
  destruct (m s) as [s1 [a|e]] eqn:E.
  - eapply exec_frame_trans; [eapply Hm; exact E | eapply Hk; exact H].
  - injection H as <- _. eapply Hm; exact E.
Qed.

Lemma frame_try {A} (m : Eff (AgentState * W) A)
  (h : exn -> Eff (AgentState * W) A) :
  within_frame m -> (forall e, within_frame (h e)) ->
  within_frame (try_except m h).
Proof.
  intros Hm Hh s s' r H. unfold try_except in H.
  destruct (m s) as [s1 [a|e]] eqn:E.
  - injection H as <- _. eapply Hm; exact E.
  - eapply exec_frame_trans; [eapply Hm; exact E | eapply Hh; exact H].
Qed.

Lemma frame_modify (f : AgentState * W -> AgentState * W) :
  (forall s, exec_frame (fst s) (fst (f s))) -> within_frame (modify f).
Proof. intros Hf s s' r H. injection H as <- _. apply Hf. Qed.

Variable host : Host W.

Lemma frame_do_write workdir f text : within_frame (do_write host workdir f text).
Proof.
  intros [st w] s' r H. unfold do_write in H.
  destruct (write_text host workdir f text w) as [w' x].
  injection H as <- _. apply exec_frame_refl.
Qed.

Lemma frame_do_git_apply_3way workdir diff :
  within_frame (do_git_apply_3way host workdir diff).
Proof.
  intros [st w] s' r H. unfold do_git_apply_3way in H.
  destruct (git_apply_3way host workdir diff w) as [w' x].
  injection H as <- _. apply exec_frame_refl.
Qed.

Lemma frame_do_run_tests workdir command :
  within_frame (do_run_tests host workdir command).
Proof.
  intros [st w] s' r H. unfold do_run_tests in H.
  destruct (run_tests_cmd host workdir command w) as [w' x].
  injection H as <- _. apply exec_frame_refl.
Qed.

End FrameCombinators.

(** One structural step of a proof that a computation stays within the
    frame of the executors. *)
Ltac frame_step :=
  first
    [ apply frame_ret | apply frame_get | apply frame_lift
    | apply frame_do_write | apply frame_do_git_apply_3way
    | apply frame_do_run_tests
    | assumption
    | apply frame_modify; intros [? ?]; unfold Samples.exec_frame; simpl;
      repeat split; lia
    | apply frame_bind; [|intros ?]
    | apply frame_try; [|intros ?]
    | match goal with
      | |- Samples.within_frame (if ?b then _ else _) => destruct b
      | |- Samples.within_frame (match ?x with _ => _ end) => destruct x
      | |- Samples.within_frame (let (_, _) := ?x in _) => destruct x
      end ].

Section ExecutorFrame.
Import PyStr Py Types Samples Exec.

Context {W : Type}.
Variable host : Host W.

Lemma frame_bump : within_frame (W:=W) bump_patch_attempts.
Proof. unfold bump_patch_attempts. frame_step. Qed.

Lemma frame_direct_edit_files diff additions deletions files :
  within_frame (direct_edit_files host diff additions deletions files).
Proof.
  induction files as [|fname rest IH]; simpl;
    repeat first [ apply frame_bump | frame_step ].
Qed.

Lemma frame_exec_edit proposal : within_frame (_exec_edit host proposal).
Proof.
  unfold _exec_edit, _try_direct_edit, _try_structured_edit.
  repeat first [ apply frame_bump | apply frame_direct_edit_files
               | frame_step ].
Qed.

Lemma frame_inspect_files aliased files contents files_read :
  within_frame (inspect_files host aliased files contents files_read).
Proof.
  revert contents files_read.
  induction files as [|fv rest IH]; intros contents files_read; simpl.
  - apply frame_ret.
  - repeat first [ apply IH | frame_step ].
Qed.

Lemma frame_exec_inspect proposal : within_frame (_exec_inspect host proposal).
Proof.
  unfold _exec_inspect.
  apply frame_bind; [apply frame_get|]. intros [state w].
  assert (Hfiles : within_frame (W:=W)
    (if truthy (dict_get proposal.(inputs) "files" (VList []))
     then
       let aliased := match state.(notes) !! "files_read" with
                      | Some (VList _) => true
                      | _ => false
                      end in
       let files_read := dict_get state.(notes) "files_read" (VList []) in
       items ← lift (py_iter (dict_get proposal.(inputs) "files" (VList [])));
       '(contents, files_read) ← inspect_files host aliased items [] files_read;
       _ ← modify (fun '(state, w) =>
              (set_note "last_file_contents" (VDict contents)
                 (set_note "files_read" files_read state), w));
       _ ← modify (fun '(state, w) =>
              (set_localization_hits
                 (state.(localization_hits) ++ read_hits contents) state, w));
       let keys := VList (map (fun kv => VStr (fst kv)) contents) in
       mret (ok_result ("Read " +:+ str_of_Z (Z.of_nat (length contents))
                        +:+ " files: " +:+ fmt host keys)
               keys (<["contents" := VDict contents]> ∅))
     else mret (ok_result "No files to inspect" (VList []) ∅))).
  { destruct (truthy _); [|apply frame_ret].
    cbv zeta. repeat first [ apply frame_inspect_files | frame_step ]. }
  assert (Hps : within_frame (W:=W)
    (let content := dict_get state.(notes) "problem_statement"
                      (VStr "No problem statement available") in
     p ← lift (preview host 200 content);
     mret (ok_result ("Problem statement: " +:+ p +:+ "...") (VList [])
             (<["content" := content]> ∅)))).
  { cbv zeta. repeat frame_step. }
  destruct (dict_get proposal.(inputs) "query" (VStr "")) as [| | |q| |];
    try exact Hfiles.
  destruct (String.eqb_spec q "problem_statement") as [->|Hq];
    [exact Hps|].
  repeat match goal with
  | |- within_frame (match ?x with _ => _ end) =>
      first [ exact Hfiles | exact Hps | destruct x ]
  end; first [ exact Hfiles | exact Hps | congruence ].
Qed.

Lemma frame_exec_search proposal : within_frame (_exec_search host proposal).
Proof. unfold _exec_search. repeat frame_step. Qed.

Lemma frame_exec_run_tests proposal :
  within_frame (_exec_run_tests host proposal).
Proof. unfold _exec_run_tests. repeat frame_step. Qed.

Lemma frame_exec_finalize proposal :
  within_frame (_exec_finalize host proposal).
Proof. unfold _exec_finalize. cbv zeta. repeat frame_step. Qed.

Lemma frame_execute profile proposal :
  within_frame (execute host profile proposal).
Proof.
  unfold execute.
  repeat first [ apply frame_exec_inspect | apply frame_exec_search
               | apply frame_exec_edit | apply frame_exec_run_tests
               | apply frame_exec_finalize | frame_step ].
Qed.

(** X11: whatever the proposal and the host, [execute] leaves the task
    id, the repository, the phase, the touched files, [round_idx],
    [test_runs] and [model_calls] of the agent state as they were, and
    never lowers [patch_attempts], whether it returns or raises. *)
Theorem execute_stays_within_frame profile proposal state w :
  exec_frame state (fst (fst (execute host profile proposal (state, w)))).
Proof.
  destruct (execute host profile proposal (state, w)) as [s' r] eqn:E.
  exact (frame_execute profile proposal _ _ _ E).
Qed.

End ExecutorFrame.

(** ** The loop: one round at a time, and it ends *)

Section LoopProgress.
Import PyStr Py Types Samples Exec Loop.

Variable phase_value : Phase -> string.
Context {W : Type}.
Variable propose_fn : Profile -> Eff (AgentState * W) Proposal.
Variable gate_fn : Profile -> AgentState -> Proposal -> result GateDecision.
Variable exec_fn : Profile -> Proposal -> Eff (AgentState * W) ExecResult.

Hypothesis propose_frame : forall p, within_frame (propose_fn p).
Hypothesis exec_fn_frame : forall p q, within_frame (exec_fn p q).

Lemma round_progress profile (c c' : Config (W:=W)) :
  round phase_value propose_fn gate_fn exec_fn profile c = Ok c' ->
  ((profile.(max_rounds) <= c.(cfg_state).(budget).(round_idx))%Z
   /\ c'.(cfg_state).(phase) = DONE
   /\ c'.(cfg_state).(budget) = c.(cfg_state).(budget)
   /\ c'.(cfg_ledger) = c.(cfg_ledger))
  \/ ((c.(cfg_state).(budget).(round_idx) < profile.(max_rounds))%Z
      /\ c'.(cfg_state).(budget).(round_idx)
         = (c.(cfg_state).(budget).(round_idx) + 1)%Z
      /\ (c'.(cfg_ledger) = c.(cfg_ledger)
          \/ exists ev, c'.(cfg_ledger) = c.(cfg_ledger) ++ [ev])).
Proof.
  unfold round. intros H.
  destruct (_ <=? _)%Z eqn:Emax.
  { injection H as <-. left. apply Z.leb_le in Emax. simpl. auto. }
  apply Z.leb_gt in Emax. right. split; [exact Emax|].
  destruct (propose_fn profile _) as [[state w] [proposal|e]] eqn:Eprop;
    apply propose_frame in Eprop; simpl in Eprop;
    destruct Eprop as (_ & _ & _ & _ & Hidx & _).
  2:{ injection H as <-. simpl. split; [exact Hidx|now left]. }
  destruct (gate_fn profile state proposal) as [decision|e]; simpl in H;
    [|discriminate].
  destruct (negb (accept decision)).
  { injection H as <-. simpl. split; [exact Hidx|]. right.
    unfold append_event. eauto. }
  destruct (exec_fn profile proposal (state, w)) as [[state1 w1] r] eqn:Eexec.
  apply exec_fn_frame in Eexec. simpl in Eexec.
  destruct Eexec as (_ & _ & _ & _ & Hidx1 & _).
  destruct (update_budgets state1 proposal) as [state2|e] eqn:Eu; simpl in H;
    [|discriminate].
  apply update_budgets_counters in Eu as (Hidx2 & _).
  destruct (_advance_phase _ state2 _ _ _) as [state3|e] eqn:Ea; simpl in H;
    [|discriminate].
  apply advance_phase_frame in Ea as [Ea _].
  injection H as <-. simpl. rewrite Ea. split.
  - rewrite Hidx2, Hidx1, Hidx. reflexivity.
  - right. unfold append_event. eauto.
Qed.

Lemma run_episode_done fuel profile (c : Config (W:=W)) :
  c.(cfg_state).(phase) = DONE ->
  run_episode phase_value propose_fn gate_fn exec_fn fuel profile c
  = Some (Ok c).
Proof.
  intros H. destruct fuel; simpl; destruct (decide _); congruence.
Qed.

Lemma run_episode_enough_fuel profile fuel (c : Config (W:=W)) :
  (Z.to_nat (profile.(max_rounds) - c.(cfg_state).(budget).(round_idx)) < fuel)%nat ->
  run_episode phase_value propose_fn gate_fn exec_fn fuel profile c <> None.
Proof.
  revert c. induction fuel as [|fuel IH]; intros c Hfuel; [lia|].
  simpl. destruct (decide _); [discriminate|].
  destruct (round _ _ _ _ profile c) as [c1|e] eqn:Er; [|discriminate].
  apply round_progress in Er as [(_ & Hdone & _)|(Hlt & Hidx & _)].
  - rewrite run_episode_done by exact Hdone. discriminate.
  - apply IH. rewrite Hidx. lia.
Qed.

End LoopProgress.

Section LoopProgressClaims.
Import PyStr Py Types Samples Gate Exec Loop.

(** X12: with the executor of the repository and a proposer that stays
    within the frame of the executors (it writes notes), a pass of the
    loop either is the [max_rounds] stop, which sets the phase to [DONE]
    and leaves budget and ledger alone, or raises [round_idx] by exactly
    one and appends at most one event to the ledger. *)
Theorem round_is_serial phase_value (W : Type) (host : Host W)
  propose_fn gate_fn profile (c c' : Config (W:=W)) :
  (forall p, within_frame (propose_fn p)) ->
  round phase_value propose_fn gate_fn (execute host) profile c = Ok c' ->
  ((profile.(max_rounds) <= c.(cfg_state).(budget).(round_idx))%Z
   /\ c'.(cfg_state).(phase) = DONE
   /\ c'.(cfg_state).(budget) = c.(cfg_state).(budget)
   /\ c'.(cfg_ledger) = c.(cfg_ledger))
  \/ ((c.(cfg_state).(budget).(round_idx) < profile.(max_rounds))%Z
      /\ c'.(cfg_state).(budget).(round_idx)
         = (c.(cfg_state).(budget).(round_idx) + 1)%Z
      /\ (c'.(cfg_ledger) = c.(cfg_ledger)
          \/ exists ev, c'.(cfg_ledger) = c.(cfg_ledger) ++ [ev])).
Proof.
  intros Hp Hr.
  eapply round_progress; [exact Hp| |exact Hr].
  intros p q. apply frame_execute.
Qed.

(** X13: [run_episode] ends.  With the executor of the repository and a
    proposer that stays within the frame, the loop returns or raises
    within [max_rounds - round_idx + 1] passes, whatever the gate, the
    host and the proposals are. *)
Theorem run_episode_terminates phase_value (W : Type) (host : Host W)
  propose_fn gate_fn profile fuel (c : Config (W:=W)) :
  (forall p, within_frame (propose_fn p)) ->
  (Z.to_nat (profile.(max_rounds) - c.(cfg_state).(budget).(round_idx)) < fuel)%nat ->
  run_episode phase_value propose_fn gate_fn (execute host) fuel profile c
  <> None.
Proof.
  intros Hp Hfuel.
  apply run_episode_enough_fuel; [exact Hp| |exact Hfuel].
  intros p q. apply frame_execute.
Qed.

Lemma within_frame_always p profile : within_frame (always p profile).
Proof. intros s s' r H. injection H as <- _. apply exec_frame_refl. Qed.

Lemma round_is_serial_witness :
  exists c',
    round phase_name (always inspect_proposal) (gate phase_name)
      (execute clean_host) (profile_with 10) (start_in INGEST) = Ok c'
    /\ c'.(cfg_state).(budget).(round_idx) = 1%Z
    /\ length c'.(cfg_ledger) = 1%nat.
Proof.
  eexists. split; [vm_compute; reflexivity|].
  destruct (round_is_serial phase_name unit clean_host
              (always inspect_proposal) (gate phase_name) (profile_with 10)
              (start_in INGEST) _
              (fun p => within_frame_always inspect_proposal p) eq_refl)
    as [(H & _)|(_ & H & _)].
  - vm_compute in H. exfalso. now apply H.
  - split; [exact H|reflexivity].
Defined.

Lemma run_episode_terminates_witness :
  run_episode phase_name (always inspect_proposal) (gate phase_name)
    (execute clean_host) 11 (profile_with 10) (start_in INGEST) <> None.
Proof.
  apply run_episode_terminates.
  - intros p. apply within_frame_always.
  - vm_compute. lia.
Defined.

End LoopProgressClaims.

(** ** Phase advancement *)

Section PhaseAdvance.
Import PyStr Py Types Samples Loop.

Variable phase_value : Phase -> string.

Lemma phase_of_value_known p :
  exists p', phase_of_value phase_value (VStr (phase_value p)) = Ok p'
             /\ phase_value p' = phase_value p.
Proof.
  unfold phase_of_value.
  destruct (List.find _ all_phases) as [p'|] eqn:E.
  - exists p'. split; [reflexivity|].
    apply find_some in E as [_ E]. now apply String.eqb_eq in E.
  - exfalso.
    assert (Hin : In p all_phases) by (destruct p; simpl; tauto).
    pose proof (find_none _ _ E p Hin) as H. simpl in H.
    now rewrite String.eqb_refl in H.
Qed.

Lemma phase_of_value_unknown v :
  (forall q, phase_value q <> v) ->
  phase_of_value phase_value (VStr v)
  = Raise (ValueError ("'" +:+ v +:+ "' is not a valid Phase")).
Proof.
  intros H. unfold phase_of_value.
  destruct (List.find _ all_phases) as [p'|] eqn:E; [|reflexivity].
  apply find_some in E as [_ E]. apply String.eqb_eq in E.
  now contradiction (H p').
Qed.

(** X14: a [next_phase] note overrides the transition table for one
    round: the note is consumed, the phase becomes the member with the
    noted value, and nothing else of the state changes; a noted value
    that no member has makes [_advance_phase] raise [ValueError]. *)
Theorem advance_phase_override state proposal exec_result profile :
  (forall p,
      state.(notes) !! "next_phase" = Some (VStr (phase_value p)) ->
      exists p',
        phase_value p' = phase_value p
        /\ _advance_phase phase_value state proposal exec_result profile
           = Ok (set_phase p'
                   (set_notes (delete "next_phase" state.(notes)) state)))
  /\ (forall v,
        state.(notes) !! "next_phase" = Some (VStr v) ->
        (forall q, phase_value q <> v) ->
        _advance_phase phase_value state proposal exec_result profile
        = Raise (ValueError ("'" +:+ v +:+ "' is not a valid Phase"))).
Proof.
  split.
  - intros p H. unfold _advance_phase. rewrite H.
    destruct (phase_of_value_known p) as (p' & E & Hv).
    exists p'. split; [exact Hv|]. rewrite E. reflexivity.
  - intros v H Hnone. unfold _advance_phase. rewrite H.
    rewrite (phase_of_value_unknown v Hnone). reflexivity.
Qed.

(** X15: without a [next_phase] note, [_advance_phase] ends the episode
    only from [FINALIZE] and only on a [finalize] proposal, and then it
    notes the stop reason [finalized]. *)
Theorem advance_phase_done_only_by_finalize
  state proposal exec_result profile state' :
  state.(notes) !! "next_phase" = None ->
  state.(phase) <> DONE ->
  _advance_phase phase_value state proposal exec_result profile = Ok state' ->
  state'.(phase) = DONE ->
  state.(phase) = FINALIZE
  /\ proposal.(kind) = "finalize"
  /\ state'.(notes) !! "stop_reason" = Some (VStr "finalized").
Proof.
  intros Hnone Hnd H Hdone. unfold _advance_phase in H. rewrite Hnone in H.
  destruct (phase state) eqn:Ep; try contradiction;
    repeat match type of H with
    | context [if ?b then _ else _] => destruct b eqn:?
    | context [tests_passed ?r] => destruct (tests_passed r); simpl in H
    end;
    try discriminate H; injection H as <-; simpl in Hdone;
    try discriminate Hdone; try congruence.
  split; [reflexivity|]. split.
  - now apply String.eqb_eq.
  - simpl. apply lookup_insert_eq.
Qed.

End PhaseAdvance.

Section PhaseAdvanceExamples.
Import PyStr Py Types Samples Loop.

Lemma advance_phase_override_witness :
  exists p',
    phase_name p' = phase_name TEST_STAGE
    /\ _advance_phase phase_name
         (set_note "next_phase" (VStr "test_stage") (state_in PLAN fresh_budget))
         inspect_proposal (mkExecResult "ok" "" (VList []) ∅) (profile_with 10)
       = Ok (set_phase p'
               (set_notes
                  (delete "next_phase"
                     (set_note "next_phase" (VStr "test_stage")
                        (state_in PLAN fresh_budget)).(notes))
                  (set_note "next_phase" (VStr "test_stage")
                     (state_in PLAN fresh_budget)))).
Proof.
  destruct (advance_phase_override phase_name
              (set_note "next_phase" (VStr "test_stage")
                 (state_in PLAN fresh_budget))
              inspect_proposal (mkExecResult "ok" "" (VList []) ∅)
              (profile_with 10)) as [Hforce _].
  apply (Hforce TEST_STAGE). reflexivity.
Defined.

Lemma advance_phase_done_only_by_finalize_witness :
  FINALIZE = FINALIZE
  /\ "finalize" = "finalize"
  /\ (set_note "stop_reason" (VStr "finalized")
        (set_phase DONE (state_in FINALIZE fresh_budget))).(notes)
     !! "stop_reason" = Some (VStr "finalized").
Proof.
  apply (advance_phase_done_only_by_finalize phase_name
           (state_in FINALIZE fresh_budget)
           (mkProposal "finalize" "done" ∅ [])
           (mkExecResult "ok" "" (VList []) ∅) (profile_with 10)
           (set_note "stop_reason" (VStr "finalized")
              (set_phase DONE (state_in FINALIZE fresh_budget)))).
  - reflexivity.
  - discriminate.
  - reflexivity.
  - reflexivity.
Defined.

End PhaseAdvanceExamples.

(** ** A round in which the proposer or the executor raises *)

Section RoundErrors.
Import PyStr Py Types Samples Gate Exec Loop.

Variable phase_value : Phase -> string.
Context {W : Type}.

(** X16: when the proposer raises, the round still completes: the error
    text goes to [notes["last_error"]], the phase becomes [DIAGNOSE], the
    ledger is left as it was, and neither the gate nor the executor has a
    say (the result is the same for all of them). *)
Theorem round_survives_propose_error
  (propose_fn : Profile -> Eff (AgentState * W) Proposal)
  profile (c : Config (W:=W)) state1 w1 e :
  (c.(cfg_state).(budget).(round_idx) < profile.(max_rounds))%Z ->
  propose_fn profile
    (set_budget (incr_round_idx c.(cfg_state).(budget)) c.(cfg_state),
     c.(cfg_world))
  = ((state1, w1), Raise e) ->
  forall gate_fn exec_fn,
    round phase_value propose_fn gate_fn exec_fn profile c
    = Ok (mkConfig
            (set_phase DIAGNOSE
               (set_note "last_error" (VStr (exn_str e)) state1))
            w1 c.(cfg_ledger)).
Proof.
  intros Hlt Hprop gate_fn exec_fn. unfold round.
  apply Z.ltb_lt in Hlt. rewrite Z.leb_antisym, Hlt. simpl.
  rewrite Hprop. reflexivity.
Qed.

(** On strings the set and the sort of [sorted_union] never raise. *)
Lemma existsb_py_eqb_strs n acc :
  existsb (py_eqb (VStr n)) (map VStr acc) = true <-> In n acc.
Proof.
  induction acc as [|a acc IH]; simpl; [split; [discriminate|tauto]|].
  rewrite orb_true_iff, IH, String.eqb_eq. intuition congruence.
Qed.

Lemma set_add_all_strs names : forall acc,
  NoDup acc ->
  exists l, set_add_all (map VStr names) (map VStr acc) = Ok (map VStr l)
            /\ NoDup l
            /\ forall x, In x l <-> In x acc \/ In x names.
Proof.
  induction names as [|n names IH]; intros acc Hnd; simpl.
  - exists acc. split; [reflexivity|]. split; [exact Hnd|]. tauto.
  - destruct (existsb (py_eqb (VStr n)) (map VStr acc)) eqn:E.
    + apply existsb_py_eqb_strs in E.
      destruct (IH acc Hnd) as (l & Hl & Hndl & Hin).
      exists l. split; [exact Hl|]. split; [exact Hndl|].
      intros x. rewrite Hin. intuition congruence.
    + assert (Hn : ~ In n acc).
      { intros Hn. apply existsb_py_eqb_strs in Hn. congruence. }
      assert (Hnd' : NoDup (acc ++ [n])).
      { apply NoDup_app. split; [exact Hnd|]. split.
        - intros x Hx Hx'. apply list_elem_of_In in Hx.
          apply list_elem_of_singleton in Hx'. subst x. contradiction.
        - apply NoDup_singleton. }
      destruct (IH (acc ++ [n]) Hnd') as (l & Hl & Hndl & Hin).
      exists l. split.
      { change [VStr n] with (map VStr [n]). rewrite <- map_app. exact Hl. }
      split; [exact Hndl|].
      intros x. rewrite Hin, in_app_iff. simpl. intuition congruence.
Qed.

Lemma ltb_trans a b c :
  String.ltb a b = true -> String.ltb b c = true -> String.ltb a c = true.
Proof.
  unfold String.ltb. intros Hab Hbc.
  destruct (String.compare a b) eqn:E1; try discriminate.
  destruct (String.compare b c) eqn:E2; try discriminate.
  assert (H := OrderedTypeEx.String_as_OT.lt_trans a b c).
  rewrite <- !OrderedTypeEx.String_as_OT.cmp_lt in H.
  unfold OrderedTypeEx.String_as_OT.cmp in H.
  now rewrite (H E1 E2).
Qed.

Lemma not_ltb_gt x y :
  x <> y -> String.ltb x y = false -> String.ltb y x = true.
Proof.
  unfold String.ltb. intros Hne Hl.
  rewrite (String.compare_antisym y x).
  destruct (String.compare x y) eqn:E; simpl; try reflexivity.
  - apply String.compare_eq_iff in E. contradiction.
  - discriminate Hl.
Qed.

Lemma insert_sorted_strs x l :
  strictly_sorted l -> ~ In x l ->
  exists l', insert_sorted (VStr x) (map VStr l) = Ok (map VStr l')
             /\ strictly_sorted l'
             /\ forall y, In y l' <-> y = x \/ In y l.
Proof.
  induction l as [|z l IH]; simpl; intros Hs Hx.
  - exists [x]. split; [reflexivity|]. split; [split; [constructor|exact I]|].
    simpl. intuition congruence.
  - destruct Hs as [Hz Hs].
    destruct (String.ltb x z) eqn:Hl.
    + exists (x :: z :: l). split; [reflexivity|]. split.
      * split; [|split; assumption]. constructor; [exact Hl|].
        eapply Forall_impl; [exact Hz|]. intros a Ha. simpl in Ha.
        eapply ltb_trans; eassumption.
      * simpl. intuition congruence.
    + destruct IH as (l' & Hl' & Hs' & Hin); [exact Hs|tauto|].
      exists (z :: l'). rewrite Hl'. split; [reflexivity|]. split.
      * split; [|exact Hs'].
        apply Forall_forall. intros a Ha.
        apply list_elem_of_In, Hin in Ha as [->|Ha].
        -- apply not_ltb_gt; [|exact Hl]. intros ->. apply Hx. now left.
        -- rewrite Forall_forall in Hz. now apply Hz, list_elem_of_In.
      * intros y. simpl. rewrite Hin. intuition congruence.
Qed.

Lemma py_sorted_strs l :
  NoDup l ->
  exists l', py_sorted (map VStr l) = Ok (map VStr l')
             /\ strictly_sorted l'
             /\ forall y, In y l' <-> In y l.
Proof.
  induction l as [|x l IH]; simpl; intros Hnd.
  - exists []. split; [reflexivity|]. split; [exact I|]. tauto.
  - apply NoDup_cons in Hnd as [Hx Hnd].
    destruct (IH Hnd) as (l1 & Hl1 & Hs1 & Hin1). rewrite Hl1. simpl.
    destruct (insert_sorted_strs x l1 Hs1) as (l' & Hl' & Hs' & Hin').
    { rewrite Hin1. intros H. apply Hx. now apply list_elem_of_In. }
    exists l'. split; [exact Hl'|]. split; [exact Hs'|].
    intros y. rewrite Hin', Hin1. intuition congruence.
Qed.

Lemma sorted_union_strs touched names :
  exists merged,
    sorted_union (map VStr touched) (VList (map VStr names))
    = Ok (map VStr merged)
    /\ strictly_sorted merged
    /\ forall x, In x merged <-> In x touched \/ In x names.
Proof.
  unfold sorted_union.
  destruct (set_add_all_strs touched [] (NoDup_nil_2 (A:=string)))
    as (a & Ha & Hnda & Hina).
  change (@nil value) with (map VStr []). rewrite Ha. simpl.
  destruct (set_add_all_strs names a Hnda) as (u & Hu & Hndu & Hinu).
  rewrite Hu. simpl.
  destruct (py_sorted_strs u Hndu) as (m & Hm & Hsm & Hinm).
  exists m. split; [exact Hm|]. split; [exact Hsm|].
  intros x. rewrite Hinm, Hinu, Hina. simpl. tauto.
Qed.

Lemma update_budgets_total state proposal :
  (proposal.(kind) = "edit" ->
   files_well_shaped proposal
   /\ exists touched, state.(touched_files) = map VStr touched) ->
  exists state', update_budgets state proposal = Ok state'
                 /\ state'.(notes) = state.(notes)
                 /\ state'.(phase) = state.(phase).
Proof.
  intros Hshape. unfold update_budgets, dict_get.
  destruct (String.eqb_spec (kind proposal) "edit") as [Hk|Hk].
  - destruct (Hshape Hk) as [Hf [touched Ht]].
    assert (Hfiles : exists names,
               match proposal.(inputs) !! "files" with
               | Some v => v
               | None => VList []
               end = VList (map VStr names)).
    { destruct Hf as [->|[names ->]]; [exists []|exists names]; reflexivity. }
    destruct Hfiles as [names ->].
    destruct (String.eqb (kind proposal) "run_tests");
      destruct (str_in (kind proposal) _); simpl; rewrite Ht;
      destruct (sorted_union_strs touched names) as (m & -> & _); simpl;
      eexists; (split; [reflexivity|split; reflexivity]).
  - destruct (String.eqb (kind proposal) "run_tests");
      destruct (str_in (kind proposal) _); simpl;
      eexists; (split; [reflexivity|split; reflexivity]).
Qed.

(** X17: when the executor raises, the round still completes: the
    exception becomes a [fail] result whose summary is
    [Execution error: ...], the round is logged with it, and the budgets
    are counted as for any executed proposal.  (No phase is forced; for
    an edit, the proposal's [files], when present, is a list of strings,
    and the touched files are strings.) *)
Theorem round_survives_exec_error
  (propose_fn : Profile -> Eff (AgentState * W) Proposal)
  (gate_fn : Profile -> AgentState -> Proposal -> result GateDecision)
  (exec_fn : Profile -> Proposal -> Eff (AgentState * W) ExecResult)
  profile (c : Config (W:=W)) state1 w1 proposal decision state2 w2 e :
  (c.(cfg_state).(budget).(round_idx) < profile.(max_rounds))%Z ->
  propose_fn profile
    (set_budget (incr_round_idx c.(cfg_state).(budget)) c.(cfg_state),
     c.(cfg_world))
  = ((state1, w1), Ok proposal) ->
  gate_fn profile state1 proposal = Ok decision ->
  decision.(accept) = true ->
  exec_fn profile proposal (state1, w1) = ((state2, w2), Raise e) ->
  (proposal.(kind) = "edit" ->
   files_well_shaped proposal
   /\ exists touched, state2.(touched_files) = map VStr touched) ->
  state2.(notes) !! "next_phase" = None ->
  exists c' state3 ev,
    round phase_value propose_fn gate_fn exec_fn profile c = Ok c'
    /\ update_budgets state2 proposal = Ok state3
    /\ c'.(cfg_state).(budget) = state3.(budget)
    /\ c'.(cfg_ledger) = c.(cfg_ledger) ++ [ev]
    /\ ev.(ev_exec_result).(status) = "fail"
    /\ ev.(ev_exec_result).(summary) = "Execution error: " +:+ exn_str e.
Proof.
  intros Hlt Hprop Hgate Hacc Hexec Hfiles Hnone.
  destruct (update_budgets_total state2 proposal Hfiles)
    as (state3 & Hu & Hnotes & Hphase).
  unfold round.
  apply Z.ltb_lt in Hlt. rewrite Z.leb_antisym, Hlt. simpl.
  rewrite Hprop, Hgate. simpl. rewrite Hacc. simpl.
  rewrite Hexec, Hu. simpl.
  unfold _advance_phase. rewrite Hnotes, Hnone.
  destruct (phase state3) eqn:Ep; simpl;
    repeat match goal with
    | |- context [if ?b then _ else _] => destruct b
    end;
    do 3 eexists; repeat split; reflexivity.
Qed.

End RoundErrors.

Section RoundErrorExamples.
Import PyStr Py Types Samples Gate Exec Loop.

Lemma round_survives_propose_error_witness :
  round phase_name failing_propose (gate phase_name) (execute clean_host)
    (profile_with 10) (start_in PLAN)
  = Ok (mkConfig
          (set_phase DIAGNOSE
             (set_note "last_error" (VStr "model unavailable")
                (set_budget (incr_round_idx fresh_budget)
                   (state_in PLAN fresh_budget))))
          tt []).
Proof.
  apply (round_survives_propose_error phase_name failing_propose
           (profile_with 10) (start_in PLAN)
           (set_budget (incr_round_idx fresh_budget) (state_in PLAN fresh_budget))
           tt (OtherError "model unavailable")).
  - vm_compute. reflexivity.
  - reflexivity.
Defined.

Lemma round_survives_exec_error_witness :
  exists c' state3 ev,
    round phase_name (always (edit_proposal grow_diff ["src/f.py"]))
      (gate phase_name) failing_exec (profile_with 10) (start_in PLAN)
    = Ok c'
    /\ update_budgets
         (set_budget (incr_round_idx fresh_budget) (state_in PLAN fresh_budget))
         (edit_proposal grow_diff ["src/f.py"]) = Ok state3
    /\ c'.(cfg_state).(budget) = state3.(budget)
    /\ c'.(cfg_ledger) = (start_in PLAN).(cfg_ledger) ++ [ev]
    /\ ev.(ev_exec_result).(status) = "fail"
    /\ ev.(ev_exec_result).(summary)
       = "Execution error: " +:+ exn_str (OtherError "disk full").
Proof.
  apply (round_survives_exec_error phase_name
           (always (edit_proposal grow_diff ["src/f.py"]))
           (gate phase_name) failing_exec (profile_with 10) (start_in PLAN)
           (set_budget (incr_round_idx fresh_budget)
              (state_in PLAN fresh_budget))
           tt (edit_proposal grow_diff ["src/f.py"])
           (mkGateDecision true "All constraints satisfied")
           (set_budget (incr_round_idx fresh_budget)
              (state_in PLAN fresh_budget))
           tt (OtherError "disk full")).
  - vm_compute. reflexivity.
  - reflexivity.
  - vm_compute. reflexivity.
  - reflexivity.
  - reflexivity.
  - intros _. split.
    + right. exists ["src/f.py"]. reflexivity.
    + exists []. reflexivity.
  - reflexivity.
Defined.

End RoundErrorExamples.

(** ** Touched files *)

Section TouchedFiles.
Import PyStr Py Types Samples Loop.

(** X18: after the loop has counted an executed edit whose [files] is a
    list of strings, with strings as the touched files so far,
    [touched_files] holds exactly the files touched before and the files
    of the proposal, in strictly ascending order without repeats. *)
Theorem update_budgets_merges_files state proposal names touched :
  proposal.(kind) = "edit" ->
  proposal.(inputs) !! "files" = Some (VList (map VStr names)) ->
  state.(touched_files) = map VStr touched ->
  exists state' merged,
    update_budgets state proposal = Ok state'
    /\ state'.(touched_files) = map VStr merged
    /\ strictly_sorted merged
    /\ forall x, In x merged <-> In x touched \/ In x names.
Proof.
  intros Hk Hf Ht. unfold update_budgets, dict_get. rewrite Hk, Hf. simpl.
  rewrite Ht.
  destruct (sorted_union_strs touched names) as (m & -> & Hs & Hin). simpl.
  do 2 eexists. split; [reflexivity|]. simpl. auto.
Qed.

(** Entries that are not strings: numbers are merged and sorted as
    numbers, a [bool] counting as 0 or 1; a number among strings makes
    [sorted] raise; a list is unhashable. *)
Lemma sorted_union_other_entries :
  sorted_union [VInt 3] (VList [VInt 2; VInt 1; VBool true; VInt 3])
  = Ok [VInt 1; VInt 2; VInt 3]
  /\ (exists msg,
        sorted_union [VStr "a.py"] (VList [VInt 2]) = Raise (TypeError msg))
  /\ sorted_union [] (VList [VList []])
     = Raise (TypeError "unhashable type: 'list'")
  /\ sorted_union [] (VInt 5)
     = Raise (TypeError "'int' object is not iterable").
Proof.
  split; [reflexivity|]. split; [eexists; reflexivity|].
  split; reflexivity.
Qed.

End TouchedFiles.

Section TouchedFilesExamples.
Import PyStr Py Types Samples Loop.

Lemma update_budgets_merges_files_witness :
  exists state' merged,
    update_budgets
      (set_touched_files [VStr "src/b.py"] (state_in PLAN fresh_budget))
      (edit_proposal grow_diff ["src/c.py"; "src/a.py"; "src/b.py"])
    = Ok state'
    /\ state'.(touched_files) = map VStr merged
    /\ strictly_sorted merged
    /\ forall x, In x merged
                 <-> In x ["src/b.py"] \/ In x ["src/c.py"; "src/a.py"; "src/b.py"].
Proof.
  apply (update_budgets_merges_files
           (set_touched_files [VStr "src/b.py"] (state_in PLAN fresh_budget))
           (edit_proposal grow_diff ["src/c.py"; "src/a.py"; "src/b.py"])
           ["src/c.py"; "src/a.py"; "src/b.py"] ["src/b.py"]).
  - reflexivity.
  - reflexivity.
  - reflexivity.
Defined.

End TouchedFilesExamples.

(** ** Patch repair *)

Section PatchRepair.
Import PyStr Py Types Patch Exec Samples.

Lemma split_nl_nonempty s : split_nl s <> [].
Proof.
  destruct s as [|c s]; simpl; [discriminate|].
  destruct (Ascii.eqb c nl); [discriminate|].
  destruct (split_nl s); discriminate.
Qed.

Lemma join_cons sep p rest :
  rest <> [] -> join sep (p :: rest) = p +:+ sep +:+ join sep rest.
Proof. destruct rest; [congruence|reflexivity]. Qed.

(** Splitting at line feeds and joining back gives the text again. *)
Lemma join_split_nl s : join nl_str (split_nl s) = s.
Proof.
  induction s as [|c s IH]; simpl; [reflexivity|].
  destruct (Ascii.eqb_spec c nl) as [->|Hc].
  - rewrite join_cons by apply split_nl_nonempty. rewrite IH. reflexivity.
  - pose proof (split_nl_nonempty s) as Hne.
    destruct (split_nl s) as [|h t]; [congruence|].
    destruct t as [|t1 t2]; simpl in *; [now rewrite IH|].
    now rewrite <- IH.
Qed.

Lemma repair_lines_later lines i in_header rest :
  (0 < i)%nat -> repair_lines lines i in_header rest = rest.
Proof.
  revert i in_header. induction rest as [|l rest IH]; intros i h Hi; simpl;
    [reflexivity|].
  assert (E : (i =? 0)%nat = false) by (apply Nat.eqb_neq; lia).
  rewrite E, andb_false_r. simpl. f_equal. apply IH. lia.
Qed.

Lemma repair_lines_first lines l0 tail :
  repair_lines lines 0 true (l0 :: tail)
  = (if startswith l0 "---"
     then match nth_error lines 1 with
          | Some next =>
              if startswith next "+++"
              then ["diff --git a/" +:+ header_path "a/" l0 +:+ " b/"
                    +:+ header_path "b/" next]
              else []
          | None => []
          end
     else []) ++ l0 :: tail.
Proof.
  cbn [repair_lines]. rewrite repair_lines_later by lia.
  destruct (startswith l0 "---"); [|reflexivity].
  cbn [andb Nat.eqb Nat.add firstn existsb negb]. reflexivity.
Qed.

Lemma ends_with_nl_app s : ends_with_nl (s +:+ nl_str) = true.
Proof.
  induction s as [|c s IH]; simpl; [reflexivity|].
  destruct (s +:+ nl_str) eqn:E; [|exact IH].
  destruct s; discriminate E.
Qed.

(** X19: [_repair_patch] always returns a text that ends with a line
    feed.  A diff whose first line is no [---] header comes back as it
    is, up to that final line feed; a diff that opens with a [---] line
    followed by a [+++] line gets one [diff --git a/<src> b/<dst>] line
    put in front, with the paths of the two headers. *)
Theorem repair_patch_spec d :
  ends_with_nl (_repair_patch d) = true
  /\ (forall l0 rest, split_nl d = l0 :: rest ->
        startswith l0 "---" = false ->
        _repair_patch d = with_newline d)
  /\ (forall l0 l1 rest, split_nl d = l0 :: l1 :: rest ->
        startswith l0 "---" = true ->
        startswith l1 "+++" = true ->
        _repair_patch d
        = with_newline (("diff --git a/" +:+ header_path "a/" l0 +:+ " b/"
                         +:+ header_path "b/" l1) +:+ nl_str +:+ d)).
Proof.
  split; [|split].
  - unfold _repair_patch. cbv zeta.
    destruct (ends_with_nl (join _ _)) eqn:E; simpl; [exact E|].
    apply ends_with_nl_app.
  - intros l0 rest Hs H0. unfold _repair_patch, with_newline.
    rewrite Hs, repair_lines_first, H0. cbn [app].
    rewrite <- Hs, join_split_nl. destruct (ends_with_nl d); reflexivity.
  - intros l0 l1 rest Hs H0 H1. unfold _repair_patch, with_newline.
    rewrite Hs, repair_lines_first, H0. cbn [nth_error]. rewrite H1.
    cbn [app]. rewrite join_cons by discriminate.
    rewrite <- Hs, join_split_nl.
    destruct (ends_with_nl _); reflexivity.
Qed.

Lemma repair_patch_spec_witness :
  _repair_patch grow_diff
  = with_newline ("diff --git a/f b/f" +:+ nl_str +:+ grow_diff)
  /\ _repair_patch "diff --git a/f b/f" = with_newline "diff --git a/f b/f".
Proof.
  split.
  - destruct (repair_patch_spec grow_diff) as (_ & _ & H).
    apply (H "--- a/f" "+++ b/f"
             ["@@ -1,1 +1,2 @@"; "-x"; "+x"; "+y"; ""]); reflexivity.
  - destruct (repair_patch_spec "diff --git a/f b/f") as (_ & H & _).
    apply (H "diff --git a/f b/f" []); reflexivity.
Defined.

End PatchRepair.

(** ** The quarantine lane: forcing, recording, trusting *)

Section QuarantineLaneFacts.
Import Py Samples Quarantine.

Variable int_truediv : Z -> Z -> float.

(** X20: a forced quarantine holds for every context and whatever the
    evidence says, leaves the answers for the other strategies as they
    were, and a release after it restores the answers the lane gave
    before (for a strategy that was not already globally quarantined). *)
Theorem force_and_release_quarantine lane strategy :
  (forall context,
      lane_is_quarantined int_truediv (force_quarantine strategy lane)
        strategy context = Ok true)
  /\ (forall s context, s <> strategy ->
        lane_is_quarantined int_truediv (force_quarantine strategy lane)
          s context
        = lane_is_quarantined int_truediv lane s context)
  /\ (strategy ∉ lane.(_global_quarantine) ->
      forall s context,
        lane_is_quarantined int_truediv
          (release_from_quarantine strategy (force_quarantine strategy lane))
          s context
        = lane_is_quarantined int_truediv lane s context).
Proof.
  split; [|split].
  - intros context. unfold lane_is_quarantined, force_quarantine. simpl.
    destruct (decide _) as [_|H]; [reflexivity|]. exfalso. set_solver.
  - intros s context Hne. unfold lane_is_quarantined, force_quarantine. simpl.
    destruct (decide (s ∈ {[strategy]} ∪ _)) as [H|H];
      destruct (decide (s ∈ _global_quarantine lane)) as [H'|H'];
      try reflexivity; exfalso; set_solver.
  - intros Hfree s context.
    unfold lane_is_quarantined, release_from_quarantine, force_quarantine.
    simpl.
    destruct (decide (s ∈ _ ∖ _)) as [H|H];
      destruct (decide (s ∈ _global_quarantine lane)) as [H'|H'];
      try reflexivity; exfalso; set_solver.
Qed.

(** The record of a context/strategy pair, if any. *)
Definition record_of (lane : QuarantineLane) (context strategy : string)
  : option QuarantineStats :=
  lane.(_stats) !! context ≫= fun per_context => per_context !! strategy.

Lemma get_stats_record context strategy lane :
  record_of (fst (_get_stats context strategy lane)) context strategy
  = Some (snd (_get_stats context strategy lane))
  /\ snd (_get_stats context strategy lane)
     = default (new_stats strategy) (record_of lane context strategy)
  /\ (fst (_get_stats context strategy lane)).(_global_quarantine)
     = lane.(_global_quarantine)
  /\ (fst (_get_stats context strategy lane)).(config) = lane.(config).
Proof.
  unfold _get_stats, record_of.
  destruct (_stats lane !! context) as [pc|] eqn:E; simpl.
  - destruct (pc !! strategy) as [st|] eqn:E'; simpl;
      rewrite lookup_insert_eq; simpl.
    + rewrite E'. auto.
    + rewrite lookup_insert_eq. auto.
  - rewrite lookup_empty. simpl. rewrite lookup_insert_eq. simpl.
    rewrite lookup_insert_eq. auto.
Qed.

(** X21: the first outcome recorded for a strategy in a context never
    reports a new quarantine: whatever the outcome, the configuration and
    the global set, [record_outcome] returns [False] when the lane held
    no record for the pair. *)
Theorem first_outcome_reports_no_transition
  lane now strategy context success regression timestamp :
  record_of lane context strategy = None ->
  snd (record_outcome int_truediv now strategy context success regression
         timestamp lane) = Ok false.
Proof.
  intros Hnone. unfold record_outcome.
  destruct (get_stats_record context strategy lane) as (Hrec & Hst & Hg & Hc).
  rewrite Hnone in Hst. simpl in Hst.
  destruct (_get_stats context strategy lane) as [lane1 st]. simpl in *.
  subst st.
  unfold lane_is_quarantined at 1.
  destruct (decide (strategy ∈ _global_quarantine lane1)) as [Hin|Hin].
  { unfold lane_is_quarantined, put_stats. simpl.
    destruct (decide _); [reflexivity|contradiction]. }
  unfold context_given. destruct (PyStr.nonempty context) eqn:Ectx.
  - unfold record_of in Hrec.
    destruct (_stats lane1 !! context) as [pc|] eqn:E; [|discriminate Hrec].
    simpl in Hrec. rewrite Hrec.
    rewrite is_quarantined_cold.
    2:{ simpl. destruct (Z.ltb_spec 0 (min_successes (config lane1)));
          [left; exact H|right; split; reflexivity]. }
    unfold lane_is_quarantined, put_stats. simpl.
    destruct (decide _); [contradiction|].
    unfold context_given. rewrite Ectx, E. simpl.
    rewrite !lookup_insert_eq.
    unfold is_quarantined. rewrite stats_dict_tries, stats_dict_wins. simpl.
    repeat match goal with
    | |- context [if ?b then _ else _] => destruct b
    end; reflexivity.
  - unfold lane_is_quarantined, put_stats. simpl.
    destruct (decide _); [contradiction|].
    unfold context_given. rewrite Ectx. reflexivity.
Qed.

(** X22: the lane trusts a recorded strategy only on evidence: when it
    answers [False] for a pair with a record, the strategy is not
    globally quarantined, has at least [min_successes] tries and has at
    least one success on record. *)
Theorem lane_trust_needs_evidence lane strategy context st :
  context <> "" ->
  record_of lane context strategy = Some st ->
  lane_is_quarantined int_truediv lane strategy (Some context) = Ok false ->
  (strategy ∉ lane.(_global_quarantine))
  /\ (lane.(config).(min_successes) <= st.(total_tries))%Z
  /\ st.(successes) <> 0%Z.
Proof.
  intros Hctx Hrec H. unfold lane_is_quarantined in H.
  destruct (decide _) as [Hin|Hin]; [discriminate H|].
  split; [exact Hin|].
  unfold context_given in H. destruct context; [congruence|]. simpl in H.
  unfold record_of in Hrec.
  destruct (_stats lane !! _) as [pc|]; [|discriminate Hrec].
  simpl in Hrec. rewrite Hrec in H.
  unfold is_quarantined in H. rewrite stats_dict_tries, stats_dict_wins in H.
  simpl in H.
  destruct (Z.ltb_spec (total_tries st) (min_successes (config lane)));
    [discriminate H|].
  split; [lia|].
  destruct (Z.eqb_spec (successes st) 0); [discriminate H|assumption].
Qed.

End QuarantineLaneFacts.

Section QuarantineLaneExamples.
Import Py Samples Quarantine.

Lemma first_outcome_reports_no_transition_witness :
  snd (record_outcome small_truediv 100%float "guard_none" "ctx" false true
         None (new_lane None)) = Ok false.
Proof.
  apply first_outcome_reports_no_transition. reflexivity.
Defined.

Lemma lane_trust_needs_evidence_witness :
  ("guard_none" ∉ (lane_after_two_wins).(_global_quarantine))
  /\ ((lane_after_two_wins).(config).(min_successes) <= 2)%Z
  /\ 2%Z <> 0%Z.
Proof.
  apply (lane_trust_needs_evidence small_truediv lane_after_two_wins
           "guard_none" "ctx"
           (mkQuarantineStats "guard_none" 2 2 0 None)).
  - discriminate.
  - vm_compute. reflexivity.
  - vm_compute. reflexivity.
Defined.

End QuarantineLaneExamples.

Section QuarantineSets.
Import Py Samples Quarantine.

Variable int_truediv : Z -> Z -> float.

Lemma add_quarantined_spec config items : forall acc S,
  add_quarantined int_truediv config items acc = Ok S ->
  forall s, s ∈ S <->
    s ∈ acc \/ exists st, (s, st) ∈ items
       /\ is_quarantined int_truediv (stats_dict st) (Some config) = Ok true.
Proof.
  induction items as [|[k st] rest IH]; intros acc S H s.
  - simpl in H. injection H as <-. split; [auto|].
    intros [Hs|(st & Hin & _)]; [exact Hs|]. inversion Hin.
  - simpl in H.
    destruct (is_quarantined int_truediv (stats_dict st) (Some config))
      as [[|]|e] eqn:E; [| |discriminate H];
      rewrite (IH _ _ H s); split.
    + intros [Hs|(st' & Hin & Hq)].
      * apply elem_of_union in Hs as [Hs|Hs]; [|auto].
        apply elem_of_singleton in Hs. subst s. right. exists st.
        split; [left|exact E].
      * right. exists st'. split; [right; exact Hin|exact Hq].
    + intros [Hs|(st' & Hin & Hq)].
      * left. set_solver.
      * apply elem_of_cons in Hin as [Heq|Hin].
        -- injection Heq as -> ->. left. set_solver.
        -- right. eauto.
    + intros [Hs|(st' & Hin & Hq)]; [auto|].
      right. exists st'. split; [right; exact Hin|exact Hq].
    + intros [Hs|(st' & Hin & Hq)]; [auto|].
      apply elem_of_cons in Hin as [Heq|Hin].
      * injection Heq as -> ->. congruence.
      * right. eauto.
Qed.

(** X23: the set view and the single-strategy view of the lane agree:
    when [get_quarantined_strategies] returns a set for a context, a
    strategy is in it exactly when [is_quarantined] answers [True] for
    that strategy in that context. *)
Theorem quarantined_set_agrees_with_query lane context S :
  get_quarantined_strategies int_truediv lane context = Ok S ->
  forall s, s ∈ S <->
    lane_is_quarantined int_truediv lane s context = Ok true.
Proof.
  intros H s. unfold get_quarantined_strategies in H.
  unfold lane_is_quarantined.
  destruct (context_given context) as [c|].
  2:{ injection H as <-.
      destruct (decide _); split; intros Hx; auto;
        [contradiction|discriminate]. }
  destruct (_stats lane !! c) as [pc|].
  2:{ injection H as <-.
      destruct (decide _); split; intros Hx; auto;
        [contradiction|discriminate]. }
  rewrite (add_quarantined_spec _ _ _ _ H s).
  destruct (decide (s ∈ _global_quarantine lane)) as [Hg|Hg].
  { split; auto. }
  split.
  - intros [Hs|(st & Hin & Hq)]; [contradiction|].
    apply elem_of_map_to_list in Hin. rewrite Hin. exact Hq.
  - intros Hq. right. destruct (pc !! s) as [st|] eqn:E; [|discriminate Hq].
    exists st. split; [apply elem_of_map_to_list; exact E|exact Hq].
Qed.

(** X24: a recorded outcome changes one record and nothing else: when
    [record_outcome] returns, the record of the pair is the old one (a
    fresh one if there was none) with one more try, one more success on
    success, one more regression and the time stamp on regression; every
    other record, the global set and the configuration are as before. *)
Theorem record_outcome_touches_one_record
  lane now strategy context success regression timestamp lane' b :
  record_outcome int_truediv now strategy context success regression
    timestamp lane = (lane', Ok b) ->
  record_of lane' context strategy
  = Some (bump_stats
            (default (new_stats strategy) (record_of lane context strategy))
            success regression (timestamp_or timestamp now))
  /\ (forall c s, c <> context \/ s <> strategy ->
        record_of lane' c s = record_of lane c s)
  /\ lane'.(_global_quarantine) = lane.(_global_quarantine)
  /\ lane'.(config) = lane.(config).
Proof.
  intros H. unfold record_outcome in H.
  destruct (get_stats_record context strategy lane)
    as (Hrec & Hst & Hg & Hc).
  assert (Hother : forall c s, c <> context \/ s <> strategy ->
            record_of (fst (_get_stats context strategy lane)) c s
            = record_of lane c s).
  { intros c s Hne. unfold _get_stats, record_of.
    destruct (decide (c = context)) as [->|Hcne].
    - destruct Hne as [Hne|Hne]; [congruence|].
      destruct (_stats lane !! context) as [pc|] eqn:E; simpl.
      + destruct (pc !! strategy) eqn:E'; simpl;
          rewrite lookup_insert_eq; simpl; [reflexivity|].
        rewrite lookup_insert_ne by congruence. reflexivity.
      + rewrite lookup_empty. simpl. rewrite lookup_insert_eq. simpl.
        rewrite lookup_insert_ne by congruence. apply lookup_empty.
    - destruct (default ∅ (_stats lane !! context) !! strategy); simpl;
        rewrite lookup_insert_ne by congruence; reflexivity. }
  destruct (_get_stats context strategy lane) as [lane1 st]. simpl in *.
  destruct (lane_is_quarantined int_truediv lane1 strategy (Some context))
    as [was|e]; [|discriminate H].
  destruct (lane_is_quarantined int_truediv (put_stats _ _ _ _) strategy
              (Some context)) as [now_q|e]; [|discriminate H].
  injection H as <- _.
  split; [|split; [|split]].
  - unfold record_of, put_stats. simpl. rewrite lookup_insert_eq. simpl.
    rewrite lookup_insert_eq. rewrite Hst. reflexivity.
  - intros c s Hne. rewrite <- (Hother c s Hne).
    unfold record_of, put_stats. simpl.
    destruct (decide (c = context)) as [->|Hcne].
    + destruct Hne as [Hne|Hne]; [congruence|].
      rewrite lookup_insert_eq. simpl.
      rewrite lookup_insert_ne by congruence.
      destruct (_stats lane1 !! context); simpl; [reflexivity|].
      rewrite lookup_empty. reflexivity.
    + rewrite lookup_insert_ne by congruence. reflexivity.
  - exact Hg.
  - exact Hc.
Qed.

End QuarantineSets.

Section QuarantineSetExamples.
Import Py Samples Quarantine.

Lemma force_and_release_quarantine_witness :
  lane_is_quarantined small_truediv
    (release_from_quarantine "guard_none"
       (force_quarantine "guard_none" lane_after_two_wins))
    "guard_none" (Some "ctx")
  = lane_is_quarantined small_truediv lane_after_two_wins "guard_none"
      (Some "ctx").
Proof.
  apply (proj2 (proj2 (force_and_release_quarantine small_truediv
                         lane_after_two_wins "guard_none"))).
  vm_compute. set_solver.
Defined.

Lemma quarantined_set_agrees_with_query_witness :
  "guard_none" ∈ ({["guard_none"]} : gset string) <->
  lane_is_quarantined small_truediv lane_after_one_loss "guard_none"
    (Some "ctx") = Ok true.
Proof.
  apply (quarantined_set_agrees_with_query small_truediv
           lane_after_one_loss (Some "ctx")).
  vm_compute. reflexivity.
Defined.

Lemma record_outcome_touches_one_record_witness :
  record_of lane_after_one_loss "ctx" "guard_none"
  = Some (bump_stats
            (default (new_stats "guard_none")
               (record_of (new_lane None) "ctx" "guard_none"))
            false true (timestamp_or None 100%float))
  /\ (forall c s, c <> "ctx" \/ s <> "guard_none" ->
        record_of lane_after_one_loss c s = record_of (new_lane None) c s)
  /\ lane_after_one_loss.(_global_quarantine)
     = (new_lane None).(_global_quarantine)
  /\ lane_after_one_loss.(config) = (new_lane None).(config).
Proof.
  apply (record_outcome_touches_one_record small_truediv (new_lane None)
           100%float "guard_none" "ctx" false true None
           lane_after_one_loss false).
  vm_compute. reflexivity.
Defined.

End QuarantineSetExamples.

(** ** The strategy bandit: what selection returns, what an update touches *)

Section BanditSelectionFacts.
Import Py Samples Bandit.

Lemma unexplored_of_sub arms candidates : forall u,
  unexplored_of arms candidates = Ok u ->
  forall x, In x u -> In x candidates.
Proof.
  induction candidates as [|c rest IH]; simpl; intros u H x Hx.
  - injection H as <-. destruct Hx.
  - destruct (arm arms c) as [st|e]; simpl in H; [|discriminate H].
    destruct (unexplored_of arms rest) as [more|e]; simpl in H;
      [|discriminate H].
    injection H as <-.
    destruct (tries st =? 0)%Z.
    + destruct Hx as [->|Hx]; [now left|right; now apply (IH more)].
    + right. now apply (IH more).
Qed.

Lemma unexplored_of_missing arms s candidates :
  (forall x, In x candidates -> x <> s -> is_Some (arms !! x)) ->
  In s candidates -> arms !! s = None ->
  unexplored_of arms candidates = Raise (KeyError s).
Proof.
  intros Hall Hin Hs.
  induction candidates as [|c rest IH]; [destruct Hin|]. simpl.
  destruct (decide (c = s)) as [->|Hne].
  - unfold arm at 1. rewrite Hs. reflexivity.
  - destruct (Hall c (or_introl eq_refl) Hne) as [st Hst].
    unfold arm at 1. rewrite Hst. simpl.
    rewrite IH; [reflexivity| |].
    + intros x Hx. apply Hall. now right.
    + destruct Hin as [Heq|Hin]; [congruence|exact Hin].
Qed.

Lemma choice_ok_in draws seq x : choice draws seq = Ok x -> In x seq.
Proof.
  destruct seq as [|y rest]; [discriminate|]. intros H.
  destruct (choice_in draws (y :: rest)) as (x' & Hx' & Hin); [discriminate|].
  congruence.
Qed.

Lemma best_by_in score candidates : forall best_score best r,
  best_by score candidates best_score best = Ok r ->
  r = best \/ In r candidates.
Proof.
  induction candidates as [|c rest IH]; simpl; intros bs b r H.
  - injection H as <-. now left.
  - destruct (score c) as [sc|e]; simpl in H; [|discriminate H].
    destruct (PrimFloat.ltb bs sc); apply IH in H as [->|H]; auto.
Qed.

Lemma best_sample_in draws arms candidates : forall best_score best r,
  best_sample draws arms candidates best_score best = Some (Ok r) ->
  r = best \/ In r candidates.
Proof.
  induction candidates as [|c rest IH]; simpl; intros bs b r H.
  - injection H as <-. now left.
  - destruct (arm arms c) as [st|e]; [|discriminate H].
    destruct (sample draws c st) as [[sc|e]|]; try discriminate H.
    destruct (PrimFloat.ltb bs sc); apply IH in H as [->|H]; auto.
Qed.

Lemma best_sample_total draws arms candidates :
  (forall s, In s candidates ->
     exists st v, arms !! s = Some st /\ sample draws s st = Some (Ok v)) ->
  forall best_score best, exists r,
    best_sample draws arms candidates best_score best = Some (Ok r).
Proof.
  induction candidates as [|c rest IH]; simpl; intros H bs b; [eauto|].
  destruct (H c (or_introl eq_refl)) as (st & v & Hst & Hv).
  unfold arm. rewrite Hst, Hv.
  destruct (PrimFloat.ltb bs v); apply IH; intros s Hs; apply H; now right.
Qed.

Lemma max_by_in key candidates : forall best_key best r,
  max_by key candidates best_key best = Ok r ->
  r = best \/ In r candidates.
Proof.
  induction candidates as [|c rest IH]; simpl; intros bk b r H.
  - injection H as <-. now left.
  - destruct (key c) as [k|e]; simpl in H; [|discriminate H].
    destruct (PrimFloat.ltb bk k); apply IH in H as [->|H]; auto.
Qed.

Lemma first_of_in candidates c : first_of candidates = Ok c -> In c candidates.
Proof.
  destruct candidates; [discriminate|]. intros H. injection H as <-. now left.
Qed.

(** The candidates of [select]: registered, and outside the exclude set
    unless that leaves nothing. *)
Lemma candidates_sound (names excl : gset string) x :
  In x (let candidates :=
          List.filter (fun s => bool_decide (s ∉ excl)) (elements names) in
        if Patch.is_nil candidates then elements names else candidates) ->
  x ∈ names /\ ((exists s', s' ∈ names /\ s' ∉ excl) -> x ∉ excl).
Proof.
  cbv zeta.
  destruct (List.filter _ (elements names)) as [|c rest] eqn:E; simpl.
  - intros Hx. split; [now apply elem_of_elements, list_elem_of_In|].
    intros (s' & Hs' & Hex). exfalso.
    assert (Hin : In s' (List.filter (fun s => bool_decide (s ∉ excl))
                           (elements names))).
    { apply filter_In. split.
      - now apply list_elem_of_In, elem_of_elements.
      - now apply bool_decide_eq_true_2. }
    rewrite E in Hin. destruct Hin.
  - intros Hx. change (In x (c :: rest)) in Hx. rewrite <- E in Hx.
    apply filter_In in Hx as [Hx Hb]. split.
    + now apply elem_of_elements, list_elem_of_In.
    + intros _. now apply bool_decide_eq_true_1 in Hb.
Qed.

Lemma get_context_arms_global ctx b :
  (fst (_get_context_arms ctx b)).(_global_stats) = b.(_global_stats).
Proof. unfold _get_context_arms. destruct (_ !! ctx); reflexivity. Qed.

Lemma get_context_arms_bonus ctx b :
  (fst (_get_context_arms ctx b)).(exploration_bonus) = b.(exploration_bonus).
Proof. unfold _get_context_arms. destruct (_ !! ctx); reflexivity. Qed.

Lemma get_context_arms_idem ctx b c :
  context_arms (fst (_get_context_arms ctx b)) c = context_arms b c.
Proof.
  unfold context_arms, _get_context_arms.
  destruct (_arms b !! ctx) as [arms|] eqn:E; simpl; [reflexivity|].
  destruct (decide (ctx = c)) as [<-|Hne].
  - rewrite lookup_insert_eq, E. reflexivity.
  - rewrite lookup_insert_ne by exact Hne.
    destruct (_arms b !! c); reflexivity.
Qed.

Lemma apply_outcome_counts success regression partial_reward st :
  counts_consistent st ->
  counts_consistent (apply_outcome success regression partial_reward st).
Proof.
  unfold counts_consistent. intros (Hw & Hr & Ht).
  destruct success, regression; cbn;
    repeat match goal with
    | |- context [if ?b then _ else _] => destruct b
    end; cbn; lia.
Qed.

End BanditSelectionFacts.

Section BanditSelection.
Import Py Samples Bandit.

Variable math_log : Z -> result float.
Variable math_sqrt : float -> result float.
Variable float_of_int : Z -> float.

(** X25: whatever the method, the draws and the state of the arms, a
    strategy that [select] returns is a registered one, and it is outside
    the exclude set whenever some registered strategy is; a strategy that
    [get_best_strategy] returns is a registered one. *)
Theorem selection_returns_registered draws b context_key exclude method s :
  (snd (select math_log math_sqrt float_of_int draws context_key exclude
          method b) = Some (Ok s) ->
   s ∈ b.(strategies)
   /\ ((exists s', s' ∈ b.(strategies)
                   /\ s' ∉ default (∅ : gset string) exclude) ->
       s ∉ default (∅ : gset string) exclude))
  /\ (snd (get_best_strategy context_key b) = Ok s -> s ∈ b.(strategies)).
Proof.
  pose proof (get_context_arms_strategies context_key b) as Hstr.
  split.
  - unfold select.
    destruct (_get_context_arms context_key b) as [b1 arms].
    simpl in Hstr. cbn [snd]. rewrite Hstr. intros H.
    apply candidates_sound.
    set (cands := let candidates := _ in
                  if Patch.is_nil candidates then _ else candidates) in *.
    destruct (unexplored_of arms cands) as [u|e] eqn:Eu; [|discriminate H].
    destruct u as [|u0 us]; cbn [Patch.is_nil negb] in H.
    2:{ apply (inj Some) in H. apply choice_ok_in in H.
        exact (unexplored_of_sub _ _ _ Eu _ H). }
    destruct (String.eqb method "thompson").
    { destruct (first_of cands) as [first|e] eqn:Ef; [|discriminate H].
      apply best_sample_in in H as [->|H]; [|exact H].
      now apply first_of_in. }
    apply (inj Some) in H. unfold select_scored in H.
    destruct (String.eqb method "ucb").
    { destruct (total_tries arms _) as [n|e]; simpl in H; [|discriminate H].
      destruct (first_of cands) as [first|e] eqn:Ef; simpl in H;
        [|discriminate H].
      apply best_by_in in H as [->|H]; [|exact H].
      now apply first_of_in. }
    destruct (PrimFloat.ltb _ _).
    { now apply choice_ok_in in H. }
    destruct cands as [|first rest]; [discriminate H|].
    destruct (arm arms first) as [st|e]; simpl in H; [|discriminate H].
    destruct (mean_reward st) as [k|e]; simpl in H; [|discriminate H].
    apply max_by_in in H as [->|H]; [now left|now right].
  - unfold get_best_strategy.
    destruct (_get_context_arms context_key b) as [b1 arms].
    simpl in Hstr |- *. rewrite Hstr. intros H.
    apply elem_of_elements, list_elem_of_In.
    destruct (elements (strategies b)) as [|first rest]; [discriminate H|].
    destruct (arm arms first) as [st|e]; simpl in H; [|discriminate H].
    destruct (mean_reward st) as [k|e]; simpl in H; [|discriminate H].
    apply max_by_in in H as [->|H]; [now left|now right].
Qed.

(** X26: Thompson selection fails only where sampling does.  On a bandit
    with at least one registered strategy, every one of which has its
    arms, [select] with [method="thompson"] returns a strategy for every
    context and every exclude set (also one that excludes everything),
    provided that [sample()] returns a number on each arm stored for the
    context. *)
Theorem thompson_select_returns draws b context_key exclude :
  wf_bandit b ->
  b.(strategies) <> ∅ ->
  (forall arms s st,
     b.(_arms) !! context_key = Some arms -> arms !! s = Some st ->
     exists v, sample draws s st = Some (Ok v)) ->
  exists s,
    snd (select math_log math_sqrt float_of_int draws context_key exclude
           "thompson" b) = Some (Ok s).
Proof.
  intros Hwf Hne Hsample. unfold select.
  pose proof (get_context_arms_strategies context_key b) as Hstr.
  assert (Hall0 : forall s, s ∈ strategies b ->
                    is_Some (context_arms b context_key !! s)).
  { intros s Hs. now apply context_arms_complete. }
  assert (Hdraw : forall s st,
            context_arms b context_key !! s = Some st ->
            st.(tries) = 0%Z \/ exists v, sample draws s st = Some (Ok v)).
  { intros s st. unfold context_arms.
    destruct (get_context_arms_cases context_key b)
      as [(arms & Harms & ->)|(Hnone & ->)]; simpl; intros Hst.
    - right. eapply Hsample; eassumption.
    - left. apply lookup_gset_to_gmap_Some in Hst as [_ <-]. reflexivity. }
  unfold context_arms in Hall0, Hdraw.
  destruct (_get_context_arms context_key b) as [b1 arms].
  simpl in Hstr, Hall0, Hdraw. cbn [snd]. rewrite Hstr.
  set (cands := let candidates := _ in
                if Patch.is_nil candidates then _ else candidates).
  assert (Hsound : forall x, In x cands -> x ∈ strategies b).
  { intros x Hx. now apply candidates_sound in Hx as [Hx _]. }
  assert (Hcne : cands <> []).
  { subst cands. cbv zeta.
    destruct (List.filter _ _) eqn:E; simpl; [|discriminate].
    intros Hel. apply Hne. apply leibniz_equiv, elements_empty_iff, Hel. }
  assert (Hall : forall s, In s cands -> is_Some (arms !! s)).
  { intros s Hs. apply Hall0, Hsound, Hs. }
  rewrite (unexplored_of_filter arms cands Hall).
  destruct (List.filter (untried arms) cands) as [|u0 us] eqn:Eu;
    cbn [Patch.is_nil negb String.eqb Ascii.eqb Bool.eqb].
  - destruct cands as [|c rest] eqn:Ec; [congruence|].
    cbn [first_of]. rewrite <- Ec in *.
    apply best_sample_total. intros s Hs.
    destruct (Hall s Hs) as [st Hst]. exists st.
    destruct (Hdraw s st Hst) as [Hzero|[v Hv]]; [|eauto].
    exfalso.
    assert (Hin : In s (List.filter (untried arms) cands)).
    { apply filter_In. split; [exact Hs|].
      unfold untried. rewrite Hst. now apply Z.eqb_eq. }
    rewrite Eu in Hin. destruct Hin.
  - destruct (choice_in draws (u0 :: us)) as (x & Hx & _); [discriminate|].
    exists x. now rewrite Hx.
Qed.

(** X27: registering a strategy does not reach the contexts that already
    exist.  If a context has its arms and a new strategy is registered,
    the next [select] for that context that does not exclude the new
    strategy raises [KeyError] for it, whatever the method, and so does
    every [update] of the new strategy in that context, which leaves the
    bandit as it was. *)
Theorem register_strategy_misses_contexts draws b context_key arms s
  exclude method success regression partial_reward :
  wf_bandit b ->
  b.(_arms) !! context_key = Some arms ->
  arms !! s = None ->
  (s ∉ default (∅ : gset string) exclude) ->
  snd (select math_log math_sqrt float_of_int draws context_key exclude
         method (register_strategy s b)) = Some (Raise (KeyError s))
  /\ update context_key s success regression partial_reward
       (register_strategy s b)
     = (register_strategy s b, Raise (KeyError s)).
Proof.
  intros Hwf Harms Hs Hex.
  assert (Hnew : s ∉ strategies b).
  { intros Hin. destruct Hwf as [_ Ha].
    destruct (Ha _ _ Harms s Hin) as [st Hst]. congruence. }
  unfold register_strategy.
  destruct (decide (s ∉ strategies b)) as [_|Hn]; [|contradiction].
  split.
  - unfold select, _get_context_arms. simpl. rewrite Harms. simpl.
    set (cands := List.filter _ _).
    assert (Hin : In s cands).
    { apply filter_In. split.
      - apply list_elem_of_In, elem_of_elements. set_solver.
      - now apply bool_decide_eq_true_2. }
    destruct cands as [|c rest] eqn:Ec; [destruct Hin|].
    simpl Patch.is_nil. cbv iota. rewrite <- Ec in *.
    rewrite (unexplored_of_missing arms s cands); [reflexivity| |exact Hin|exact Hs].
    intros x Hx Hne. apply filter_In in Hx as [Hx _].
    apply list_elem_of_In, elem_of_elements in Hx.
    destruct Hwf as [_ Ha]. apply (Ha _ _ Harms). set_solver.
  - unfold update. simpl.
    destruct (decide (s ∉ {[s]} ∪ strategies b)) as [Hn|_]; [set_solver|].
    unfold _get_context_arms. simpl. rewrite Harms.
    unfold arm. rewrite Hs. reflexivity.
Qed.

End BanditSelection.

Section BanditUpdateFrame.
Import Py Samples Bandit.

(** X28: an update touches one arm and one global record: after
    [update(context_key, strategy, ...)], returning or raising, the set
    of strategies and the exploration bonus are as before, so are the
    global records of all other strategies and the arms of every other
    context/strategy pair; for a strategy that is not registered the
    whole bandit is as before. *)
Theorem update_touches_one_arm context_key strategy success regression
  partial_reward b :
  let b' := fst (update context_key strategy success regression
                   partial_reward b) in
  b'.(strategies) = b.(strategies)
  /\ b'.(exploration_bonus) = b.(exploration_bonus)
  /\ (forall s, s <> strategy ->
        b'.(_global_stats) !! s = b.(_global_stats) !! s)
  /\ (forall c s, c <> context_key \/ s <> strategy ->
        context_arms b' c !! s = context_arms b c !! s)
  /\ (strategy ∉ b.(strategies) -> b' = b).
Proof.
  cbv zeta. unfold update.
  destruct (decide (strategy ∉ strategies b)) as [Hn|Hin]; simpl.
  { repeat split; auto. }
  pose proof (get_context_arms_strategies context_key b) as Hstr.
  pose proof (get_context_arms_global context_key b) as Hglob.
  pose proof (get_context_arms_bonus context_key b) as Hbonus.
  pose proof (get_context_arms_idem context_key b) as Hidem.
  pose proof (get_context_arms_stored context_key b) as Hstored.
  unfold context_arms in Hstored.
  destruct (_get_context_arms context_key b) as [b1 arms]. simpl in *.
  assert (Hframe1 :
    strategies b1 = strategies b
    /\ exploration_bonus b1 = exploration_bonus b
    /\ (forall s, s <> strategy -> _global_stats b1 !! s = _global_stats b !! s)
    /\ (forall c s, c <> context_key \/ s <> strategy ->
          context_arms b1 c !! s = context_arms b c !! s)
    /\ (strategy ∉ strategies b -> b1 = b)).
  { repeat split; auto.
    - intros s _. now rewrite Hglob.
    - intros c s _. now rewrite Hidem.
    - intros Hn. contradiction. }
  destruct (arm arms strategy) as [st|e]; [|exact Hframe1].
  destruct (arm (_global_stats b1) strategy) as [gst|e]; [|exact Hframe1].
  simpl. repeat split; auto.
  - intros s Hne. rewrite lookup_insert_ne by congruence. now rewrite Hglob.
  - intros c s Hne. rewrite <- Hidem.
    unfold context_arms, _get_context_arms. simpl. rewrite Hstr.
    destruct (decide (context_key = c)) as [<-|Hcne].
    + destruct Hne as [Hne|Hne]; [congruence|].
      rewrite lookup_insert_eq, Hstored. simpl.
      now rewrite lookup_insert_ne by congruence.
    + rewrite lookup_insert_ne by exact Hcne.
      destruct (_arms b1 !! c); reflexivity.
  - intros Hn. contradiction.
Qed.

Lemma updated_counts b call :
  (forall s st, b.(_global_stats) !! s = Some st -> counts_consistent st) ->
  (forall ctx arms s st, b.(_arms) !! ctx = Some arms -> arms !! s = Some st ->
     counts_consistent st) ->
  (forall s st, (updated b call).(_global_stats) !! s = Some st ->
     counts_consistent st)
  /\ (forall ctx arms s st,
        (updated b call).(_arms) !! ctx = Some arms -> arms !! s = Some st ->
        counts_consistent st).
Proof.
  intros Hg Ha.
  destruct call as [[[[context_key strategy] success] regression] pr].
  unfold updated, update.
  destruct (decide (strategy ∉ strategies b)); simpl; [auto|].
  assert (Hg1 : forall s st,
            (fst (_get_context_arms context_key b)).(_global_stats) !! s
            = Some st -> counts_consistent st).
  { rewrite get_context_arms_global. exact Hg. }
  assert (Ha1 : forall ctx arms s st,
            (fst (_get_context_arms context_key b)).(_arms) !! ctx = Some arms ->
            arms !! s = Some st -> counts_consistent st).
  { unfold _get_context_arms.
    destruct (_arms b !! context_key) eqn:E; simpl; [exact Ha|].
    intros ctx arms s st H Hs.
    destruct (decide (context_key = ctx)) as [<-|Hne].
    - rewrite lookup_insert_eq in H. injection H as <-.
      apply lookup_gset_to_gmap_Some in Hs as [_ <-].
      repeat split; simpl; lia.
    - rewrite lookup_insert_ne in H by exact Hne. eapply Ha; eassumption. }
  pose proof (get_context_arms_stored context_key b) as Hstored.
  unfold context_arms in Hstored.
  destruct (_get_context_arms context_key b) as [b1 arms]. simpl in *.
  unfold arm.
  destruct (arms !! strategy) as [st0|] eqn:E0; [|auto].
  destruct (_global_stats b1 !! strategy) as [gst0|] eqn:G0; [|auto].
  simpl. split.
  - intros s st H. destruct (decide (strategy = s)) as [<-|Hne].
    + rewrite lookup_insert_eq in H. injection H as <-.
      apply apply_outcome_counts. eapply Hg1; eassumption.
    + rewrite lookup_insert_ne in H by exact Hne. eapply Hg1; eassumption.
  - intros ctx arms' s st H Hs.
    destruct (decide (context_key = ctx)) as [<-|Hne].
    + rewrite lookup_insert_eq in H. injection H as <-.
      destruct (decide (strategy = s)) as [<-|Hne'].
      * rewrite lookup_insert_eq in Hs. injection Hs as <-.
        apply apply_outcome_counts. eapply Ha1; eassumption.
      * rewrite lookup_insert_ne in Hs by exact Hne'. eapply Ha1; eassumption.
    + rewrite lookup_insert_ne in H by exact Hne. eapply Ha1; eassumption.
Qed.

(** X29: the counters of the bandit add up.  In a bandit built by
    [StrategyBandit(...)] and any series of [update] calls (returning or
    raising), every global record and every arm has non-negative [wins]
    and [regressions] with [wins + regressions <= tries]: an outcome is
    counted as a win or as a regression, never as both. *)
Theorem update_keeps_counts_consistent strategies bonus calls :
  let b := updates calls (new_bandit strategies bonus) in
  (forall s st, b.(_global_stats) !! s = Some st -> counts_consistent st)
  /\ (forall ctx arms s st,
        b.(_arms) !! ctx = Some arms -> arms !! s = Some st ->
        counts_consistent st).
Proof.
  cbv zeta. unfold updates.
  assert (Hstart :
    (forall s st,
       (new_bandit strategies bonus).(_global_stats) !! s = Some st ->
       counts_consistent st)
    /\ (forall ctx arms s st,
          (new_bandit strategies bonus).(_arms) !! ctx = Some arms ->
          arms !! s = Some st -> counts_consistent st)).
  { split; simpl.
    - intros s st H. apply lookup_gset_to_gmap_Some in H as [_ <-].
      repeat split; simpl; lia.
    - intros ctx arms s st H. rewrite lookup_empty in H. discriminate H. }
  revert Hstart. generalize (new_bandit strategies bonus).
  induction calls as [|call rest IH]; intros b Hb; simpl; [exact Hb|].
  apply IH. destruct Hb as [Hg Ha]. now apply updated_counts.
Qed.

End BanditUpdateFrame.

Section BanditSelectionExamples.
Import Py Samples Bandit.

Lemma selection_returns_registered_witness :
  "fix_import" ∈ used_bandit.(strategies)
  /\ ((exists s', s' ∈ used_bandit.(strategies)
                  /\ s' ∉ default (∅ : gset string) None) ->
      "fix_import" ∉ default (∅ : gset string) None).
Proof.
  apply (proj1 (selection_returns_registered (fun _ => Ok 0%float)
                  (fun x => Ok x) (fun _ => 0%float) some_draws used_bandit
                  "ctx" None "thompson" "fix_import")).
  vm_compute. reflexivity.
Defined.

Lemma thompson_select_returns_witness :
  exists s,
    snd (select (fun _ => Ok 0%float) (fun x => Ok x) (fun _ => 0%float)
           some_draws "ctx"
           (Some ({["guard_none"; "fix_import"]} : gset string))
           "thompson" used_bandit) = Some (Ok s).
Proof.
  apply thompson_select_returns.
  - apply used_bandit_wf.
  - vm_compute. discriminate.
  - intros arms s st _ _. exists 0.5%float. reflexivity.
Defined.

Lemma register_strategy_misses_contexts_witness :
  snd (select (fun _ => Ok 0%float) (fun x => Ok x) (fun _ => 0%float)
         some_draws "ctx" None "ucb"
         (register_strategy "add_test" used_bandit))
  = Some (Raise (KeyError "add_test"))
  /\ update "ctx" "add_test" true false None
       (register_strategy "add_test" used_bandit)
     = (register_strategy "add_test" used_bandit,
        Raise (KeyError "add_test")).
Proof.
  apply (register_strategy_misses_contexts (fun _ => Ok 0%float)
           (fun x => Ok x) (fun _ => 0%float) some_draws used_bandit "ctx"
           (context_arms used_bandit "ctx")).
  - apply used_bandit_wf.
  - vm_compute. reflexivity.
  - vm_compute. reflexivity.
  - set_solver.
Defined.

End BanditSelectionExamples.

